(** * speedlingo: fork, clone, analyse, commit and push

    A shallow embedding of [main.go].  The program is a sequential script over
    the outside world (forge API, file system, a git repository, an external
    tool, the clock), so it is embedded as a state monad over an explicit
    [World], with the answers of the outside world supplied by an [Env].
    Go's [(value, error)] results, [log.Fatal] (which ends the process
    through [os.Exit(1)] without running deferred calls) and the polling
    loop are part of the monad's result type. *)

From Stdlib Require Import ZArith String Ascii List Lia.
From stdpp Require Import gmap strings list fin_maps.

Local Open Scope string_scope.
Local Open Scope Z_scope.

(** ** Errors (github.com/juju/errors) *)

Inductive error : Type :=
| New (msg : string)                    (* errors.New, and errors of libraries *)
| Trace (e : error)                     (* errors.Trace(err) *)
| Annotate (e : error) (msg : string).  (* errors.Annotate(err, msg) *)

(** [errors.Cause]: the error at the bottom of the wrapping. *)
Fixpoint Cause (e : error) : error :=
  match e with
  | New _ => e
  | Trace e' => Cause e'
  | Annotate e' _ => Cause e'
  end.

(** [err.Error()] *)
Fixpoint Error (e : error) : string :=
  match e with
  | New msg => msg
  | Trace e' => Error e'
  | Annotate e' msg => msg ++ ": " ++ Error e'
  end.

(** ** strings.Contains *)

Fixpoint Contains (s substr : string) : bool :=
  String.prefix substr s ||
  match s with
  | EmptyString => false
  | String _ s' => Contains s' substr
  end.

(** ** Constants of main.go *)

Record config : Type := { Username : string; Email : string; Token : string }.

Definition nl : string := String (ascii_of_nat 10) EmptyString.

Definition yamlDataReview : string :=
  "tenets:" ++ nl ++
  "  - import: codelingo/code-review-comments" ++ nl ++
  "  - import: codelingo/effective-go" ++ nl.

Definition yamlDataRewrite : string :=
  "tenets:" ++ nl ++
  "  - import: codelingo/effective-go/comment-first-word-as-subject" ++ nl.

Definition configFile : string := "config.yaml".
Definition ignoreData : string := "vendor/".
Definition yamlName : string := "codelingo.yaml".
Definition ignoreFileName : string := ".codelingoignore".
Definition commitMessageRewrite : string :=
  "Update comments based on best practices from Effective Go".
Definition branchName : string := "rewrite".

Definition scheduledMsg : string :=
  "job scheduled on GitHub side; try again later".
Definition unknownCommandMsg : string :=
  "command not found. Commands available: review, rewrite".

(** time.Duration, in nanoseconds *)
Definition Second : Z := 1000000000.
Definition Minute : Z := 60 * Second.

(** ** The data of the outside world *)

(** An entry of a directory tree, keyed by its path relative to the root. *)
Inductive node : Type :=
| NFile (content : string)
| NDir.

Definition Hash : Type := nat.
(** plumbing.ZeroHash: the hash of no object. *)
Definition ZeroHash : Hash := 0%nat.

Record Signature : Type := { Name : string; SigEmail : string; When : Z }.

Record Commit : Type := {
  c_message : string;
  c_author : Signature;
  c_files : gmap string string;   (* the commit's tree: path -> content *)
  c_parent : Hash
}.

(** The state under [.git] of the one repository of a run.  Object [h]
    ([h > 0]) is [objects !! (h - 1)]. *)
Record Repository : Type := {
  objects : list Commit;
  refs : gmap string Hash;        (* refs/heads/... -> commit *)
  HEAD : string;                  (* the reference HEAD points to *)
  index : gmap string string      (* the staging area *)
}.

Definition Cmd : Type := list string.

(** github.Repository, as far as the program reads it. *)
Record GhRepository : Type := { HTMLURL : string }.

(** os.FileInfo, as far as the program reads it. *)
Record FileInfo : Type := { fi_Name : string; fi_IsDir : bool }.

(** Every call that reaches outside the process leaves an event. *)
Inductive Event : Type :=
| EvPrintln (s : string)
| EvFatal (e : option error)
| EvMkdirAll (path : string)
| EvReadFile (path : string)
| EvCreateFork (owner repo : string)
| EvGet (owner repo : string)
| EvNow (t : Z)
| EvSleep (d : Z)
| EvTempDir (dir : string)
| EvClone (dir url : string)
| EvChdir (dir : string)
| EvRun (cmd : Cmd) (seen : gmap string node)
| EvRemoveAll (dir : string)
| EvReadDir (dir : string)
| EvWriteFile (path data : string)
| EvWorktree
| EvCheckout (create : bool) (branch : string)
| EvAddGlob (pattern : string)
| EvRemove (path : string)
| EvCommit (msg : string)
| EvCommitObject (h : Hash)
| EvPush (remote user password : string).

(** The calls that can fail for reasons outside the model (permissions, a
    full disk, the network): the environment decides, call by call. *)
Inductive Op : Type :=
| OpMkdirAll
| OpChdir
| OpReadDir
| OpWriteFile (path : string)
| OpRemoveAll
| OpRun
| OpWorktree
| OpCheckout (create : bool)
| OpAddGlob
| OpRemove (path : string)
| OpCommit
| OpUpdateHEAD
| OpCommitObject
| OpPush.

Record World : Type := {
  disk : gmap string (gmap string node);  (* directory -> its tree *)
  cwd : string;
  conf : config;                          (* the global [conf] *)
  repo : Repository;
  repo_dir : option string;               (* the directory [repo] was cloned into *)
  remote_heads : gmap string Commit;      (* branches of the fork, resolved *)
  now : Z;                                (* the clock *)
  clock_reads : nat;
  get_calls : nat;
  trace : list Event
}.

Record Env : Type := {
  Args : list string;                                 (* os.Args *)
  HOME : string;                                      (* os.Getenv("HOME") *)
  ReadFile_result : string -> string + error;
  UnmarshalStrict : string -> config -> config * option error;
  CreateFork_result : GhRepository + error;
  Get_result : nat -> GhRepository + error;           (* by attempt *)
  elapsed : nat -> Z;             (* time gone by before a clock reading *)
  TempDir_result : string + error;
  Clone_result : (Repository * gmap string node) + error;
  tool : Cmd -> gmap string node -> gmap string node * option error;
  fault : Op -> nat -> option error   (* by call and position in the trace *)
}.

(** ** The monad: state, Go errors, process exit, loop fuel *)

Inductive Res (A : Type) : Type :=
| Ok (a : A)          (* the call returned, [err == nil] *)
| Err (e : error)     (* the call returned [err != nil] *)
| Exit (code : Z)     (* os.Exit: the process is gone, deferred calls unrun *)
| OutOfFuel.          (* the model's loop bound was reached *)
Arguments Ok {A} a.
Arguments Err {A} e.
Arguments Exit {A} code.
Arguments OutOfFuel {A}.

Definition M (A : Type) : Type := World -> Res A * World.

Definition ret {A : Type} (a : A) : M A := fun w => (Ok a, w).

Definition bind {A B : Type} (m : M A) (k : A -> M B) : M B :=
  fun w =>
    match m w with
    | (Ok a, w') => k a w'
    | (Err e, w') => (Err e, w')
    | (Exit c, w') => (Exit c, w')
    | (OutOfFuel, w') => (OutOfFuel, w')
    end.

(** A primitive step, given as a function on the world. *)
Definition prim {A : Type} (f : World -> Res A * World) : M A := f.

#[global] Instance M_ret : MRet M := @ret.
#[global] Instance M_bind : MBind M := fun A B k m => bind m k.

(** [x, err := f(); if err != nil { ... }] where the program looks at the
    error itself. *)
Definition attempt {A : Type} (m : M A) : M (A + error) :=
  fun w =>
    match m w with
    | (Ok a, w') => (Ok (inl a), w')
    | (Err e, w') => (Ok (inr e), w')
    | (Exit c, w') => (Exit c, w')
    | (OutOfFuel, w') => (OutOfFuel, w')
    end.

(** [if err != nil { return errors.Trace(err) }] *)
Definition traced {A : Type} (m : M A) : M A :=
  fun w =>
    match m w with
    | (Err e, w') => (Err (Trace e), w')
    | r => r
    end.

(** [defer d]: [d] runs when the function returns, with or without an error;
    it does not run when the process exits under it. *)
Definition defer {A B : Type} (d : M B) (body : M A) : M A :=
  fun w =>
    match body w with
    | (Ok a, w') => (Ok a, snd (d w'))
    | (Err e, w') => (Err e, snd (d w'))
    | r => r
    end.

(** ** World updates *)

Definition with_trace (t : list Event) (w : World) : World :=
  {| disk := disk w; cwd := cwd w; conf := conf w; repo := repo w; repo_dir := repo_dir w;
     remote_heads := remote_heads w; now := now w;
     clock_reads := clock_reads w; get_calls := get_calls w; trace := t |}.

Definition with_disk (d : gmap string (gmap string node)) (w : World) : World :=
  {| disk := d; cwd := cwd w; conf := conf w; repo := repo w; repo_dir := repo_dir w;
     remote_heads := remote_heads w; now := now w;
     clock_reads := clock_reads w; get_calls := get_calls w; trace := trace w |}.

Definition with_cwd (c : string) (w : World) : World :=
  {| disk := disk w; cwd := c; conf := conf w; repo := repo w; repo_dir := repo_dir w;
     remote_heads := remote_heads w; now := now w;
     clock_reads := clock_reads w; get_calls := get_calls w; trace := trace w |}.

Definition with_conf (c : config) (w : World) : World :=
  {| disk := disk w; cwd := cwd w; conf := c; repo := repo w; repo_dir := repo_dir w;
     remote_heads := remote_heads w; now := now w;
     clock_reads := clock_reads w; get_calls := get_calls w; trace := trace w |}.

Definition with_repo (r : Repository) (w : World) : World :=
  {| disk := disk w; cwd := cwd w; conf := conf w; repo := r; repo_dir := repo_dir w;
     remote_heads := remote_heads w; now := now w;
     clock_reads := clock_reads w; get_calls := get_calls w; trace := trace w |}.

Definition with_remote (r : gmap string Commit) (w : World) : World :=
  {| disk := disk w; cwd := cwd w; conf := conf w; repo := repo w; repo_dir := repo_dir w;
     remote_heads := r; now := now w;
     clock_reads := clock_reads w; get_calls := get_calls w; trace := trace w |}.

Definition with_clock (t : Z) (n : nat) (w : World) : World :=
  {| disk := disk w; cwd := cwd w; conf := conf w; repo := repo w; repo_dir := repo_dir w;
     remote_heads := remote_heads w; now := t;
     clock_reads := n; get_calls := get_calls w; trace := trace w |}.

Definition with_gets (n : nat) (w : World) : World :=
  {| disk := disk w; cwd := cwd w; conf := conf w; repo := repo w; repo_dir := repo_dir w;
     remote_heads := remote_heads w; now := now w;
     clock_reads := clock_reads w; get_calls := n; trace := trace w |}.

(** No repository: what is left when the clone is removed. *)
Definition no_repository : Repository :=
  {| objects := []; refs := ∅; HEAD := EmptyString; index := ∅ |}.

(** The repository [r] is cloned into [dir]. *)
Definition with_clone (dir : string) (r : Repository) (w : World) : World :=
  {| disk := disk w; cwd := cwd w; conf := conf w; repo := r; repo_dir := Some dir;
     remote_heads := remote_heads w; now := now w;
     clock_reads := clock_reads w; get_calls := get_calls w; trace := trace w |}.

(** The directory [dir] is gone, and the repository with it when it was
    cloned into [dir]. *)
Definition without_dir (dir : string) (w : World) : World :=
  let gone := match repo_dir w with
              | Some d => String.eqb d dir
              | None => false
              end in
  {| disk := delete dir (disk w); cwd := cwd w; conf := conf w;
     repo := if gone then no_repository else repo w;
     repo_dir := if gone then None else repo_dir w;
     remote_heads := remote_heads w; now := now w;
     clock_reads := clock_reads w; get_calls := get_calls w; trace := trace w |}.

Definition with_index (i : gmap string string) (r : Repository) : Repository :=
  {| objects := objects r; refs := refs r; HEAD := HEAD r; index := i |}.

(** ** Paths *)

Definition is_slash (c : ascii) : bool := Ascii.eqb c "/"%char.

Fixpoint has_slash (s : string) : bool :=
  match s with
  | EmptyString => false
  | String c s' => is_slash c || has_slash s'
  end.

(** filepath.Join of a directory and a name. *)
Definition filepath_Join (dir name : string) : string := dir ++ "/" ++ name.

(** The directory and the last element of a path, split at its last
    separator; [None] when the path has no separator. *)
Fixpoint split_path (p : string) : option (string * string) :=
  match p with
  | EmptyString => None
  | String c p' =>
      match split_path p' with
      | Some (d, b) => Some (String c d, b)
      | None => if is_slash c then Some (EmptyString, p') else None
      end
  end.

(** The entries ioutil.ReadDir lists: those directly under the root. *)
Definition file_info (e : string * node) : option FileInfo :=
  if has_slash (fst e) then None
  else Some {| fi_Name := fst e;
               fi_IsDir := match snd e with NDir => true | NFile _ => false end |}.

Definition dir_entries (t : gmap string node) : list FileInfo :=
  omap file_info (map_to_list t).

(** The regular files of a working tree, as git sees them. *)
Definition file_of (n : node) : option string :=
  match n with NFile c => Some c | NDir => None end.

Definition tree_files (t : gmap string node) : gmap string string :=
  omap file_of t.

(** Object lookup: [ZeroHash] names no object. *)
Definition get_commit (objs : list Commit) (h : Hash) : option Commit :=
  match h with
  | O => None
  | S n => objs !! n
  end.

(** ** The calls of the program, over the world *)

Section Program.

Variable env : Env.

Definition emit (ev : Event) : M unit :=
  fun w => (Ok tt, with_trace (trace w ++ [ev]) w).

(** The environment may fail a call where it stands in the trace. *)
Definition may_fail (op : Op) : M unit :=
  fun w =>
    match fault env op (length (trace w)) with
    | Some e => (Err e, w)
    | None => (Ok tt, w)
    end.

Definition fail {A : Type} (msg : string) : M A := fun w => (Err (New msg), w).

Definition get_world : M World := fun w => (Ok w, w).

(** fmt.Println *)
Definition Println (s : string) : M unit := emit (EvPrintln s).

(** os.Exit *)
Definition os_Exit {A : Type} (code : Z) : M A := fun w => (Exit code, w).

(** log.Fatal(err): print, then os.Exit(1). *)
Definition log_Fatal {A : Type} (e : option error) : M A :=
  emit (EvFatal e) ;; os_Exit 1.

(** [if err != nil { log.Fatal(err) }] *)
Definition or_Fatal {A : Type} (m : M A) : M A :=
  r ← attempt m;
  match r with
  | inl a => ret a
  | inr e => log_Fatal (Some e)
  end.

(** time.Now(): some time has gone by since the clock was last looked at. *)
Definition time_Now : M Z :=
  fun w =>
    let t := now w + elapsed env (clock_reads w) in
    (Ok t, with_trace (trace w ++ [EvNow t]) (with_clock t (S (clock_reads w)) w)).

(** time.Sleep(d) *)
Definition time_Sleep (d : Z) : M unit :=
  fun w =>
    (Ok tt, with_trace (trace w ++ [EvSleep d]) (with_clock (now w + d) (clock_reads w) w)).

(** *** File system *)

Definition os_MkdirAll (path : string) : M unit :=
  emit (EvMkdirAll path) ;;
  may_fail OpMkdirAll ;;
  prim (fun w =>
    match disk w !! path with
    | Some _ => (Ok tt, w)
    | None => (Ok tt, with_disk (<[path := ∅]> (disk w)) w)
    end).

Definition ioutil_ReadFile (path : string) : M string :=
  emit (EvReadFile path) ;;
  prim (fun w =>
    match ReadFile_result env path with
    | inl data => (Ok data, w)
    | inr e => (Err e, w)
    end).

Definition ioutil_TempDir : M string :=
  fun w =>
    match TempDir_result env with
    | inl dir => (Ok dir, with_trace (trace w ++ [EvTempDir dir])
                            (with_disk (<[dir := ∅]> (disk w)) w))
    | inr e => (Err e, w)
    end.

Definition os_Chdir (dir : string) : M unit :=
  emit (EvChdir dir) ;;
  may_fail OpChdir ;;
  prim (fun w =>
    match disk w !! dir with
    | Some _ => (Ok tt, with_cwd dir w)
    | None => (Err (New "no such file or directory"), w)
    end).

Definition ioutil_ReadDir (dir : string) : M (list FileInfo) :=
  emit (EvReadDir dir) ;;
  may_fail OpReadDir ;;
  prim (fun w =>
    match disk w !! dir with
    | Some t => (Ok (dir_entries t), w)
    | None => (Err (New "no such file or directory"), w)
    end).

(** ioutil.WriteFile: creates or truncates the file; a path with no
    separator is relative to the working directory. *)
Definition ioutil_WriteFile (path data : string) : M unit :=
  emit (EvWriteFile path data) ;;
  may_fail (OpWriteFile path) ;;
  prim (fun w =>
    let '(d, name) := default (cwd w, path) (split_path path) in
    match disk w !! d with
    | Some t =>
        match t !! name with
        | Some NDir => (Err (New "is a directory"), w)
        | _ => (Ok tt, with_disk (<[d := <[name := NFile data]> t]> (disk w)) w)
        end
    | None => (Err (New "no such file or directory"), w)
    end).

(** os.RemoveAll: the directory and everything under it, the [.git] of a
    clone made there included. *)
Definition os_RemoveAll (dir : string) : M unit :=
  emit (EvRemoveAll dir) ;;
  may_fail OpRemoveAll ;;
  prim (fun w => (Ok tt, without_dir dir w)).

(** exec.Command and cmd.Run: the tool works on the current directory. *)
Definition exec_Command (name : string) (args : list string) : Cmd := name :: args.

Definition cmd_Run (cmd : Cmd) : M unit :=
  fun w =>
    match disk w !! cwd w with
    | Some t =>
        let w1 := with_trace (trace w ++ [EvRun cmd t]) w in
        match fault env OpRun (length (trace w1)) with
        | Some e => (Err e, w1)
        | None =>
            let '(t', r) := tool env cmd t in
            let w2 := with_disk (<[cwd w := t']> (disk w1)) w1 in
            match r with
            | Some e => (Err e, w2)
            | None => (Ok tt, w2)
            end
        end
    | None => (Err (New "no such file or directory"), w)
    end.

(** *** Forge API (go-github) *)

Definition Repositories_CreateFork (owner repo_name : string) : M GhRepository :=
  emit (EvCreateFork owner repo_name) ;;
  prim (fun w =>
    match CreateFork_result env with
    | inl rf => (Ok rf, w)
    | inr e => (Err e, w)
    end).

Definition Repositories_Get (owner repo_name : string) : M GhRepository :=
  emit (EvGet owner repo_name) ;;
  prim (fun w =>
    let w' := with_gets (S (get_calls w)) w in
    match Get_result env (get_calls w) with
    | inl rf => (Ok rf, w')
    | inr e => (Err e, w')
    end).

(** *** go-git (gopkg.in/src-d/go-git.v4), as its documentation describes it

    - [PlainClone] clones into the given directory;
    - [Worktree.Checkout] switches to a branch; with [Create] it first makes
      the branch at HEAD and fails if a branch of that name exists; without
      [Force] it fails on unstaged changes;
    - [Worktree.AddGlob] adds every path matching the pattern to the index,
      the contents of a matched directory recursively;
    - [Worktree.Remove] removes files from the working tree and from the
      index;
    - [Worktree.Commit] stores the current contents of the index in a new
      commit and moves the branch under HEAD to it; it returns the zero hash
      with an error raised before the commit object exists;
    - [Repository.CommitObject] returns the commit with the given hash;
    - [Repository.Push] updates the branches of the remote. *)

Definition ErrUnstagedChanges : error := New "worktree contains unstaged changes".
Definition ErrReferenceNotFound : error := New "reference not found".
Definition ErrObjectNotFound : error := New "object not found".
Definition ErrEntryNotFound : error := New "entry not found".

Definition dquote : string := String (ascii_of_nat 34) EmptyString.

Definition ErrBranchExists (branch : string) : error :=
  New ("a branch named " ++ dquote ++ branch ++ dquote ++ " already exists").

#[global] Instance node_eq_dec : EqDecision node.
Proof. solve_decision. Defined.

(** An index entry whose file in the working tree is changed or gone. *)
Definition is_unstaged (t : gmap string node) (e : string * string) : bool :=
  negb (bool_decide (t !! fst e = Some (NFile (snd e)))).

Definition unstaged (idx : gmap string string) (t : gmap string node) : bool :=
  existsb (is_unstaged t) (map_to_list idx).

Definition git_PlainClone (dir url : string) : M string :=
  emit (EvClone dir url) ;;
  prim (fun w =>
    match Clone_result env with
    | inl (r, t) => (Ok dir, with_clone dir r (with_disk (<[dir := t]> (disk w)) w))
    | inr e => (Err e, w)
    end).

Definition Repository_Worktree (r : string) : M string :=
  emit EvWorktree ;;
  may_fail OpWorktree ;;
  ret r.

Definition createBranch (branch : string) : M unit :=
  prim (fun w =>
    let r := repo w in
    match refs r !! branch with
    | Some _ => (Err (ErrBranchExists branch), w)
    | None =>
        match refs r !! HEAD r with
        | None => (Err ErrReferenceNotFound, w)
        | Some h =>
            (Ok tt, with_repo {| objects := objects r; refs := <[branch := h]> (refs r);
                                 HEAD := HEAD r; index := index r |} w)
        end
    end).

Definition Worktree_Checkout (wt : string) (Create : bool) (Branch : string) : M unit :=
  emit (EvCheckout Create Branch) ;;
  may_fail (OpCheckout Create) ;;
  (if Create then createBranch Branch else ret tt) ;;
  prim (fun w =>
    let r := repo w in
    match disk w !! wt with
    | None => (Err (New "no such file or directory"), w)
    | Some t =>
        if unstaged (index r) t then (Err ErrUnstagedChanges, w)
        else
          match refs r !! Branch with
          | None => (Err ErrReferenceNotFound, w)
          | Some h =>
              match get_commit (objects r) h with
              | None => (Err ErrObjectNotFound, w)
              | Some c =>
                  let untracked := filter (fun e => index r !! fst e = None) t in
                  let t' := (NFile <$> c_files c) ∪ untracked in
                  (Ok tt,
                   with_repo {| objects := objects r; refs := refs r;
                                HEAD := Branch; index := c_files c |}
                     (with_disk (<[wt := t']> (disk w)) w))
              end
          end
    end).

(** The model covers the pattern the program uses, ["."]: the whole tree. *)
Definition Worktree_AddGlob (wt : string) (pattern : string) : M unit :=
  emit (EvAddGlob pattern) ;;
  may_fail OpAddGlob ;;
  prim (fun w =>
    match disk w !! wt with
    | None => (Err (New "no such file or directory"), w)
    | Some t =>
        if String.eqb pattern "."
        then (Ok tt, with_repo (with_index (tree_files t ∪ index (repo w)) (repo w)) w)
        else (Err (New "glob pattern outside the model"), w)
    end).

Definition Worktree_Remove (wt : string) (path : string) : M unit :=
  emit (EvRemove path) ;;
  may_fail (OpRemove path) ;;
  prim (fun w =>
    match index (repo w) !! path with
    | None => (Err ErrEntryNotFound, w)
    | Some _ =>
        let w1 := with_repo (with_index (delete path (index (repo w))) (repo w)) w in
        match disk w !! wt with
        | Some t => (Ok tt, with_disk (<[wt := delete path t]> (disk w1)) w1)
        | None => (Ok tt, w1)
        end
    end).

(** Go's [(plumbing.Hash, error)]: both are returned, the program looks at
    the hash only. *)
Definition Worktree_Commit (wt : string) (msg : string) (Author : Signature)
  : M (Hash * option error) :=
  emit (EvCommit msg) ;;
  prim (fun w =>
    match fault env OpCommit (length (trace w)) with
    | Some e => (Ok (ZeroHash, Some e), w)
    | None =>
        let r := repo w in
        let c := {| c_message := msg; c_author := Author; c_files := index r;
                    c_parent := default ZeroHash (refs r !! HEAD r) |} in
        let h : Hash := S (length (objects r)) in
        match fault env OpUpdateHEAD (length (trace w)) with
        | Some e =>
            (Ok (h, Some e),
             with_repo {| objects := objects r ++ [c]; refs := refs r;
                          HEAD := HEAD r; index := index r |} w)
        | None =>
            (Ok (h, None),
             with_repo {| objects := objects r ++ [c]; refs := <[HEAD r := h]> (refs r);
                          HEAD := HEAD r; index := index r |} w)
        end
    end).

Definition Repository_CommitObject (r : string) (h : Hash) : M Commit :=
  emit (EvCommitObject h) ;;
  may_fail OpCommitObject ;;
  prim (fun w =>
    match get_commit (objects (repo w)) h with
    | Some c => (Ok c, w)
    | None => (Err ErrObjectNotFound, w)
    end).

Definition Repository_Push (r : string) (RemoteName user password : string) : M unit :=
  emit (EvPush RemoteName user password) ;;
  may_fail OpPush ;;
  prim (fun w =>
    let heads := omap (get_commit (objects (repo w))) (refs (repo w)) in
    (Ok tt, with_remote (heads ∪ remote_heads w) w)).

(** ** main.go *)

Definition reviewResultsDir : string := HOME env ++ "/speedlingo-review-results".

Definition unmarshalConfigFile : M config :=
  let result := {| Username := EmptyString; Email := EmptyString; Token := EmptyString |} in
  str ← traced (ioutil_ReadFile configFile);
  let '(result, err) := UnmarshalStrict env str result in
  ret result.

Definition runCmd (dir : string) (cmd : Cmd) : M unit :=
  traced (os_Chdir dir) ;;
  Println "Running lingo command..." ;;
  err ← attempt (cmd_Run cmd);
  match err with
  | inr err =>
      attempt (os_RemoveAll dir) ;;
      prim (fun w => (Err (Annotate err "cmd.Run() failed:"), w))
  | inl _ => ret tt
  end.

(** [for _, file := range files { ... }] of both handlers. *)
Fixpoint vendorLoop (files : list FileInfo) (needsIgnoreFile : bool) : M bool :=
  match files with
  | [] => ret needsIgnoreFile
  | file :: files' =>
      if String.eqb (fi_Name file) "vendor" && fi_IsDir file
      then Println "Found vendor directory" ;; vendorLoop files' true
      else vendorLoop files' needsIgnoreFile
  end.

Definition handleRewrite (dir token : string) (r : string) (cmd : Cmd) : M unit :=
  traced (os_Chdir dir) ;;
  worktree ← traced (Repository_Worktree r);
  let branch := "refs/heads/" ++ branchName in
  let b := branch in
  err ← attempt (Worktree_Checkout worktree false b);
  match err with
  | inr _ => traced (Worktree_Checkout worktree true b)
  | inl _ => ret tt
  end ;;
  Println "Created new branch" ;;
  files ← traced (ioutil_ReadDir dir);
  needsIgnoreFile ← vendorLoop files false;
  traced (ioutil_WriteFile (filepath_Join dir yamlName) yamlDataRewrite) ;;
  (if needsIgnoreFile : bool
   then traced (ioutil_WriteFile (filepath_Join dir ignoreFileName) ignoreData) ;;
        Println ("Wrote " ++ ignoreFileName ++ " file")
   else ret tt) ;;
  Println ("Wrote " ++ yamlName ++ " file") ;;
  traced (runCmd dir cmd) ;;
  traced (Worktree_AddGlob worktree ".") ;;
  traced (Worktree_Remove worktree yamlName) ;;
  (if needsIgnoreFile : bool
   then traced (Worktree_Remove worktree ignoreFileName)
   else ret tt) ;;
  w ← get_world;
  when ← time_Now;
  res ← Worktree_Commit worktree commitMessageRewrite
          {| Name := Username (conf w); SigEmail := Email (conf w); When := when |};
  let commit := fst res in
  traced (Repository_CommitObject r commit) ;;
  Println "Committed" ;;
  traced (Repository_Push r "origin" "emptystring" token) ;;
  Println "Pushed" ;;
  ret tt.

Definition handleReview (dir token : string) (r : string) (cmd : Cmd) : M unit :=
  files ← traced (ioutil_ReadDir dir);
  needsIgnoreFile ← vendorLoop files false;
  traced (ioutil_WriteFile (filepath_Join dir yamlName) yamlDataRewrite) ;;
  (if needsIgnoreFile : bool
   then traced (ioutil_WriteFile (filepath_Join dir ignoreFileName) ignoreData) ;;
        Println ("Wrote " ++ ignoreFileName ++ " file")
   else ret tt) ;;
  Println ("Wrote " ++ yamlName ++ " file") ;;
  traced (runCmd dir cmd) ;;
  ret tt.

(** The [for] loop of [main]: [err] is the variable the loop overwrites. *)
Fixpoint pollFork (fuel : nat) (timeout : Z) (repo_name : string) (err : option error)
  : M GhRepository :=
  match fuel with
  | O => prim (fun w => (OutOfFuel, w))
  | S fuel' =>
      t ← time_Now;
      if timeout <? t then log_Fatal err
      else
        w ← get_world;
        r ← attempt (Repositories_Get (Username (conf w)) repo_name);
        match r with
        | inr e =>
            Println (Error e) ;;
            time_Sleep (Second * 2) ;;
            pollFork fuel' timeout repo_name (Some e)
        | inl rf => ret rf
        end
  end.

Definition main (fuel : nat) : M unit :=
  if negb (length (Args env) =? 4)%nat
  then Println "Usage: speedlingo <command> <owner> <repo name>" ;; os_Exit 1
  else
    or_Fatal (os_MkdirAll reviewResultsDir) ;;
    c ← or_Fatal unmarshalConfigFile;
    prim (fun w => (Ok tt, with_conf c w)) ;;
    let owner := nth 2 (Args env) EmptyString in
    let repo_name := nth 3 (Args env) EmptyString in
    r ← attempt (Repositories_CreateFork owner repo_name);
    match r return M unit with
    | inr err =>
        if negb (Contains (Error err) scheduledMsg)
        then log_Fatal (Some err)
        else ret tt
    | inl _ => ret tt
    end ;;
    let err := match r with inr e => Some e | inl _ => None end in
    t0 ← time_Now;
    let timeout := t0 + Minute * 5 in
    rf ← pollFork fuel timeout repo_name err;
    Println "Forked" ;;
    dir ← or_Fatal ioutil_TempDir;
    defer (os_RemoveAll dir)
      (Println "Created temp dir" ;;
       Println ("Attempting to clone " ++ HTMLURL rf) ;;
       r ← or_Fatal (git_PlainClone dir (HTMLURL rf));
       Println ("Cloned to " ++ dir) ;;
       let command := nth 1 (Args env) EmptyString in
       if String.eqb command "review" then
         Println ("Results will be stored in " ++ reviewResultsDir) ;;
         let cmd := exec_Command "lingo"
                      ["run"; "review"; "--debug"; "--keep-all"; "-o";
                       reviewResultsDir ++ "/" ++ repo_name ++ "-" ++ "results.json"] in
         w ← get_world;
         or_Fatal (handleReview dir (Token (conf w)) r cmd)
       else if String.eqb command "rewrite" then
         let cmd := exec_Command "lingo" ["run"; "rewrite"; "--debug"; "--keep-all"] in
         w ← get_world;
         or_Fatal (handleRewrite dir (Token (conf w)) r cmd)
       else log_Fatal (Some (New unknownCommandMsg))).

End Program.

(** ** A strict decoder for flat YAML documents

    yaml.v2 describes [UnmarshalStrict] as [Unmarshal], except that a field
    of the data with no corresponding struct member, or a duplicated mapping
    key, results in an error.  The decoder below does this for documents made
    of [key: value] lines, which is what a credentials file is; the struct is
    filled in either way. *)

Definition is_nl (c : ascii) : bool := Ascii.eqb c (ascii_of_nat 10).

Fixpoint yaml_lines (s cur : string) : list string :=
  match s with
  | EmptyString => match cur with EmptyString => [] | _ => [cur] end
  | String c s' =>
      if is_nl c then cur :: yaml_lines s' EmptyString
      else yaml_lines s' (cur ++ String c EmptyString)
  end.

Definition drop_space (s : string) : string :=
  match s with
  | String c s' => if Ascii.eqb c " "%char then s' else s
  | EmptyString => s
  end.

Fixpoint yaml_field (line : string) : option (string * string) :=
  match line with
  | EmptyString => None
  | String c rest =>
      if Ascii.eqb c ":"%char then Some (EmptyString, drop_space rest)
      else match yaml_field rest with
           | Some (k, v) => Some (String c k, v)
           | None => None
           end
  end.

Definition set_field (k v : string) (c : config) : option config :=
  if String.eqb k "username" then Some {| Username := v; Email := Email c; Token := Token c |}
  else if String.eqb k "email" then Some {| Username := Username c; Email := v; Token := Token c |}
  else if String.eqb k "token" then Some {| Username := Username c; Email := Email c; Token := v |}
  else None.

Fixpoint yaml_decode (fields : list (string * string)) (seen : list string)
    (c : config) (err : option error) : config * option error :=
  match fields with
  | [] => (c, err)
  | (k, v) :: fields' =>
      let first (e : error) := Some (default e err) in
      if bool_decide (k ∈ seen)
      then yaml_decode fields' seen c
             (first (New ("yaml: key " ++ k ++ " already set in map")))
      else
        match set_field k v c with
        | Some c' => yaml_decode fields' (k :: seen) c' err
        | None =>
            yaml_decode fields' (k :: seen) c
              (first (New ("yaml: field " ++ k ++ " not found in type main.config")))
        end
  end.

Definition yaml_UnmarshalStrict (data : string) (into : config) : config * option error :=
  yaml_decode (omap yaml_field (yaml_lines data EmptyString)) [] into None.

(** ** A concrete run: forking [acme/widget] as [bot] *)

Definition ex_files : gmap string string :=
  {[ "main.go" := "package main"; "vendor/dep/dep.go" := "package dep" ]}.

Definition ex_init : Commit :=
  {| c_message := "init";
     c_author := {| Name := "dev"; SigEmail := "dev@example.org"; When := 0 |};
     c_files := ex_files; c_parent := ZeroHash |}.

Definition ex_repo : Repository :=
  {| objects := [ex_init]; refs := {[ "refs/heads/master" := 1%nat ]};
     HEAD := "refs/heads/master"; index := ex_files |}.

Definition ex_tree : gmap string node :=
  <["vendor" := NDir]> (<["vendor/dep" := NDir]> (NFile <$> ex_files)).

Definition ex_config : string :=
  "username: bot" ++ nl ++ "email: bot@example.org" ++ nl ++ "token: s3cret" ++ nl.

(** A credentials file with a fourth field. *)
Definition ex_config_extra : string := ex_config ++ "colour: blue" ++ nl.

Definition ex_tool (cmd : Cmd) (t : gmap string node) : gmap string node * option error :=
  (<["main.go" := NFile "// Package main is the entry point."]> t, None).

Definition no_fault (op : Op) (pos : nat) : option error := None.

Definition fault_at (bad : Op -> bool) (e : error) (op : Op) (pos : nat) : option error :=
  if bad op then Some e else None.

Definition ex_dir : string := "/tmp/123456789".

Definition ex_env (mode cfg : string) (flt : Op -> nat -> option error) : Env :=
  {| Args := ["speedlingo"; mode; "acme"; "widget"];
     HOME := "/home/op";
     ReadFile_result := fun p =>
       if String.eqb p configFile then inl cfg
       else inr (New "open: no such file or directory");
     UnmarshalStrict := yaml_UnmarshalStrict;
     CreateFork_result := inr (New scheduledMsg);
     Get_result := fun n =>
       if (n <? 2)%nat then inr (New "404 Not Found")
       else inl {| HTMLURL := "https://github.com/bot/widget" |};
     elapsed := fun _ => 1000000;
     TempDir_result := inl ex_dir;
     Clone_result := inl (ex_repo, ex_tree);
     tool := ex_tool;
     fault := flt |}.

(** The fork never becomes visible. *)
Definition ex_env_never : Env :=
  {| Args := ["speedlingo"; "rewrite"; "acme"; "widget"];
     HOME := "/home/op";
     ReadFile_result := fun p => inl ex_config;
     UnmarshalStrict := yaml_UnmarshalStrict;
     CreateFork_result := inr (New scheduledMsg);
     Get_result := fun n => inr (New "404 Not Found");
     elapsed := fun _ => 1000000;
     TempDir_result := inl ex_dir;
     Clone_result := inl (ex_repo, ex_tree);
     tool := ex_tool;
     fault := no_fault |}.

(** The forge refuses the fork. *)
Definition ex_env_refused : Env :=
  {| Args := ["speedlingo"; "rewrite"; "acme"; "widget"];
     HOME := "/home/op";
     ReadFile_result := fun p => inl ex_config;
     UnmarshalStrict := yaml_UnmarshalStrict;
     CreateFork_result := inr (New "404 Not Found");
     Get_result := fun n => inr (New "404 Not Found");
     elapsed := fun _ => 1000000;
     TempDir_result := inl ex_dir;
     Clone_result := inl (ex_repo, ex_tree);
     tool := ex_tool;
     fault := no_fault |}.

Definition ex_norepo : Repository :=
  {| objects := []; refs := ∅; HEAD := EmptyString; index := ∅ |}.

Definition ex_world : World :=
  {| disk := ∅; cwd := "/";
     conf := {| Username := EmptyString; Email := EmptyString; Token := EmptyString |};
     repo := ex_norepo; repo_dir := None; remote_heads := ∅;
     now := 0; clock_reads := 0; get_calls := 0; trace := [] |}.

(** The world as [main] hands it to a handler: cloned into [ex_dir]. *)
Definition ex_cloned (r : Repository) : World :=
  {| disk := {[ ex_dir := ex_tree ]}; cwd := "/";
     conf := {| Username := "bot"; Email := "bot@example.org"; Token := "s3cret" |};
     repo := r; repo_dir := Some ex_dir; remote_heads := ∅;
     now := 0; clock_reads := 0; get_calls := 0; trace := [] |}.

Definition ex_cmd : Cmd := exec_Command "lingo" ["run"; "rewrite"; "--debug"; "--keep-all"].

(** ** Reading traces *)

(** The events a run added to the trace. *)
Definition new_events (w w' : World) : list Event :=
  drop (length (trace w)) (trace w').

Definition is_fork_request (ev : Event) : bool :=
  match ev with EvCreateFork _ _ => true | _ => false end.

Definition is_clone (ev : Event) : bool :=
  match ev with EvClone _ _ => true | _ => false end.

Definition is_get (ev : Event) : bool :=
  match ev with EvGet _ _ => true | _ => false end.

Definition is_commit_or_push (ev : Event) : bool :=
  match ev with EvCommit _ | EvPush _ _ _ => true | _ => false end.

Definition is_push (ev : Event) : bool :=
  match ev with EvPush _ _ _ => true | _ => false end.

(** Config injection, tool run and the version-control steps after it. *)
Definition is_pipeline (ev : Event) : bool :=
  match ev with
  | EvWriteFile _ _ | EvRun _ _ | EvCheckout _ _ | EvAddGlob _ | EvRemove _
  | EvCommit _ | EvPush _ _ _ => true
  | _ => false
  end.

Definition is_create_checkout (ev : Event) : bool :=
  match ev with EvCheckout true _ => true | _ => false end.

(** The number of [import:] entries of a configuration document. *)
Fixpoint count_imports (s : string) : nat :=
  match s with
  | EmptyString => 0
  | String _ s' =>
      ((if String.prefix "import:" s then 1 else 0) + count_imports s')%nat
  end.

(** [emits Q m]: whatever [m] does, the trace only grows, by events in [Q]. *)
Definition emits {A : Type} (Q : Event -> Prop) (m : M A) : Prop :=
  forall w r w', m w = (r, w') ->
    exists evs, trace w' = (trace w ++ evs)%list /\ Forall Q evs.

(** The world once a call has left its event. *)
Definition logged (ev : Event) (w : World) : World :=
  with_trace (trace w ++ [ev]) w.

(** The entry the vendor scan of the handlers looks for. *)
Definition is_vendor (file : FileInfo) : bool :=
  String.eqb (fi_Name file) "vendor" && fi_IsDir file.

Definition vendor_prints (files : list FileInfo) : list Event :=
  map (fun _ => EvPrintln "Found vendor directory") (filter (fun f => is_vendor f = true) files).

(** The working tree with the scaffolding of a rewrite run written into it,
    and a tree or index with the scaffolding paths taken out. *)
Definition scaffold (needsIgnoreFile : bool) (t : gmap string node) : gmap string node :=
  (if needsIgnoreFile then <[ignoreFileName := NFile ignoreData]> else id)
    (<[yamlName := NFile yamlDataRewrite]> t).

Definition unscaffold {V : Type} (needsIgnoreFile : bool) (m : gmap string V) : gmap string V :=
  (if needsIgnoreFile then delete ignoreFileName else id) (delete yamlName m).

Definition rewriteBranch : string := "refs/heads/" ++ branchName.

(** The events of a rewrite run from the branch message on, given the tree
    [t0] it scans, the time of the commit and the hash it gets. *)
Definition rewrite_events (dir token : string) (cmd : Cmd) (t0 : gmap string node)
    (when : Z) (h : Hash) : list Event :=
  let needs := existsb is_vendor (dir_entries t0) in
  ([EvPrintln "Created new branch"; EvReadDir dir] ++
   vendor_prints (dir_entries t0) ++
   [EvWriteFile (filepath_Join dir yamlName) yamlDataRewrite] ++
   (if needs
    then [EvWriteFile (filepath_Join dir ignoreFileName) ignoreData;
          EvPrintln ("Wrote " ++ ignoreFileName ++ " file")]
    else []) ++
   [EvPrintln ("Wrote " ++ yamlName ++ " file"); EvChdir dir;
    EvPrintln "Running lingo command..."; EvRun cmd (scaffold needs t0);
    EvAddGlob "."; EvRemove yamlName] ++
   (if needs then [EvRemove ignoreFileName] else []) ++
   [EvNow when; EvCommit commitMessageRewrite; EvCommitObject h;
    EvPrintln "Committed"; EvPush "origin" "emptystring" token;
    EvPrintln "Pushed"])%list.

(** The example run in rewrite mode, and the world a handler leaves. *)
Definition ex_rewrite_env : Env := ex_env "rewrite" ex_config no_fault.

Definition ex_review_env : Env := ex_env "review" ex_config no_fault.

Definition ex_rewrite_end : World :=
  snd (handleRewrite ex_rewrite_env ex_dir "s3cret" ex_dir ex_cmd (ex_cloned ex_repo)).

Definition ex_review_end : World :=
  snd (handleReview ex_review_env ex_dir "s3cret" ex_dir ex_cmd (ex_cloned ex_repo)).

(** The specification's reading of [Worktree.Remove] as unstaging only: after
    a rewrite run the configuration file would still be in the working
    tree. *)
Definition scaffolding_left_on_disk (env : Env) (dir token : string) (cmd : Cmd)
    (w : World) : Prop :=
  forall w', handleRewrite env dir token dir cmd w = (Ok tt, w') ->
    exists t, disk w' !! dir = Some t /\ is_Some (t !! yamlName).

(** ** The stages of [main]

    [main] is one function; its stages are named here for the proofs, and
    [main_stages] below shows that [main] is their composition. *)

Definition main_dispatch (env : Env) (dir r repo_name : string) : M unit :=
  let command := nth 1 (Args env) EmptyString in
  if String.eqb command "review" then
    Println ("Results will be stored in " ++ reviewResultsDir env) ;;
    let cmd := exec_Command "lingo"
                 ["run"; "review"; "--debug"; "--keep-all"; "-o";
                  reviewResultsDir env ++ "/" ++ repo_name ++ "-" ++ "results.json"] in
    w ← get_world;
    or_Fatal (handleReview env dir (Token (conf w)) r cmd)
  else if String.eqb command "rewrite" then
    let cmd := exec_Command "lingo" ["run"; "rewrite"; "--debug"; "--keep-all"] in
    w ← get_world;
    or_Fatal (handleRewrite env dir (Token (conf w)) r cmd)
  else log_Fatal (Some (New unknownCommandMsg)).

Definition main_workspace (env : Env) (repo_name : string) (rf : GhRepository) : M unit :=
  Println "Forked" ;;
  dir ← or_Fatal (ioutil_TempDir env);
  defer (os_RemoveAll env dir)
    (Println "Created temp dir" ;;
     Println ("Attempting to clone " ++ HTMLURL rf) ;;
     r ← or_Fatal (git_PlainClone env dir (HTMLURL rf));
     Println ("Cloned to " ++ dir) ;;
     main_dispatch env dir r repo_name).

Definition main_poll (env : Env) (fuel : nat) (repo_name : string) (err : option error)
  : M unit :=
  t0 ← time_Now env;
  rf ← pollFork env fuel (t0 + Minute * 5) repo_name err;
  main_workspace env repo_name rf.

Definition main_fork (env : Env) (fuel : nat) : M unit :=
  let owner := nth 2 (Args env) EmptyString in
  let repo_name := nth 3 (Args env) EmptyString in
  r ← attempt (Repositories_CreateFork env owner repo_name);
  match r return M unit with
  | inr err =>
      if negb (Contains (Error err) scheduledMsg)
      then log_Fatal (Some err)
      else ret tt
  | inl _ => ret tt
  end ;;
  main_poll env fuel repo_name (match r with inr e => Some e | inl _ => None end).

(** The zero value of [config]. *)
Definition no_config : config := {| Username := EmptyString; Email := EmptyString; Token := EmptyString |}.

(** The credentials a readable file loads as. *)
Definition loaded_config (env : Env) (data : string) : config :=
  fst (UnmarshalStrict env data no_config).

(** The world when [main] is about to ask for the fork: the results
    directory is there and the credentials are loaded. *)
Definition started (env : Env) (data : string) (w : World) : World :=
  let w1 := logged (EvMkdirAll (reviewResultsDir env)) w in
  let w2 := match disk w1 !! reviewResultsDir env with
            | Some _ => w1
            | None => with_disk (<[reviewResultsDir env := ∅]> (disk w1)) w1
            end in
  with_conf (loaded_config env data) (logged (EvReadFile configFile) w2).

(** The fork request was accepted: at once, or as scheduled. *)
Definition fork_accepted (env : Env) : Prop :=
  match CreateFork_result env with
  | inl _ => True
  | inr e => Contains (Error e) scheduledMsg = true
  end.

Definition fork_err (env : Env) : option error :=
  match CreateFork_result env with
  | inl _ => None
  | inr e => Some e
  end.

(** The events of a polling phase that runs into its deadline: attempts at
    clock readings within the deadline, each followed by the print of its
    error and a sleep of two seconds, then a reading past the deadline and
    the fatal log of the error last assigned.  [lo] bounds the next clock
    reading from below. *)
Inductive poll_timeout (timeout : Z) (user repo_name : string)
  : Z -> option error -> list Event -> Prop :=
| poll_deadline lo t err :
    lo <= t -> timeout < t ->
    poll_timeout timeout user repo_name lo err [EvNow t; EvFatal err]
| poll_retry lo t e err evs :
    lo <= t -> t <= timeout ->
    poll_timeout timeout user repo_name (t + Second * 2) (Some e) evs ->
    poll_timeout timeout user repo_name lo err
      (EvNow t :: EvGet user repo_name :: EvPrintln (Error e)
         :: EvSleep (Second * 2) :: evs).

(** What the spec's C5 asks of a run with an unknown mode: it ends in the
    unsupported-command error, and has asked for no fork and made no clone. *)
Definition mode_error_without_effects (env : Env) (fuel : nat) (w : World) : Prop :=
  let w' := snd (main env fuel w) in
  fst (main env fuel w) = Exit 1 /\
  last (new_events w w') = Some (EvFatal (Some (New unknownCommandMsg))) /\
  Forall (fun ev => is_fork_request ev = false /\ is_clone ev = false) (new_events w w').

(** Before the workspace stage a run leaves no clone and no pipeline event. *)
Definition early (ev : Event) : Prop := is_pipeline ev = false /\ is_clone ev = false.

(** The example run with a mode the program does not know. *)
Definition ex_unknown_env : Env := ex_env "deploy" ex_config no_fault.

Definition ex_unknown_end : World := snd (main ex_unknown_env 200 ex_world).

(** The events of the workspace stage up to the clone. *)
Definition workspace_events (dir url : string) : list Event :=
  [EvPrintln "Forked"; EvTempDir dir; EvPrintln "Created temp dir";
   EvPrintln ("Attempting to clone " ++ url); EvClone dir url].

(** Runs in which one call is failed by the environment. *)
Definition is_op_push (op : Op) : bool :=
  match op with OpPush => true | _ => false end.

Definition is_op_commit (op : Op) : bool :=
  match op with OpCommit => true | _ => false end.

Definition is_op_update_head (op : Op) : bool :=
  match op with OpUpdateHEAD => true | _ => false end.

Definition is_op_run (op : Op) : bool :=
  match op with OpRun => true | _ => false end.

Definition ex_push_error : error := New "authentication required".
Definition ex_commit_error : error := New "cannot write the commit object".
Definition ex_tool_error : error := New "exit status 1".

Definition ex_push_fails_env : Env :=
  ex_env "rewrite" ex_config (fault_at is_op_push ex_push_error).

Definition ex_commit_fails_env : Env :=
  ex_env "rewrite" ex_config (fault_at is_op_commit ex_commit_error).

Definition ex_update_head_fails_env : Env :=
  ex_env "rewrite" ex_config (fault_at is_op_update_head ex_commit_error).

Definition ex_tool_fails_env : Env :=
  ex_env "rewrite" ex_config (fault_at is_op_run ex_tool_error).

Definition is_remove_all (ev : Event) : bool :=
  match ev with EvRemoveAll _ => true | _ => false end.

(** The world of a rewrite handler after chdir and worktree lookup, where
    branch resolution starts. *)
Definition at_branch_resolution (dir : string) (w : World) : World :=
  logged EvWorktree (with_cwd dir (logged (EvChdir dir) w)).

(** ** What a computation leaves alone, and how it can end *)

(** [keeps f m]: [m] never changes the part [f] of the world. *)
Definition keeps {A X : Type} (f : World -> X) (m : M A) : Prop :=
  forall w r w', m w = (r, w') -> f w' = f w.

(** [m] changes the branches of the fork only when it returns without an
    error. *)
Definition remote_on_ok {A : Type} (m : M A) : Prop :=
  forall w r w', m w = (r, w') -> (forall a, r <> Ok a) ->
    remote_heads w' = remote_heads w.

(** [m] never returns without an error. *)
Definition never_ok {A : Type} (m : M A) : Prop :=
  forall w r w', m w = (r, w') -> forall a, r <> Ok a.

(** [m] returns, with or without an error: it neither ends the process nor
    loops. *)
Definition returns {A : Type} (m : M A) : Prop :=
  forall w r w', m w = (r, w') -> (exists a, r = Ok a) \/ (exists e, r = Err e).

(** [m] returns without an error, or ends the process with status 1 (or the
    model's loop bound is reached). *)
Definition fatal1 {A : Type} (m : M A) : Prop :=
  forall w r w', m w = (r, w') -> (exists a, r = Ok a) \/ r = Exit 1 \/ r = OutOfFuel.

(** The calls on the repository and its remote. *)
Definition is_vcs (ev : Event) : bool :=
  match ev with
  | EvClone _ _ | EvWorktree | EvCheckout _ _ | EvAddGlob _ | EvRemove _
  | EvCommit _ | EvCommitObject _ | EvPush _ _ _ => true
  | _ => false
  end.

(** Staging, commit and push: what follows the tool in rewrite mode. *)
Definition is_publish (ev : Event) : bool :=
  match ev with
  | EvAddGlob _ | EvRemove _ | EvCommit _ | EvCommitObject _ | EvPush _ _ _ => true
  | _ => false
  end.

Definition is_run (ev : Event) : bool :=
  match ev with EvRun _ _ => true | _ => false end.

Definition usageMsg : string := "Usage: speedlingo <command> <owner> <repo name>".

(** Further example runs: too few arguments, and no credentials file. *)
Definition ex_short_env : Env :=
  {| Args := ["speedlingo"; "review"];
     HOME := "/home/op";
     ReadFile_result := fun p => inl ex_config;
     UnmarshalStrict := yaml_UnmarshalStrict;
     CreateFork_result := inr (New scheduledMsg);
     Get_result := fun n => inl {| HTMLURL := "https://github.com/bot/widget" |};
     elapsed := fun _ => 1000000;
     TempDir_result := inl ex_dir;
     Clone_result := inl (ex_repo, ex_tree);
     tool := ex_tool;
     fault := no_fault |}.



Definition ex_tool_fails_end : World :=
  snd (runCmd ex_tool_fails_env ex_dir ex_cmd (ex_cloned ex_repo)).

Definition runFailedMsg : string := "cmd.Run() failed:".

(** The events of a review run that returns without an error, given the
    tree [t0] it scans. *)
Definition review_events (dir : string) (cmd : Cmd) (t0 : gmap string node) : list Event :=
  let needs := existsb is_vendor (dir_entries t0) in
  ([EvReadDir dir] ++
   vendor_prints (dir_entries t0) ++
   [EvWriteFile (filepath_Join dir yamlName) yamlDataRewrite] ++
   (if needs
    then [EvWriteFile (filepath_Join dir ignoreFileName) ignoreData;
          EvPrintln ("Wrote " ++ ignoreFileName ++ " file")]
    else []) ++
   [EvPrintln ("Wrote " ++ yamlName ++ " file"); EvChdir dir;
    EvPrintln "Running lingo command..."; EvRun cmd (scaffold needs t0)])%list.

(** A tool that exits with status 1, leaving the tree as it is. *)
Definition ex_failing_tool (cmd : Cmd) (t : gmap string node)
  : gmap string node * option error := (t, Some ex_tool_error).

Definition ex_tool_exits1_env : Env :=
  {| Args := ["speedlingo"; "rewrite"; "acme"; "widget"];
     HOME := "/home/op";
     ReadFile_result := fun p => inl ex_config;
     UnmarshalStrict := yaml_UnmarshalStrict;
     CreateFork_result := inr (New scheduledMsg);
     Get_result := fun n => inl {| HTMLURL := "https://github.com/bot/widget" |};
     elapsed := fun _ => 1000000;
     TempDir_result := inl ex_dir;
     Clone_result := inl (ex_repo, ex_tree);
     tool := ex_failing_tool;
     fault := no_fault |}.

(** A disk that takes no more writes of the configuration file. *)
Definition is_op_write_yaml (op : Op) : bool :=
  match op with
  | OpWriteFile p => String.eqb p (filepath_Join ex_dir yamlName)
  | _ => false
  end.

Definition ex_disk_full : error := New "no space left on device".

Definition ex_write_fails_env : Env :=
  ex_env "rewrite" ex_config (fault_at is_op_write_yaml ex_disk_full).

(** The pause between two queries for the fork. *)
Definition is_wait (ev : Event) : bool :=
  match ev with EvSleep d => d =? Second * 2 | _ => false end.

(** The calls on the clone once it is made. *)
Definition on_clone (ev : Event) : bool := is_vcs ev && negb (is_clone ev).

(** [m] leaves the repository as it is, unless it fails with the removal of
    [dir] as its last call. *)
Definition repo_unless_removed (dir : string) {A : Type} (m : M A) : Prop :=
  forall w r w', m w = (r, w') ->
    repo w' = repo w \/
    ((forall a, r <> Ok a) /\ last (trace w') = Some (EvRemoveAll dir)).

Definition ex_review_tool_fails_env : Env :=
  ex_env "review" ex_config (fault_at is_op_run ex_tool_error).

(** ** A clone of a fork

    [PlainClone] clones as git clone does: the branches of the fork are
    fetched, and one local branch is made and checked out, the one the
    fork's HEAD names.  [fresh_clone heads r t] says that the repository [r]
    with the working tree [t] is such a clone of a fork whose branches are
    [heads]. *)
Definition fresh_clone (heads : gmap string Commit) (r : Repository)
    (t : gmap string node) : Prop :=
  exists h c,
    refs r = {[ HEAD r := h ]} /\
    get_commit (objects r) h = Some c /\
    heads !! HEAD r = Some c /\
    map_Forall (fun _ c' => exists h', get_commit (objects r) h' = Some c') heads /\
    unstaged (index r) t = false.

(** A second rewrite run: the fork has the branch [rewrite] from the first
    one, one commit ahead of [master]. *)
Definition ex_prev : Commit :=
  {| c_message := commitMessageRewrite;
     c_author := {| Name := "bot"; SigEmail := "bot@example.org"; When := 1 |};
     c_files := <["main.go" := "// Package main is the entry point."]> ex_files;
     c_parent := 1%nat |}.

Definition ex_fork_heads : gmap string Commit :=
  {[ "refs/heads/master" := ex_init; "refs/heads/rewrite" := ex_prev ]}.

Definition ex_repo_fetched : Repository :=
  {| objects := [ex_init; ex_prev]; refs := {[ "refs/heads/master" := 1%nat ]};
     HEAD := "refs/heads/master"; index := ex_files |}.

(** The forge takes no push of a branch that does not descend from the one
    it has. *)
Definition ex_not_fast_forward : error :=
  New "non-fast-forward update: refs/heads/rewrite".

Definition ex_again_env : Env :=
  {| Args := ["speedlingo"; "rewrite"; "acme"; "widget"];
     HOME := "/home/op";
     ReadFile_result := fun p => inl ex_config;
     UnmarshalStrict := yaml_UnmarshalStrict;
     CreateFork_result := inl {| HTMLURL := "https://github.com/bot/widget" |};
     Get_result := fun n => inl {| HTMLURL := "https://github.com/bot/widget" |};
     elapsed := fun _ => 1000000;
     TempDir_result := inl ex_dir;
     Clone_result := inl (ex_repo_fetched, ex_tree);
     tool := ex_tool;
     fault := fault_at is_op_push ex_not_fast_forward |}.

(** The world of the second run at its start, and as [main] hands it to the
    handler. *)
Definition ex_world_again : World := with_remote ex_fork_heads ex_world.

Definition ex_cloned_again : World := with_remote ex_fork_heads (ex_cloned ex_repo_fetched).

Definition is_plain_checkout (ev : Event) : bool :=
  match ev with EvCheckout false _ => true | _ => false end.

Local Open Scope list_scope.

(** * Facts *)

(** ** Paths and strings *)

Lemma split_path_String c p :
  split_path (String c p) =
  match split_path p with
  | Some (d, b) => Some (String c d, b)
  | None => if is_slash c then Some (EmptyString, p) else None
  end.
Proof. reflexivity. Qed.

Lemma split_path_no_slash name : has_slash name = false -> split_path name = None.
Proof.
  induction name as [|c n IH]; [done|].
  rewrite split_path_String. cbn [has_slash]. intros Hn.
  apply orb_false_iff in Hn as [Hc Hn]. by rewrite (IH Hn), Hc.
Qed.

Lemma split_path_Join dir name :
  has_slash name = false -> split_path (filepath_Join dir name) = Some (dir, name).
Proof.
  intros Hn. unfold filepath_Join.
  induction dir as [|c d IH].
  - change (split_path (String "/" name) = Some (EmptyString, name)).
    by rewrite split_path_String, (split_path_no_slash _ Hn).
  - change (split_path (String c (d ++ "/" ++ name)%string) = Some (String c d, name)).
    by rewrite split_path_String, IH.
Qed.

(** ** The monad *)

Lemma with_trace_same w : with_trace (trace w) w = w.
Proof. by destruct w. Qed.

Lemma bind_run {A B} (m : M A) (k : A -> M B) w :
  (m ≫= k) w =
  match m w with
  | (Ok a, w') => k a w'
  | (Err e, w') => (Err e, w')
  | (Exit c, w') => (Exit c, w')
  | (OutOfFuel, w') => (OutOfFuel, w')
  end.
Proof. reflexivity. Qed.

Lemma bind_Ok {A B} (m : M A) (k : A -> M B) w b w' :
  (m ≫= k) w = (Ok b, w') ->
  exists a w1, m w = (Ok a, w1) /\ k a w1 = (Ok b, w').
Proof.
  rewrite bind_run. destruct (m w) as [[a|e|c|] w1]; intros H; try discriminate.
  by exists a, w1.
Qed.

(** A bind stops where its first part stops, or goes on from its value. *)
Lemma bind_inv {A B} (m : M A) (k : A -> M B) w r w' :
  (m ≫= k) w = (r, w') ->
  (exists a w1, m w = (Ok a, w1) /\ k a w1 = (r, w')) \/
  (exists e, m w = (Err e, w') /\ r = Err e) \/
  (exists c, m w = (Exit c, w') /\ r = Exit c) \/
  (m w = (OutOfFuel, w') /\ r = OutOfFuel).
Proof.
  rewrite bind_run. destruct (m w) as [[a|e|c|] w1]; intros H.
  - left. by exists a, w1.
  - right; left. exists e. by simplify_eq.
  - right; right; left. exists c. by simplify_eq.
  - right; right; right. by simplify_eq.
Qed.

Lemma traced_Ok {A} (m : M A) w a w' :
  traced m w = (Ok a, w') -> m w = (Ok a, w').
Proof. unfold traced. by destruct (m w) as [[?|?|?|] ?]. Qed.

Lemma traced_inv {A} (m : M A) w r w' :
  traced m w = (r, w') ->
  m w = (r, w') /\ (forall e, r <> Err e) \/
  exists e, m w = (Err e, w') /\ r = Err (Trace e).
Proof.
  unfold traced. destruct (m w) as [[?|e|?|] ?]; intros H; simplify_eq;
    try (left; split; [done|discriminate]).
  right. by exists e.
Qed.

Lemma attempt_Ok {A} (m : M A) w x w' :
  attempt m w = (Ok x, w') ->
  (exists a, x = inl a /\ m w = (Ok a, w')) \/
  (exists e, x = inr e /\ m w = (Err e, w')).
Proof.
  unfold attempt. destruct (m w) as [[a|e|?|] ?]; intros H; simplify_eq.
  - left. by exists a.
  - right. by exists e.
Qed.

Lemma attempt_not_Err {A} (m : M A) w e w' : attempt m w <> (Err e, w').
Proof. unfold attempt. by destruct (m w) as [[?|?|?|] ?]. Qed.

Lemma ret_run {A} (a : A) w : (mret a : M A) w = (Ok a, w).
Proof. reflexivity. Qed.

(** ** What a computation adds to the trace *)

Lemma emits_ret {A} Q (a : A) : emits Q (mret a : M A).
Proof.
  intros w r w' H. rewrite ret_run in H. simplify_eq.
  exists []. by rewrite app_nil_r.
Qed.

Lemma emits_silent {A} Q (f : World -> Res A * World) :
  (forall w, trace (snd (f w)) = trace w) -> emits Q (prim f).
Proof.
  intros Hf w r w' H. unfold prim in H. specialize (Hf w). rewrite H in Hf.
  exists []. by rewrite app_nil_r.
Qed.

Lemma emits_bind {A B} Q (m : M A) (k : A -> M B) :
  emits Q m -> (forall a, emits Q (k a)) -> emits Q (m ≫= k).
Proof.
  intros Hm Hk w r w' H.
  apply bind_inv in H as [(a & w1 & H1 & H2)|[(e & H1 & _)|[(c & H1 & _)|[H1 _]]]];
    try (by eapply Hm).
  destruct (Hm _ _ _ H1) as (evs1 & E1 & F1).
  destruct (Hk _ _ _ _ H2) as (evs2 & E2 & F2).
  exists (evs1 ++ evs2). split; [by rewrite E2, E1, app_assoc|by apply Forall_app].
Qed.

Lemma emits_traced {A} Q (m : M A) : emits Q m -> emits Q (traced m).
Proof.
  intros Hm w r w' H. apply traced_inv in H as [[H _]|(e & H & _)]; by eapply Hm.
Qed.

Lemma emits_attempt {A} Q (m : M A) : emits Q m -> emits Q (attempt m).
Proof.
  intros Hm w r w'. unfold attempt.
  destruct (m w) as [[?|?|?|] w1] eqn:E; intros H; simplify_eq; by eapply Hm.
Qed.

Lemma emits_defer {A B} Q (d : M B) (m : M A) :
  emits Q d -> emits Q m -> emits Q (defer d m).
Proof.
  intros Hd Hm w r w'. unfold defer.
  destruct (m w) as [[?|?|?|] w1] eqn:E; intros H;
    try (injection H as <- <-);
    try (by eapply Hm);
    destruct (Hm _ _ _ E) as (evs1 & E1 & F1);
    destruct (d w1) as [r2 w2] eqn:E2;
    destruct (Hd _ _ _ E2) as (evs2 & E3 & F2);
    exists (evs1 ++ evs2); cbn [snd];
    (split; [by rewrite E3, E1, app_assoc|by apply Forall_app]).
Qed.

Lemma emits_weaken {A} (Q Q' : Event -> Prop) (m : M A) :
  (forall ev, Q ev -> Q' ev) -> emits Q m -> emits Q' m.
Proof.
  intros HQ Hm w r w' H. destruct (Hm _ _ _ H) as (evs & E & F).
  exists evs. split; [done|]. eapply Forall_impl; eauto.
Qed.

Lemma new_events_app w w' evs :
  trace w' = trace w ++ evs -> new_events w w' = evs.
Proof. unfold new_events. intros ->. by rewrite drop_app_length. Qed.

(** ** The calls, one by one *)

Ltac wsimpl :=
  cbn [trace disk cwd conf repo repo_dir remote_heads now clock_reads get_calls
       logged with_trace with_cwd with_disk with_repo with_clone without_dir with_remote
       with_clock
       with_gets with_conf with_index objects refs HEAD index fst snd] in *.


Section Calls.

Variable env : Env.

Lemma emit_run ev w : emit ev w = (Ok tt, logged ev w).
Proof. reflexivity. Qed.

(** The shape of most calls: leave the event, let the environment fail the
    call, then act. *)
Lemma call_run {A} ev op (f : World -> Res A * World) w :
  (emit ev ;; may_fail env op ;; prim f) w =
  match fault env op (length (trace (logged ev w))) with
  | Some e => (Err e, logged ev w)
  | None => f (logged ev w)
  end.
Proof.
  rewrite bind_run, emit_run, bind_run. unfold may_fail.
  by destruct (fault env op _).
Qed.

Lemma emits_emit Q ev : Q ev -> emits Q (emit ev).
Proof.
  intros HQ w r w' H. rewrite emit_run in H. simplify_eq.
  exists [ev]. split; [done|]. by constructor.
Qed.

Lemma emits_may_fail Q op : emits Q (may_fail env op).
Proof.
  intros w r w'. unfold may_fail. destruct (fault env op _); intros H; simplify_eq;
    exists []; by rewrite app_nil_r.
Qed.

Lemma emits_call {A} Q ev op (f : World -> Res A * World) :
  Q ev -> (forall w, trace (snd (f w)) = trace w) ->
  emits Q (emit ev ;; may_fail env op ;; prim f).
Proof.
  intros HQ Hf. apply emits_bind; [by apply emits_emit|intros _].
  apply emits_bind; [apply emits_may_fail|intros _]. by apply emits_silent.
Qed.

Lemma emits_Println Q s : Q (EvPrintln s) -> emits Q (Println s).
Proof. apply emits_emit. Qed.

Lemma emits_log_Fatal {A} Q e : Q (EvFatal e) -> emits Q (log_Fatal e : M A).
Proof.
  intros HQ. apply emits_bind; [by apply emits_emit|intros _].
  intros w r w' H. unfold os_Exit in H. simplify_eq. exists []. by rewrite app_nil_r.
Qed.

Lemma emits_or_Fatal {A} Q (m : M A) :
  (forall e, Q (EvFatal e)) -> emits Q m -> emits Q (or_Fatal m).
Proof.
  intros HQ Hm. apply emits_bind; [by apply emits_attempt|].
  intros [a|e]; [apply emits_ret|by apply emits_log_Fatal].
Qed.

Lemma emits_time_Now Q : (forall t, Q (EvNow t)) -> emits Q (time_Now env).
Proof.
  intros HQ w r w' H. unfold time_Now in H. simplify_eq. eexists [_].
  split; [done|]. by constructor.
Qed.

Lemma emits_time_Sleep Q d : Q (EvSleep d) -> emits Q (time_Sleep d).
Proof.
  intros HQ w r w' H. unfold time_Sleep in H. simplify_eq. eexists [_].
  split; [done|]. by constructor.
Qed.

Ltac silent := intros ?; cbn; repeat case_match; reflexivity.

Lemma emits_MkdirAll Q p : Q (EvMkdirAll p) -> emits Q (os_MkdirAll env p).
Proof. intros. apply emits_call; [done|silent]. Qed.

Lemma emits_ReadFile Q p : Q (EvReadFile p) -> emits Q (ioutil_ReadFile env p).
Proof.
  intros. apply emits_bind; [by apply emits_emit|intros _].
  apply emits_silent. silent.
Qed.

Lemma emits_TempDir Q : (forall d, Q (EvTempDir d)) -> emits Q (ioutil_TempDir env).
Proof.
  intros HQ w r w'. unfold ioutil_TempDir. destruct (TempDir_result env); intros H; simplify_eq.
  - eexists [_]. split; [done|]. by constructor.
  - exists []. by rewrite app_nil_r.
Qed.

Lemma emits_Chdir Q d : Q (EvChdir d) -> emits Q (os_Chdir env d).
Proof. intros. apply emits_call; [done|silent]. Qed.

Lemma emits_ReadDir Q d : Q (EvReadDir d) -> emits Q (ioutil_ReadDir env d).
Proof. intros. apply emits_call; [done|silent]. Qed.

Lemma emits_WriteFile Q p data :
  Q (EvWriteFile p data) -> emits Q (ioutil_WriteFile env p data).
Proof. intros. apply emits_call; [done|silent]. Qed.

Lemma emits_RemoveAll Q d : Q (EvRemoveAll d) -> emits Q (os_RemoveAll env d).
Proof. intros. apply emits_call; [done|silent]. Qed.

Lemma emits_cmd_Run Q cmd : (forall t, Q (EvRun cmd t)) -> emits Q (cmd_Run env cmd).
Proof.
  intros HQ w r w'. unfold cmd_Run.
  destruct (disk w !! cwd w) as [t|]; [|intros H; simplify_eq; exists []; by rewrite app_nil_r].
  intros H. exists [EvRun cmd t]. split; [|by constructor].
  repeat case_match; by simplify_eq.
Qed.

Lemma emits_CreateFork Q o n :
  Q (EvCreateFork o n) -> emits Q (Repositories_CreateFork env o n).
Proof.
  intros. apply emits_bind; [by apply emits_emit|intros _].
  apply emits_silent. silent.
Qed.

Lemma emits_Get Q o n : Q (EvGet o n) -> emits Q (Repositories_Get env o n).
Proof.
  intros. apply emits_bind; [by apply emits_emit|intros _].
  apply emits_silent. silent.
Qed.

Lemma emits_PlainClone Q d u : Q (EvClone d u) -> emits Q (git_PlainClone env d u).
Proof.
  intros. apply emits_bind; [by apply emits_emit|intros _].
  apply emits_silent. silent.
Qed.

Lemma emits_Worktree Q r : Q EvWorktree -> emits Q (Repository_Worktree env r).
Proof.
  intros. apply emits_bind; [by apply emits_emit|intros _].
  apply emits_bind; [apply emits_may_fail|intros _]. apply emits_ret.
Qed.

Lemma emits_Checkout Q wt c b :
  Q (EvCheckout c b) -> emits Q (Worktree_Checkout env wt c b).
Proof.
  intros. apply emits_bind; [by apply emits_emit|intros _].
  apply emits_bind; [apply emits_may_fail|intros _].
  apply emits_bind; [|intros _; apply emits_silent; silent].
  destruct c; [apply emits_silent; silent|apply emits_ret].
Qed.

Lemma emits_AddGlob Q wt p : Q (EvAddGlob p) -> emits Q (Worktree_AddGlob env wt p).
Proof. intros. apply emits_call; [done|silent]. Qed.

Lemma emits_Remove Q wt p : Q (EvRemove p) -> emits Q (Worktree_Remove env wt p).
Proof. intros. apply emits_call; [done|silent]. Qed.

Lemma emits_Commit Q wt msg a : Q (EvCommit msg) -> emits Q (Worktree_Commit env wt msg a).
Proof.
  intros. apply emits_bind; [by apply emits_emit|intros _].
  apply emits_silent. silent.
Qed.

Lemma emits_CommitObject Q r h :
  Q (EvCommitObject h) -> emits Q (Repository_CommitObject env r h).
Proof. intros. apply emits_call; [done|silent]. Qed.

Lemma emits_Push Q r n u p : Q (EvPush n u p) -> emits Q (Repository_Push env r n u p).
Proof. intros. apply emits_call; [done|silent]. Qed.

Lemma emits_get_world Q : emits Q get_world.
Proof. intros w r w' H. unfold get_world in H. simplify_eq. exists []. by rewrite app_nil_r. Qed.

(** *** Calls that returned without an error *)

Lemma Chdir_Ok d w w' :
  os_Chdir env d w = (Ok tt, w') ->
  is_Some (disk w !! d) /\ w' = with_cwd d (logged (EvChdir d) w).
Proof.
  unfold os_Chdir. rewrite call_run. unfold prim. cbn [disk logged with_trace].
  intros H. repeat case_match; simplify_eq. eauto.
Qed.

Lemma Worktree_Ok r w wt w' :
  Repository_Worktree env r w = (Ok wt, w') -> wt = r /\ w' = logged EvWorktree w.
Proof.
  unfold Repository_Worktree. rewrite bind_run, emit_run, bind_run. unfold may_fail.
  destruct (fault env OpWorktree _); intros H; [discriminate|].
  rewrite ret_run in H. by simplify_eq.
Qed.

Lemma ReadDir_Ok d w files w' :
  ioutil_ReadDir env d w = (Ok files, w') ->
  exists t, disk w !! d = Some t /\ files = dir_entries t /\ w' = logged (EvReadDir d) w.
Proof.
  unfold ioutil_ReadDir. rewrite call_run. unfold prim. cbn [disk logged with_trace].
  intros H. repeat case_match; simplify_eq. eauto.
Qed.

Lemma WriteFile_Ok d name data w w' :
  has_slash name = false ->
  ioutil_WriteFile env (filepath_Join d name) data w = (Ok tt, w') ->
  exists t, disk w !! d = Some t /\
    w' = with_disk (<[d := <[name := NFile data]> t]> (disk w))
           (logged (EvWriteFile (filepath_Join d name) data) w).
Proof.
  intros Hn. unfold ioutil_WriteFile. rewrite call_run. unfold prim.
  rewrite (split_path_Join _ _ Hn). cbn [default disk logged with_trace].
  intros H. repeat case_match; unfold id in *; simplify_eq; eauto.
Qed.

Lemma cmd_Run_Ok cmd w w' :
  cmd_Run env cmd w = (Ok tt, w') ->
  exists t t', disk w !! cwd w = Some t /\ tool env cmd t = (t', None) /\
    w' = with_disk (<[cwd w := t']> (disk w)) (logged (EvRun cmd t) w).
Proof.
  unfold cmd_Run. intros H. repeat case_match; simplify_eq. eauto.
Qed.

Lemma runCmd_Ok d cmd w w' :
  runCmd env d cmd w = (Ok tt, w') ->
  exists t t', disk w !! d = Some t /\ tool env cmd t = (t', None) /\
    w' = with_disk (<[d := t']> (disk w))
           (logged (EvRun cmd t)
              (logged (EvPrintln "Running lingo command...")
                 (with_cwd d (logged (EvChdir d) w)))).
Proof.
  unfold runCmd. intros H.
  apply bind_Ok in H as ([] & w1 & H1 & H).
  apply traced_Ok, Chdir_Ok in H1 as [_ ->].
  apply bind_Ok in H as ([] & w2 & H2 & H). unfold Println in H2.
  rewrite emit_run in H2. simplify_eq.
  apply bind_Ok in H as (x & w3 & H3 & H).
  apply attempt_Ok in H3 as [([] & -> & H3)|(e & -> & H3)].
  - rewrite ret_run in H. simplify_eq.
    apply cmd_Run_Ok in H3 as (t & t' & Ht & Htool & ->). by exists t, t'.
  - apply bind_Ok in H as (? & ? & _ & H). unfold prim in H. discriminate.
Qed.

Lemma AddGlob_Ok wt w w' :
  Worktree_AddGlob env wt "." w = (Ok tt, w') ->
  exists t, disk w !! wt = Some t /\
    w' = with_repo (with_index (tree_files t ∪ index (repo w)) (repo w))
           (logged (EvAddGlob ".") w).
Proof.
  unfold Worktree_AddGlob. rewrite call_run. unfold prim.
  cbn [disk repo logged with_trace String.eqb Ascii.eqb Bool.eqb].
  intros H. repeat case_match; simplify_eq. eauto.
Qed.

Lemma Remove_Ok wt p t w w' :
  disk w !! wt = Some t ->
  Worktree_Remove env wt p w = (Ok tt, w') ->
  is_Some (index (repo w) !! p) /\
  w' = with_disk (<[wt := delete p t]> (disk w))
         (with_repo (with_index (delete p (index (repo w))) (repo w))
            (logged (EvRemove p) w)).
Proof.
  intros Ht. unfold Worktree_Remove. rewrite call_run. unfold prim.
  cbn [disk repo logged with_trace with_repo]. rewrite Ht. intros H.
  repeat case_match; simplify_eq. eauto.
Qed.

Lemma CommitObject_Ok r h w c w' :
  Repository_CommitObject env r h w = (Ok c, w') ->
  get_commit (objects (repo w)) h = Some c /\ w' = logged (EvCommitObject h) w.
Proof.
  unfold Repository_CommitObject. rewrite call_run. unfold prim.
  cbn [repo logged with_trace]. intros H. repeat case_match; by simplify_eq.
Qed.

Lemma Push_Ok r n u p w w' :
  Repository_Push env r n u p w = (Ok tt, w') ->
  w' = with_remote (omap (get_commit (objects (repo w))) (refs (repo w)) ∪ remote_heads w)
         (logged (EvPush n u p) w).
Proof.
  unfold Repository_Push. rewrite call_run. unfold prim.
  cbn [repo logged with_trace]. intros H. repeat case_match; by simplify_eq.
Qed.

(** A successful checkout leaves HEAD on the branch, whichever way. *)
Lemma Checkout_Ok wt c b w w' :
  Worktree_Checkout env wt c b w = (Ok tt, w') ->
  HEAD (repo w') = b /\ is_Some (refs (repo w') !! b) /\
  objects (repo w') = objects (repo w) /\
  is_Some (disk w' !! wt) /\ conf w' = conf w /\
  trace w' = trace w ++ [EvCheckout c b].
Proof.
  unfold Worktree_Checkout. intros H.
  apply bind_Ok in H as ([] & w1 & H1 & H). rewrite emit_run in H1. simplify_eq.
  apply bind_Ok in H as ([] & w1 & H1 & H). unfold may_fail in H1.
  destruct (fault env _ _); simplify_eq.
  apply bind_Ok in H as ([] & w1 & H1 & H). unfold prim in H.
  assert (objects (repo w1) = objects (repo w) /\ conf w1 = conf w /\
          trace w1 = trace w ++ [EvCheckout c b]) as (Ho & Hc & Ht).
  { destruct c.
    - unfold createBranch, prim in H1. repeat case_match; by simplify_eq.
    - rewrite ret_run in H1. by simplify_eq. }
  repeat case_match; simplify_eq; cbn; rewrite lookup_insert_eq; eauto 10.
Qed.

(** A failed checkout without [Create] changes nothing but the trace. *)
Lemma Checkout_false_Err wt b w e w' :
  Worktree_Checkout env wt false b w = (Err e, w') ->
  w' = logged (EvCheckout false b) w.
Proof.
  unfold Worktree_Checkout. rewrite bind_run, emit_run, bind_run. unfold may_fail.
  destruct (fault env _ _); [intros; by simplify_eq|].
  rewrite bind_run, ret_run. unfold prim. intros H.
  repeat case_match; by simplify_eq.
Qed.

(** The vendor scan: its answer and its prints. *)
Lemma vendorLoop_run files b w :
  vendorLoop files b w =
  (Ok (b || existsb is_vendor files), with_trace (trace w ++ vendor_prints files) w).
Proof.
  revert b w. induction files as [|f files IH]; intros b w.
  - cbn. by rewrite orb_false_r, app_nil_r, with_trace_same.
  - cbn [vendorLoop existsb]. fold (is_vendor f). unfold vendor_prints.
    rewrite filter_cons. destruct (is_vendor f) eqn:Ef.
    + rewrite decide_True by done. rewrite bind_run. unfold Println. rewrite emit_run.
      rewrite IH. cbn. by rewrite orb_true_r, <- app_assoc.
    + rewrite decide_False by done. by rewrite IH.
Qed.

(** The scan finds a vendor directory exactly when the tree has one at its
    top level. *)
Lemma vendor_found (t : gmap string node) :
  existsb is_vendor (dir_entries t) = true <-> t !! "vendor" = Some NDir.
Proof.
  rewrite existsb_exists. unfold dir_entries. split.
  - intros (f & Hin & Hv). apply list_elem_of_In, list_elem_of_omap in Hin as ([p n] & Hpn & Hf).
    apply elem_of_map_to_list in Hpn. unfold file_info in Hf. cbn in Hf.
    destruct (has_slash p); [done|]. simplify_eq. unfold is_vendor in Hv. cbn in Hv.
    apply andb_true_iff in Hv as [Hp Hd]. apply String.eqb_eq in Hp as ->.
    by destruct n.
  - intros Ht. exists {| fi_Name := "vendor"; fi_IsDir := true |}. split; [|done].
    apply list_elem_of_In, list_elem_of_omap. exists ("vendor", NDir). split; [|done].
    by apply elem_of_map_to_list.
Qed.

(** *** A rewrite run that returned without an error *)

Lemma get_commit_new objs c : get_commit (objs ++ [c]) (S (length objs)) = Some c.
Proof. cbn. by rewrite lookup_app_r, Nat.sub_diag. Qed.

Lemma handleRewrite_Ok dir token cmd w w' :
  handleRewrite env dir token dir cmd w = (Ok tt, w') ->
  exists wb evs0 t0 t2 when,
    let needs := existsb is_vendor (dir_entries t0) in
    let c := {| c_message := commitMessageRewrite;
                c_author := {| Name := Username (conf w); SigEmail := Email (conf w);
                               When := when |};
                c_files := unscaffold needs (tree_files t2 ∪ index (repo wb));
                c_parent := default ZeroHash (refs (repo wb) !! rewriteBranch) |} in
    trace wb = trace w ++ evs0 /\
    Forall (fun ev => ev = EvChdir dir \/ ev = EvWorktree \/
                      exists cr, ev = EvCheckout cr rewriteBranch) evs0 /\
    HEAD (repo wb) = rewriteBranch /\
    objects (repo wb) = objects (repo w) /\
    disk wb !! dir = Some t0 /\
    tool env cmd (scaffold needs t0) = (t2, None) /\
    trace w' = trace wb ++
      rewrite_events dir token cmd t0 when (S (length (objects (repo w)))) /\
    disk w' !! dir = Some (unscaffold needs t2) /\
    objects (repo w') = objects (repo w) ++ [c] /\
    ((forall n, fault env OpUpdateHEAD n = None) ->
     remote_heads w' !! rewriteBranch = Some c).
Proof.
  unfold handleRewrite. fold rewriteBranch. intros H.
  (* chdir, worktree *)
  apply bind_Ok in H as ([] & w1 & H1 & H).
  apply traced_Ok, Chdir_Ok in H1 as [_ ->].
  apply bind_Ok in H as (wt & w2 & H2 & H).
  apply traced_Ok, Worktree_Ok in H2 as [-> ->].
  (* branch resolution *)
  apply bind_Ok in H as (err & w3 & H3 & H).
  apply bind_Ok in H as ([] & wb & H4 & H).
  assert (exists evs, trace wb = trace w ++ evs /\
            Forall (fun ev => ev = EvChdir dir \/ ev = EvWorktree \/
                      exists cr, ev = EvCheckout cr rewriteBranch) evs /\
            HEAD (repo wb) = rewriteBranch /\ objects (repo wb) = objects (repo w) /\
            is_Some (disk wb !! dir) /\ conf wb = conf w)
    as (evs0 & Ht0 & Hf0 & HHEAD & Hobj & [t0 Hd0] & Hconf).
  { clear H. apply attempt_Ok in H3 as [([] & -> & H3)|(e & -> & H3)].
    - rewrite ret_run in H4. simplify_eq.
      apply Checkout_Ok in H3 as (? & _ & ? & ? & ? & Ht). wsimpl.
      exists [EvChdir dir; EvWorktree; EvCheckout false rewriteBranch].
      split; [by rewrite Ht, <- !app_assoc|]. repeat split; eauto 10;
        repeat first [apply Forall_nil_2 | apply Forall_cons_2]; eauto 10.
    - apply traced_Ok, Checkout_Ok in H4 as (? & _ & Ho & ? & Hc & Ht).
      apply Checkout_false_Err in H3 as ->.
      wsimpl.
      exists [EvChdir dir; EvWorktree; EvCheckout false rewriteBranch;
              EvCheckout true rewriteBranch].
      split; [by rewrite Ht, <- !app_assoc|].
      repeat split; eauto 10; try congruence;
        repeat first [apply Forall_nil_2 | apply Forall_cons_2]; eauto 10. }
  exists wb, evs0.
  (* scan and scaffolding *)
  apply bind_Ok in H as ([] & w5 & H5 & H). unfold Println in H5.
  rewrite emit_run in H5. simplify_eq.
  apply bind_Ok in H as (files & w6 & H6 & H).
  apply traced_Ok, ReadDir_Ok in H6 as (t0' & Ht0d & -> & ->).
  cbn [disk logged with_trace] in Ht0d. rewrite Hd0 in Ht0d. injection Ht0d as <-.
  apply bind_Ok in H as (needs & w7 & H7 & H).
  rewrite vendorLoop_run in H7. cbn [orb] in H7. simplify_eq.
  exists t0. set (needs := existsb is_vendor (dir_entries t0)) in *.
  apply bind_Ok in H as ([] & w8 & H8 & H).
  apply traced_Ok, WriteFile_Ok in H8 as (t & Ht & ->); [|done].
  cbn [disk logged with_trace] in Ht. rewrite Hd0 in Ht. injection Ht as <-.
  apply bind_Ok in H as ([] & w9 & H9 & H).
  apply bind_Ok in H as ([] & w10 & H10 & H). unfold Println in H10.
  rewrite emit_run in H10. simplify_eq.
  (* the tool *)
  apply bind_Ok in H as ([] & w11 & H11 & H).
  apply traced_Ok, runCmd_Ok in H11 as (t1 & t2 & Ht1 & Htool & ->).
  exists t2.
  apply bind_Ok in H as ([] & w12 & H12 & H).
  apply traced_Ok, AddGlob_Ok in H12 as (t2' & Ht2 & ->).
  cbn [disk logged with_trace with_disk] in Ht2. rewrite lookup_insert_eq in Ht2.
  injection Ht2 as <-.
  apply bind_Ok in H as ([] & w13 & H13 & H).
  apply traced_Ok, (Remove_Ok _ _ t2) in H13 as [_ ->];
    [|cbn; by rewrite lookup_insert_eq].
  apply bind_Ok in H as ([] & w14 & H14 & H).
  (* the commit *)
  apply bind_Ok in H as (wc & w15 & H15 & H). unfold get_world in H15. injection H15 as <- <-.
  apply bind_Ok in H as (when & w16 & H16 & H). unfold time_Now in H16. injection H16 as <- <-.
  exists (now w14 + elapsed env (clock_reads w14)).
  set (when := now w14 + elapsed env (clock_reads w14)) in *.
  apply bind_Ok in H as ([h oe] & w17 & H17 & H). cbn [fst] in H.
  apply bind_Ok in H as (c' & w18 & H18 & H).
  apply traced_Ok, CommitObject_Ok in H18 as [Hget ->].
  apply bind_Ok in H as ([] & w19 & H19 & H). unfold Println in H19.
  rewrite emit_run in H19. simplify_eq.
  apply bind_Ok in H as ([] & w20 & H20 & H).
  apply traced_Ok, Push_Ok in H20 as ->.
  apply bind_Ok in H as ([] & w21 & H21 & H). unfold Println in H21.
  rewrite emit_run in H21. rewrite ret_run in H. simplify_eq.
  unfold Worktree_Commit in H17. rewrite bind_run, emit_run in H17. unfold prim in H17.
  cbn [trace logged with_trace with_clock] in H17.
  destruct (fault env OpCommit _) eqn:Ec; [by simplify_eq|].
  (* both branches of the scaffolding *)
  unfold rewrite_events, scaffold, unscaffold. fold needs.
  destruct needs eqn:En.
  - apply bind_Ok in H9 as ([] & w9' & H9 & H9').
    apply traced_Ok, WriteFile_Ok in H9 as (t & Ht & ->); [|done].
    wsimpl. rewrite lookup_insert_eq in Ht.
    injection Ht as <-. unfold Println in H9'. rewrite emit_run in H9'.
    injection H9' as <-. wsimpl.
    rewrite !lookup_insert_eq in Ht1. injection Ht1 as <-.
    apply traced_Ok, (Remove_Ok _ _ (delete yamlName t2)) in H14 as [_ ->];
      [|wsimpl; by rewrite lookup_insert_eq].
    destruct (fault env OpUpdateHEAD _) eqn:Eu;
      injection H17 as <- <- <-; wsimpl;
      rewrite ?lookup_insert_eq, Hconf, Hobj, HHEAD, <- ?app_assoc in *;
      (repeat split; try done; intros Hu);
      first [by rewrite Hu in Eu
            |apply lookup_union_Some_l; rewrite lookup_omap, lookup_insert_eq;
             apply get_commit_new].
  - rewrite ret_run in H9. injection H9 as <-. wsimpl.
    rewrite !lookup_insert_eq in Ht1. injection Ht1 as <-.
    rewrite ret_run in H14. injection H14 as <-. wsimpl.
    destruct (fault env OpUpdateHEAD _) eqn:Eu;
      injection H17 as <- <- <-; wsimpl;
      rewrite ?lookup_insert_eq, Hconf, Hobj, HHEAD, <- ?app_assoc in *;
      (repeat split; try done; intros Hu);
      first [by rewrite Hu in Eu
            |apply lookup_union_Some_l; rewrite lookup_omap, lookup_insert_eq;
             apply get_commit_new].
Qed.

End Calls.

(** ** The rewrite pipeline *)

Lemma yamlData_distinct : yamlDataRewrite <> yamlDataReview.
Proof. intros H. vm_compute in H. discriminate. Qed.


Lemma rewrite_events_ignore dir token cmd t0 when h :
  In (EvWriteFile (filepath_Join dir ignoreFileName) ignoreData)
     (rewrite_events dir token cmd t0 when h) <->
  existsb is_vendor (dir_entries t0) = true.
Proof.
  unfold rewrite_events. rewrite !in_app_iff. unfold vendor_prints.
  rewrite in_map_iff. destruct (existsb _ _); cbn [In].
  - split; [done|]. intros _. do 3 right. left. by left.
  - split; [|done]. intros H.
    repeat match type of H with _ \/ _ => destruct H as [H|H] end;
      try done; try discriminate.
    by destruct H as (? & ? & _).
Qed.

Lemma prefix_events_no_write dir (evs : list Event) p d :
  Forall (fun ev => ev = EvChdir dir \/ ev = EvWorktree \/
                    exists cr, ev = EvCheckout cr rewriteBranch) evs ->
  ~ In (EvWriteFile p d) evs.
Proof.
  intros Hf Hin. rewrite Forall_forall in Hf.
  apply list_elem_of_In, Hf in Hin as [?|[?|[? ?]]]; discriminate.
Qed.



(** The specification's claim C9 fails on the example run: the run returns
    without an error and the configuration file is gone from the tree. *)
Lemma scaffolding_left_on_disk_counterexample :
  ~ scaffolding_left_on_disk ex_rewrite_env ex_dir "s3cret" ex_cmd (ex_cloned ex_repo).
Proof.
  intros H. destruct (H ex_rewrite_end) as (t & Ht & Hs); [vm_compute; reflexivity|].
  assert (E : disk ex_rewrite_end !! ex_dir ≫= (fun t => t !! yamlName) = None)
    by (vm_compute; reflexivity).
  rewrite Ht in E. cbn [mbind option_bind] in E. rewrite E in Hs.
  by destruct Hs.
Qed.

(** C9, amended: in every rewrite run that returns without an error, the
    configuration file, and the ignore file when the run wrote it, are taken
    out of the working tree together with their index entries
    ([Worktree.Remove]) before the commit: after the run they are not on
    disk in the workspace. *)
Theorem scaffolding_removed_from_tree env dir token cmd w w' :
  handleRewrite env dir token dir cmd w = (Ok tt, w') ->
  exists t,
    disk w' !! dir = Some t /\
    t !! yamlName = None /\
    (In (EvWriteFile (filepath_Join dir ignoreFileName) ignoreData) (new_events w w') ->
     t !! ignoreFileName = None) /\
    In (EvRemove yamlName) (new_events w w').
Proof.
  intros H.
  apply handleRewrite_Ok in H
    as (wb & evs0 & t0 & t2 & when & Ht0 & Hf0 & _ & _ & _ & _ & Ht & Hd & _).
  set (needs := existsb is_vendor (dir_entries t0)) in *.
  assert (Hnew : new_events w w' =
            evs0 ++ rewrite_events dir token cmd t0 when (S (length (objects (repo w))))).
  { apply new_events_app. by rewrite Ht, Ht0, app_assoc. }
  eexists. split; [exact Hd|]. rewrite Hnew. split; [|split].
  - unfold unscaffold. destruct needs; cbn [id];
      by rewrite ?(lookup_delete_ne _ ignoreFileName), lookup_delete_eq.
  - rewrite in_app_iff, rewrite_events_ignore. fold needs. intros [Hin|Hn].
    + by eapply prefix_events_no_write in Hin.
    + rewrite Hn. unfold unscaffold. by rewrite lookup_delete_eq.
  - apply in_or_app. right. unfold rewrite_events. rewrite !in_app_iff.
    do 4 right. left. cbn [In]. tauto.
Qed.

Lemma scaffolding_removed_from_tree_witness :
  handleRewrite ex_rewrite_env ex_dir "s3cret" ex_dir ex_cmd (ex_cloned ex_repo)
    = (Ok tt, ex_rewrite_end) /\
  exists t,
    disk ex_rewrite_end !! ex_dir = Some t /\
    t !! yamlName = None /\
    (In (EvWriteFile (filepath_Join ex_dir ignoreFileName) ignoreData)
        (new_events (ex_cloned ex_repo) ex_rewrite_end) ->
     t !! ignoreFileName = None) /\
    In (EvRemove yamlName) (new_events (ex_cloned ex_repo) ex_rewrite_end).
Proof.
  split; [vm_compute; reflexivity|].
  apply (scaffolding_removed_from_tree ex_rewrite_env ex_dir "s3cret" ex_cmd
           (ex_cloned ex_repo) ex_rewrite_end).
  vm_compute; reflexivity.
Defined.

(** ** The review pipeline *)

Lemma count_imports_rewrite : count_imports yamlDataRewrite = 1%nat.
Proof. vm_compute. reflexivity. Qed.

Lemma count_imports_review : count_imports yamlDataReview = 2%nat.
Proof. vm_compute. reflexivity. Qed.

(** C1: every review run that returns without an error has written the
    rewrite-mode document (one import) to the configuration file, and that is
    what the tool is started on; the review-mode document (two imports) is
    never written. *)
Theorem review_run_gets_rewrite_config env dir token r cmd w w' :
  handleReview env dir token r cmd w = (Ok tt, w') ->
  exists seen,
    In (EvWriteFile (filepath_Join dir yamlName) yamlDataRewrite) (new_events w w') /\
    In (EvRun cmd seen) (new_events w w') /\
    seen !! yamlName = Some (NFile yamlDataRewrite) /\
    seen !! yamlName <> Some (NFile yamlDataReview) /\
    count_imports yamlDataRewrite = 1%nat /\
    count_imports yamlDataReview = 2%nat.
Proof.
  unfold handleReview. intros H.
  apply bind_Ok in H as (files & w1 & H1 & H).
  apply traced_Ok, ReadDir_Ok in H1 as (t0 & Hd0 & -> & ->).
  apply bind_Ok in H as (needs & w2 & H2 & H).
  rewrite vendorLoop_run in H2. cbn [orb] in H2. injection H2 as <- <-.
  set (needs := existsb is_vendor (dir_entries t0)) in *.
  apply bind_Ok in H as ([] & w3 & H3 & H).
  apply traced_Ok, WriteFile_Ok in H3 as (t & Ht & ->); [|done].
  wsimpl. rewrite Hd0 in Ht. injection Ht as <-.
  apply bind_Ok in H as ([] & w4 & H4 & H).
  apply bind_Ok in H as ([] & w5 & H5 & H). unfold Println in H5.
  rewrite emit_run in H5. injection H5 as <-.
  apply bind_Ok in H as ([] & w6 & H6 & H). rewrite ret_run in H. injection H as <-.
  apply traced_Ok, runCmd_Ok in H6 as (t1 & t2 & Ht1 & Htool & ->).
  assert (t1 !! yamlName = Some (NFile yamlDataRewrite) /\
            exists evs, trace w4 = trace w ++ EvReadDir dir :: vendor_prints (dir_entries t0)
              ++ EvWriteFile (filepath_Join dir yamlName) yamlDataRewrite :: evs)
    as [Hseen (evs & Htr)].
  { destruct needs.
    - apply bind_Ok in H4 as ([] & w4' & H4 & H4').
      apply traced_Ok, WriteFile_Ok in H4 as (t & Ht & ->); [|done].
      unfold Println in H4'. rewrite emit_run in H4'. injection H4' as <-.
      wsimpl. rewrite lookup_insert_eq in Ht. injection Ht as <-.
      rewrite lookup_insert_eq in Ht1. injection Ht1 as <-.
      split; [by rewrite lookup_insert_ne, lookup_insert_eq|].
      exists [EvWriteFile (filepath_Join dir ignoreFileName) ignoreData;
              EvPrintln ("Wrote " ++ ignoreFileName ++ " file")%string].
      by rewrite <- !app_assoc.
    - rewrite ret_run in H4. injection H4 as <-. wsimpl.
      rewrite lookup_insert_eq in Ht1. injection Ht1 as <-.
      split; [by rewrite lookup_insert_eq|].
      exists []. by rewrite <- !app_assoc. }
  exists t1. wsimpl.
  erewrite (new_events_app w); [|wsimpl; rewrite Htr, <- !app_assoc; cbn [app]; reflexivity].
  split; [|split; [|split; [|split]]].
  - cbn [In]. rewrite !in_app_iff. cbn [In]. tauto.
  - cbn [In]. rewrite !in_app_iff. cbn [In]. tauto.
  - exact Hseen.
  - rewrite Hseen. intros E. injection E as E. by apply yamlData_distinct.
  - split; [apply count_imports_rewrite|apply count_imports_review].
Qed.

Lemma review_run_gets_rewrite_config_witness :
  handleReview ex_review_env ex_dir "s3cret" ex_dir ex_cmd (ex_cloned ex_repo)
    = (Ok tt, ex_review_end) /\
  exists seen,
    In (EvWriteFile (filepath_Join ex_dir yamlName) yamlDataRewrite)
       (new_events (ex_cloned ex_repo) ex_review_end) /\
    In (EvRun ex_cmd seen) (new_events (ex_cloned ex_repo) ex_review_end) /\
    seen !! yamlName = Some (NFile yamlDataRewrite) /\
    seen !! yamlName <> Some (NFile yamlDataReview) /\
    count_imports yamlDataRewrite = 1%nat /\
    count_imports yamlDataReview = 2%nat.
Proof.
  split; [vm_compute; reflexivity|].
  apply (review_run_gets_rewrite_config ex_review_env ex_dir "s3cret" ex_dir ex_cmd
           (ex_cloned ex_repo) ex_review_end).
  vm_compute; reflexivity.
Defined.

(** ** The credentials file *)

Lemma unmarshalConfigFile_run env w data :
  ReadFile_result env configFile = inl data ->
  unmarshalConfigFile env w =
    (Ok (fst (UnmarshalStrict env data {| Username := EmptyString; Email := EmptyString; Token := EmptyString |})),
     logged (EvReadFile configFile) w).
Proof.
  intros Hr. unfold unmarshalConfigFile, traced, ioutil_ReadFile.
  rewrite bind_run, bind_run, emit_run. unfold prim. rewrite Hr.
  by destruct (UnmarshalStrict env data _).
Qed.

(** C4: whatever the credentials file holds and whatever the strict decoder
    answers, a file that can be read loads without an error: the decoder's
    error is dropped. *)
Theorem config_load_drops_decoder_error env w data :
  ReadFile_result env configFile = inl data ->
  unmarshalConfigFile env w =
    (Ok (fst (UnmarshalStrict env data {| Username := EmptyString; Email := EmptyString; Token := EmptyString |})),
     logged (EvReadFile configFile) w).
Proof. apply unmarshalConfigFile_run. Qed.

Lemma config_load_drops_decoder_error_witness :
  ReadFile_result (ex_env "review" ex_config_extra no_fault) configFile
    = inl ex_config_extra /\
  unmarshalConfigFile (ex_env "review" ex_config_extra no_fault) ex_world =
    (Ok (fst (UnmarshalStrict (ex_env "review" ex_config_extra no_fault) ex_config_extra
                {| Username := EmptyString; Email := EmptyString; Token := EmptyString |})),
     logged (EvReadFile configFile) ex_world).
Proof.
  split; [reflexivity|].
  apply (config_load_drops_decoder_error (ex_env "review" ex_config_extra no_fault)
           ex_world ex_config_extra).
  reflexivity.
Defined.

(** The strict decoder does report the fourth field of the example file;
    the load returns the three known fields and no error. *)
Example config_load_accepts_extra_field :
  snd (yaml_UnmarshalStrict ex_config_extra {| Username := EmptyString; Email := EmptyString; Token := EmptyString |})
    = Some (New "yaml: field colour not found in type main.config") /\
  fst (unmarshalConfigFile (ex_env "review" ex_config_extra no_fault) ex_world)
    = Ok {| Username := "bot"; Email := "bot@example.org"; Token := "s3cret" |}.
Proof. split; vm_compute; reflexivity. Qed.

(** ** [main], stage by stage *)

Lemma main_stages env fuel :
  main env fuel =
  if negb (length (Args env) =? 4)%nat
  then Println "Usage: speedlingo <command> <owner> <repo name>" ;; os_Exit 1
  else
    or_Fatal (os_MkdirAll env (reviewResultsDir env)) ;;
    c ← or_Fatal (unmarshalConfigFile env);
    prim (fun w => (Ok tt, with_conf c w)) ;;
    main_fork env fuel.
Proof. reflexivity. Qed.

Lemma or_Fatal_run {A} (m : M A) w :
  or_Fatal m w =
  match m w with
  | (Ok a, w') => (Ok a, w')
  | (Err e, w') => (Exit 1, logged (EvFatal (Some e)) w')
  | (Exit c, w') => (Exit c, w')
  | (OutOfFuel, w') => (OutOfFuel, w')
  end.
Proof.
  unfold or_Fatal. rewrite bind_run. unfold attempt.
  by destruct (m w) as [[?|?|?|] ?].
Qed.

Lemma log_Fatal_run {A} e w : (log_Fatal e : M A) w = (Exit 1, logged (EvFatal e) w).
Proof. reflexivity. Qed.

(** A run with four arguments, a results directory and a readable
    credentials file gets to the fork request. *)
Lemma main_started env fuel w data :
  length (Args env) = 4%nat ->
  (forall n, fault env OpMkdirAll n = None) ->
  ReadFile_result env configFile = inl data ->
  main env fuel w = main_fork env fuel (started env data w).
Proof.
  intros Ha Hm Hr. rewrite main_stages, Ha. cbn [Nat.eqb negb].
  rewrite bind_run, or_Fatal_run. unfold os_MkdirAll. rewrite call_run, Hm.
  unfold prim, started. cbn zeta.
  destruct (disk (logged _ w) !! reviewResultsDir env);
    by rewrite bind_run, or_Fatal_run, (unmarshalConfigFile_run _ _ _ Hr).
Qed.

Lemma started_trace env data w :
  trace (started env data w) =
  trace w ++ [EvMkdirAll (reviewResultsDir env); EvReadFile configFile].
Proof.
  unfold started. cbn zeta. destruct (disk _ !! _); wsimpl; by rewrite <- app_assoc.
Qed.

Lemma started_conf env data w : conf (started env data w) = loaded_config env data.
Proof. reflexivity. Qed.

Lemma started_counts env data w :
  get_calls (started env data w) = get_calls w /\
  clock_reads (started env data w) = clock_reads w /\
  now (started env data w) = now w.
Proof. unfold started. cbn zeta. by destruct (disk _ !! _). Qed.

(** The fork request and what [main] makes of its answer. *)
Lemma main_fork_run env fuel w :
  main_fork env fuel w =
  let w1 := logged (EvCreateFork (nth 2 (Args env) EmptyString) (nth 3 (Args env) EmptyString)) w in
  match CreateFork_result env with
  | inl _ => main_poll env fuel (nth 3 (Args env) EmptyString) None w1
  | inr e =>
      if Contains (Error e) scheduledMsg
      then main_poll env fuel (nth 3 (Args env) EmptyString) (Some e) w1
      else (Exit 1, logged (EvFatal (Some e)) w1)
  end.
Proof.
  unfold main_fork. cbn zeta. rewrite bind_run. unfold attempt, Repositories_CreateFork.
  rewrite bind_run, emit_run. unfold prim.
  destruct (CreateFork_result env) as [rf|e]; [reflexivity|].
  rewrite bind_run. by destruct (Contains (Error e) scheduledMsg).
Qed.

Lemma emits_prim_pure {A} Q (f : World -> Res A * World) :
  (forall w, trace (snd (f w)) = trace w) -> emits Q (prim f).
Proof. apply emits_silent. Qed.

Lemma emits_vendorLoop Q files b :
  Q (EvPrintln "Found vendor directory") -> emits Q (vendorLoop files b).
Proof.
  intros HQ. revert b. induction files as [|f files IH]; intros b; cbn [vendorLoop].
  - apply emits_ret.
  - destruct (_ && _); [|apply IH].
    apply emits_bind; [by apply emits_Println|intros _; apply IH].
Qed.

Lemma emits_runCmd env Q dir cmd :
  (forall ev, is_pipeline ev = false -> Q ev) -> (forall t, Q (EvRun cmd t)) ->
  emits Q (runCmd env dir cmd).
Proof.
  intros HQ Hrun. unfold runCmd.
  apply emits_bind; [apply emits_traced, emits_Chdir; by apply HQ|intros _].
  apply emits_bind; [apply emits_Println; by apply HQ|intros _].
  apply emits_bind; [by apply emits_attempt, emits_cmd_Run|intros [?|e]].
  - apply emits_ret.
  - apply emits_bind; [apply emits_attempt, emits_RemoveAll; by apply HQ|intros _].
    by apply emits_silent.
Qed.

Lemma emits_pollFork env Q fuel timeout repo_name err :
  (forall ev, is_pipeline ev = false -> is_clone ev = false -> Q ev) ->
  emits Q (pollFork env fuel timeout repo_name err).
Proof.
  intros HQ. revert err. induction fuel as [|fuel IH]; intros err; cbn [pollFork].
  - by apply emits_silent.
  - apply emits_bind; [apply emits_time_Now; intros; by apply HQ|intros t].
    destruct (timeout <? t); [apply emits_log_Fatal; by apply HQ|].
    apply emits_bind; [apply emits_get_world|intros w0].
    apply emits_bind; [apply emits_attempt, emits_Get; by apply HQ|intros [rf|e]].
    + apply emits_ret.
    + apply emits_bind; [apply emits_Println; by apply HQ|intros _].
      apply emits_bind; [apply emits_time_Sleep; by apply HQ|intros _]. apply IH.
Qed.

(** *** Solving [emits] goals *)

Ltac emits_side := first [done | intros; done | intros; reflexivity | intros; tauto].

Ltac emits_step :=
  lazymatch goal with
  | |- emits _ (mret _) => apply emits_ret
  | |- emits _ (ret _) => apply emits_ret
  | |- emits _ get_world => apply emits_get_world
  | |- emits _ (Println _) => apply emits_Println; emits_side
  | |- emits _ (log_Fatal _) => apply emits_log_Fatal; emits_side
  | |- emits _ (or_Fatal _) => apply emits_or_Fatal; [emits_side|]
  | |- emits _ (time_Now _) => apply emits_time_Now; emits_side
  | |- emits _ (time_Sleep _) => apply emits_time_Sleep; emits_side
  | |- emits _ (os_MkdirAll _ _) => apply emits_MkdirAll; emits_side
  | |- emits _ (ioutil_ReadFile _ _) => apply emits_ReadFile; emits_side
  | |- emits _ (ioutil_TempDir _) => apply emits_TempDir; emits_side
  | |- emits _ (os_Chdir _ _) => apply emits_Chdir; emits_side
  | |- emits _ (ioutil_ReadDir _ _) => apply emits_ReadDir; emits_side
  | |- emits _ (ioutil_WriteFile _ _ _) => apply emits_WriteFile; emits_side
  | |- emits _ (os_RemoveAll _ _) => apply emits_RemoveAll; emits_side
  | |- emits _ (cmd_Run _ _) => apply emits_cmd_Run; emits_side
  | |- emits _ (Repositories_CreateFork _ _ _) => apply emits_CreateFork; emits_side
  | |- emits _ (Repositories_Get _ _ _) => apply emits_Get; emits_side
  | |- emits _ (git_PlainClone _ _ _) => apply emits_PlainClone; emits_side
  | |- emits _ (Repository_Worktree _ _) => apply emits_Worktree; emits_side
  | |- emits _ (Worktree_Checkout _ _ _ _) => apply emits_Checkout; emits_side
  | |- emits _ (Worktree_AddGlob _ _ _) => apply emits_AddGlob; emits_side
  | |- emits _ (Worktree_Remove _ _ _) => apply emits_Remove; emits_side
  | |- emits _ (Worktree_Commit _ _ _ _) => apply emits_Commit; emits_side
  | |- emits _ (Repository_CommitObject _ _ _) => apply emits_CommitObject; emits_side
  | |- emits _ (Repository_Push _ _ _ _ _) => apply emits_Push; emits_side
  | |- emits _ (vendorLoop _ _) => apply emits_vendorLoop; emits_side
  | |- emits _ (pollFork _ _ _ _ _) => apply emits_pollFork; emits_side
  | |- emits _ (traced _) => apply emits_traced
  | |- emits _ (attempt _) => apply emits_attempt
  | |- emits _ (defer _ _) => apply emits_defer
  | |- emits _ (prim _) => apply emits_silent; intros ?; reflexivity
  | |- emits _ (mbind _ _) => apply emits_bind; [|intros ?]
  | |- emits _ (if ?b then _ else _) => destruct b
  | |- emits _ (match ?x with _ => _ end) => destruct x
  end.

Ltac emits_auto := repeat emits_step.

(** ** The polling phase *)

Lemma poll_timeout_quiet timeout user repo_name lo err evs :
  poll_timeout timeout user repo_name lo err evs ->
  Forall (fun ev => is_pipeline ev = false /\ is_clone ev = false /\
                    is_commit_or_push ev = false) evs.
Proof. induction 1; repeat first [apply Forall_nil_2 | apply Forall_cons_2]; auto. Qed.

(** With a fork that never shows up and a clock that does not go back, the
    loop ends at its deadline, given fuel for the attempts two seconds
    apart that fit before it. *)
Lemma pollFork_never_ready env timeout repo_name :
  (forall n, exists e, Get_result env n = inr e) ->
  (forall n, 0 <= elapsed env n) ->
  forall fuel err w,
    (1 <= fuel)%nat ->
    timeout - now w < Second * 2 * (Z.of_nat fuel - 1) ->
    exists w' evs,
      pollFork env fuel timeout repo_name err w = (Exit 1, w') /\
      trace w' = trace w ++ evs /\
      poll_timeout timeout (Username (conf w)) repo_name (now w) err evs.
Proof.
  intros Hget Hel. induction fuel as [|fuel IH]; intros err w Hf Hlt; [lia|].
  cbn [pollFork]. rewrite bind_run. unfold time_Now at 1.
  set (t := now w + elapsed env (clock_reads w)).
  assert (Ht : now w <= t) by (specialize (Hel (clock_reads w)); lia).
  destruct (timeout <? t) eqn:Hto.
  - apply Z.ltb_lt in Hto. unfold log_Fatal. rewrite bind_run, emit_run.
    eexists. exists [EvNow t; EvFatal err]. split; [reflexivity|].
    split; [wsimpl; by rewrite <- app_assoc|]. by constructor.
  - apply Z.ltb_ge in Hto. rewrite bind_run. unfold get_world.
    rewrite bind_run. unfold attempt, Repositories_Get. rewrite bind_run, emit_run.
    unfold prim. wsimpl. destruct (Hget (get_calls w)) as [e He]. rewrite He.
    rewrite bind_run. unfold Println. rewrite emit_run, bind_run. unfold time_Sleep.
    wsimpl.
    match goal with |- context [pollFork env fuel timeout repo_name (Some e) ?w1] =>
      destruct (IH (Some e) w1) as (w' & evs & Hrun & Htr & Hpt)
    end.
    + wsimpl. unfold Second in *. lia.
    + wsimpl. unfold Second in *. lia.
    + exists w', (EvNow t :: EvGet (Username (conf w)) repo_name :: EvPrintln (Error e)
                   :: EvSleep (Second * 2) :: evs).
      split; [exact Hrun|]. wsimpl. split.
      * rewrite Htr, <- !app_assoc. reflexivity.
      * by constructor.
Qed.

(** C7: when the query for the fork never succeeds (and the clock does not
    go back), the run polls at clock readings within five minutes of the
    reading taken after the fork request, prints each error and sleeps two
    seconds before the next attempt, and at the first reading past the
    deadline logs the error last assigned and exits with status 1; it makes
    no clone, commit or push.  Fuel for 152 rounds is enough. *)
Theorem poll_deadline_is_fatal env fuel w data :
  length (Args env) = 4%nat ->
  (forall n, fault env OpMkdirAll n = None) ->
  ReadFile_result env configFile = inl data ->
  fork_accepted env ->
  (forall n, exists e, Get_result env n = inr e) ->
  (forall n, 0 <= elapsed env n) ->
  (152 <= fuel)%nat ->
  exists w' t0 evs,
    main env fuel w = (Exit 1, w') /\
    new_events w w' =
      [EvMkdirAll (reviewResultsDir env); EvReadFile configFile;
       EvCreateFork (nth 2 (Args env) EmptyString) (nth 3 (Args env) EmptyString); EvNow t0] ++ evs /\
    poll_timeout (t0 + Minute * 5) (Username (loaded_config env data))
      (nth 3 (Args env) EmptyString) t0 (fork_err env) evs /\
    Forall (fun ev => is_clone ev = false /\ is_commit_or_push ev = false)
      (new_events w w').
Proof.
  intros Ha Hm Hr Hfork Hget Hel Hfuel.
  rewrite (main_started _ _ _ _ Ha Hm Hr), main_fork_run. cbn zeta.
  set (w1 := logged _ (started env data w)).
  assert (Hpoll : exists w' t0 evs,
            main_poll env fuel (nth 3 (Args env) EmptyString) (fork_err env) w1 = (Exit 1, w') /\
            trace w' = trace w1 ++ EvNow t0 :: evs /\
            poll_timeout (t0 + Minute * 5) (Username (loaded_config env data))
              (nth 3 (Args env) EmptyString) t0 (fork_err env) evs).
  { unfold main_poll. rewrite bind_run. unfold time_Now at 1.
    set (t0 := now w1 + elapsed env (clock_reads w1)). cbv beta iota.
    rewrite bind_run.
    match goal with |- context [pollFork env fuel ?to ?rn ?err ?w2] =>
      destruct (pollFork_never_ready env to rn Hget Hel fuel err w2)
        as (w' & evs & Hrun & Htr & Hpt)
    end.
    - lia.
    - wsimpl. unfold Minute, Second. lia.
    - exists w', t0, evs. rewrite Hrun. split; [done|].
      wsimpl. split; [by rewrite Htr, <- app_assoc|exact Hpt]. }
  destruct Hpoll as (w' & t0 & evs & Hrun & Htr & Hpt).
  assert (Hrun' : match CreateFork_result env with
                  | inl _ => main_poll env fuel (nth 3 (Args env) EmptyString) None w1
                  | inr e => if Contains (Error e) scheduledMsg
                             then main_poll env fuel (nth 3 (Args env) EmptyString) (Some e) w1
                             else (Exit 1, logged (EvFatal (Some e)) w1)
                  end = (Exit 1, w')).
  { unfold fork_accepted, fork_err in *. destruct (CreateFork_result env) as [?|e];
      [exact Hrun|]. by rewrite Hfork. }
  exists w', t0, evs. split; [exact Hrun'|].
  assert (Hnew : new_events w w' =
            [EvMkdirAll (reviewResultsDir env); EvReadFile configFile;
             EvCreateFork (nth 2 (Args env) EmptyString) (nth 3 (Args env) EmptyString); EvNow t0] ++ evs).
  { apply new_events_app. rewrite Htr. unfold w1. wsimpl.
    rewrite started_trace, <- !app_assoc. reflexivity. }
  rewrite Hnew. split; [done|]. split; [exact Hpt|].
  apply Forall_app. split.
  - repeat first [apply Forall_nil_2 | apply Forall_cons_2]; auto.
  - eapply Forall_impl; [by eapply poll_timeout_quiet|]. cbn. tauto.
Qed.

Lemma poll_deadline_is_fatal_witness :
  (length (Args ex_env_never) = 4%nat /\
   (forall n, fault ex_env_never OpMkdirAll n = None) /\
   ReadFile_result ex_env_never configFile = inl ex_config /\
   fork_accepted ex_env_never /\
   (forall n, exists e, Get_result ex_env_never n = inr e) /\
   (forall n, 0 <= elapsed ex_env_never n) /\
   (152 <= 152)%nat) /\
  exists w' t0 evs,
    main ex_env_never 152 ex_world = (Exit 1, w') /\
    new_events ex_world w' =
      [EvMkdirAll (reviewResultsDir ex_env_never); EvReadFile configFile;
       EvCreateFork (nth 2 (Args ex_env_never) EmptyString) (nth 3 (Args ex_env_never) EmptyString);
       EvNow t0] ++ evs /\
    poll_timeout (t0 + Minute * 5) (Username (loaded_config ex_env_never ex_config))
      (nth 3 (Args ex_env_never) EmptyString) t0 (fork_err ex_env_never) evs /\
    Forall (fun ev => is_clone ev = false /\ is_commit_or_push ev = false)
      (new_events ex_world w').
Proof.
  assert (H1 : length (Args ex_env_never) = 4%nat) by reflexivity.
  assert (H2 : forall n, fault ex_env_never OpMkdirAll n = None) by reflexivity.
  assert (H3 : ReadFile_result ex_env_never configFile = inl ex_config) by reflexivity.
  assert (H4 : fork_accepted ex_env_never) by (vm_compute; reflexivity).
  assert (H5 : forall n, exists e, Get_result ex_env_never n = inr e)
    by (intros n; eexists; reflexivity).
  assert (H6 : forall n, 0 <= elapsed ex_env_never n) by (intros n; cbn; lia).
  assert (H7 : (152 <= 152)%nat) by lia.
  split; [tauto|].
  exact (poll_deadline_is_fatal ex_env_never 152 ex_world ex_config H1 H2 H3 H4 H5 H6 H7).
Defined.

(** On the example clock, where every reading comes a millisecond late, the
    deadline is met at the 151st reading of the loop, after 150 queries;
    with less fuel the model stops short of it. *)
Example poll_example :
  fst (main ex_env_never 151 ex_world) = Exit 1 /\
  fst (main ex_env_never 150 ex_world) = OutOfFuel /\
  length (filter (fun ev => is_get ev = true) (trace (snd (main ex_env_never 152 ex_world))))
    = 150%nat.
Proof. repeat split; vm_compute; reflexivity. Qed.

(** Whatever the later stages do, the trace only grows. *)
Lemma emits_main_workspace env repo_name rf :
  emits (fun _ => True) (main_workspace env repo_name rf).
Proof.
  unfold main_workspace, main_dispatch, handleReview, handleRewrite, runCmd.
  emits_auto.
Qed.

(** C6: when the fork request returns an error, the run goes on to the
    polling phase if the message contains the scheduled text (it sets the
    deadline, reads the clock for the first round and, within the deadline,
    queries the fork), and otherwise logs that error and exits at once,
    without a query. *)
Theorem fork_error_dispatch env fuel w data e :
  length (Args env) = 4%nat ->
  (forall n, fault env OpMkdirAll n = None) ->
  ReadFile_result env configFile = inl data ->
  CreateFork_result env = inr e ->
  if Contains (Error e) scheduledMsg
  then
    exists t0 t1 evs,
      new_events w (snd (main env (S fuel) w)) =
        [EvMkdirAll (reviewResultsDir env); EvReadFile configFile;
         EvCreateFork (nth 2 (Args env) EmptyString) (nth 3 (Args env) EmptyString);
         EvNow t0; EvNow t1] ++ evs /\
      (t1 <= t0 + Minute * 5 ->
       exists evs', evs = EvGet (Username (loaded_config env data)) (nth 3 (Args env) EmptyString)
                            :: evs') /\
      (t0 + Minute * 5 < t1 -> evs = [EvFatal (Some e)])
  else
    fst (main env fuel w) = Exit 1 /\
    new_events w (snd (main env fuel w)) =
      [EvMkdirAll (reviewResultsDir env); EvReadFile configFile;
       EvCreateFork (nth 2 (Args env) EmptyString) (nth 3 (Args env) EmptyString); EvFatal (Some e)] /\
    get_calls (snd (main env fuel w)) = get_calls w /\
    clock_reads (snd (main env fuel w)) = clock_reads w.
Proof.
  intros Ha Hm Hr Hf. destruct (Contains (Error e) scheduledMsg) eqn:Hc; cycle 1.
  - rewrite (main_started _ _ _ _ Ha Hm Hr), main_fork_run, Hf, Hc. cbn zeta.
    cbn [fst snd]. split; [done|]. split.
    + apply new_events_app. wsimpl. by rewrite started_trace, <- !app_assoc.
    + wsimpl. destruct (started_counts env data w) as (? & ? & _). by split.
  - rewrite (main_started _ _ _ _ Ha Hm Hr), main_fork_run, Hf, Hc. cbn zeta.
    set (w1 := logged _ (started env data w)).
    unfold main_poll. rewrite bind_run. unfold time_Now at 1.
    set (t0 := now w1 + elapsed env (clock_reads w1)). cbv beta iota.
    rewrite bind_run. cbn [pollFork]. rewrite bind_run. unfold time_Now at 1. wsimpl.
    set (t1 := t0 + elapsed env (S (clock_reads w1))). cbv beta iota.
    exists t0, t1.
    assert (Hpre : trace w1 ++ [EvNow t0; EvNow t1] =
              trace w ++ [EvMkdirAll (reviewResultsDir env); EvReadFile configFile;
                          EvCreateFork (nth 2 (Args env) EmptyString) (nth 3 (Args env) EmptyString);
                          EvNow t0; EvNow t1]).
    { unfold w1. wsimpl. by rewrite started_trace, <- !app_assoc. }
    destruct (t0 + Minute * 5 <? t1) eqn:Hto.
    + apply Z.ltb_lt in Hto. rewrite log_Fatal_run. cbn [snd].
      exists [EvFatal (Some e)]. split; [|split; [lia|done]].
      apply new_events_app. unfold w1. wsimpl. by rewrite started_trace, <- !app_assoc.
    + apply Z.ltb_ge in Hto. rewrite bind_run. unfold get_world. rewrite bind_run.
      unfold attempt, Repositories_Get. rewrite bind_run, emit_run. unfold prim. wsimpl.
      match goal with |- context [new_events w (snd ?run)] =>
        assert (Hgrow : exists evs', trace (snd run) =
                  (trace w1 ++ [EvNow t0; EvNow t1]) ++
                  EvGet (Username (loaded_config env data)) (nth 3 (Args env) EmptyString) :: evs')
      end.
      { destruct (Get_result env (get_calls w1)) as [rf|e'].
        - rewrite ret_run.
          match goal with |- context [main_workspace env ?rn ?rf ?w2] =>
            destruct (main_workspace env rn rf w2) as [r w'] eqn:Hrun
          end.
          apply emits_main_workspace in Hrun as (evs' & Htr & _). exists evs'.
          cbn [snd]. rewrite Htr. unfold w1. wsimpl.
          by rewrite ?started_conf, <- !app_assoc.
        - rewrite bind_run. unfold Println. rewrite emit_run, bind_run. unfold time_Sleep.
          match goal with |- context [pollFork env fuel ?to ?rn ?err ?w2] =>
            destruct (pollFork env fuel to rn err w2) as [r w2'] eqn:Hrun
          end.
          apply (emits_pollFork env (fun _ => True)) in Hrun as (evs1 & Htr1 & _); [|done].
          destruct r as [rf| | |];
            try (cbn [snd]; eexists; rewrite Htr1; unfold w1; wsimpl;
                 rewrite ?started_conf, <- !app_assoc; reflexivity).
          match goal with |- context [main_workspace env ?rn ?rf ?w2] =>
            destruct (main_workspace env rn rf w2) as [r w'] eqn:Hrun
          end.
          apply emits_main_workspace in Hrun as (evs' & Htr & _).
          cbn [snd]. eexists. rewrite Htr, Htr1. unfold w1. wsimpl.
          rewrite ?started_conf, <- !app_assoc. reflexivity. }
      destruct Hgrow as (evs' & Hgrow). eexists. split; [|split; [eauto|lia]].
      apply new_events_app. rewrite Hgrow, Hpre, <- !app_assoc. reflexivity.
Qed.

Lemma fork_error_dispatch_witness :
  (length (Args ex_env_never) = 4%nat /\
   (forall n, fault ex_env_never OpMkdirAll n = None) /\
   ReadFile_result ex_env_never configFile = inl ex_config /\
   CreateFork_result ex_env_never = inr (New scheduledMsg)) /\
  exists t0 t1 evs,
    new_events ex_world (snd (main ex_env_never (S 151) ex_world)) =
      [EvMkdirAll (reviewResultsDir ex_env_never); EvReadFile configFile;
       EvCreateFork (nth 2 (Args ex_env_never) EmptyString) (nth 3 (Args ex_env_never) EmptyString);
       EvNow t0; EvNow t1] ++ evs /\
    (t1 <= t0 + Minute * 5 ->
     exists evs', evs = EvGet (Username (loaded_config ex_env_never ex_config))
                          (nth 3 (Args ex_env_never) EmptyString) :: evs') /\
    (t0 + Minute * 5 < t1 -> evs = [EvFatal (Some (New scheduledMsg))]).
Proof.
  assert (H1 : length (Args ex_env_never) = 4%nat) by reflexivity.
  assert (H2 : forall n, fault ex_env_never OpMkdirAll n = None) by reflexivity.
  assert (H3 : ReadFile_result ex_env_never configFile = inl ex_config) by reflexivity.
  assert (H4 : CreateFork_result ex_env_never = inr (New scheduledMsg)) by reflexivity.
  split; [tauto|].
  exact (fork_error_dispatch ex_env_never 151 ex_world ex_config (New scheduledMsg)
           H1 H2 H3 H4).
Defined.

(** A fork request the forge refuses ends the example run on the spot. *)
Example fork_refused_example :
  Contains "404 Not Found" scheduledMsg = false /\
  main ex_env_refused 200 ex_world =
    (Exit 1,
     with_conf {| Username := "bot"; Email := "bot@example.org"; Token := "s3cret" |}
       (with_disk {[ "/home/op/speedlingo-review-results" := ∅ ]}
          (with_trace
             [EvMkdirAll "/home/op/speedlingo-review-results"; EvReadFile "config.yaml";
              EvCreateFork "acme" "widget"; EvFatal (Some (New "404 Not Found"))]
             ex_world))).
Proof. split; vm_compute; reflexivity. Qed.

(** The scheduled answer of the forge contains the text [main] looks for,
    also inside a longer message. *)
Example scheduled_message_example :
  Contains ("POST https://api.github.com/repos/acme/widget/forks: 202 " ++ scheduledMsg)%string
    scheduledMsg = true.
Proof. vm_compute. reflexivity. Qed.

(** ** Mode dispatch *)

Lemma not_Ok_Err {A} (e : error) (a : A) : Err e <> Ok a.
Proof. discriminate. Qed.

(** A run of [main] with four arguments either stops before the workspace
    stage, or gets there with the fork request made. *)
Lemma main_reaches env fuel w r w' :
  length (Args env) = 4%nat ->
  main env fuel w = (r, w') ->
  (exists evs, trace w' = trace w ++ evs /\ Forall early evs /\ r <> Ok tt) \/
  (exists rf w1 evs,
     trace w1 = trace w ++ evs /\ Forall early evs /\
     In (EvCreateFork (nth 2 (Args env) EmptyString) (nth 3 (Args env) EmptyString)) evs /\
     main_workspace env (nth 3 (Args env) EmptyString) rf w1 = (r, w')).
Proof.
  intros Ha H. rewrite main_stages, Ha in H. cbn [Nat.eqb negb] in H.
  (* a stage that stops the run *)
  assert (Hstop : forall {A} (m : M A) w0 evs0 (r0 : Res A),
            trace w0 = trace w ++ evs0 -> Forall early evs0 ->
            emits early m -> m w0 = (r0, w') -> (forall a, r0 <> Ok a) -> r <> Ok tt ->
            exists evs, trace w' = trace w ++ evs /\ Forall early evs /\ r <> Ok tt).
  { intros A m w0 evs0 r0 Ht0 Hf0 Hm Hrun _ Hr.
    destruct (Hm _ _ _ Hrun) as (evs1 & Ht1 & Hf1). exists (evs0 ++ evs1).
    split; [by rewrite Ht1, Ht0, app_assoc|]. split; [by apply Forall_app|done]. }
  (* a stage that goes on *)
  assert (Hgo : forall {A} (m : M A) w0 evs0 a w1,
            trace w0 = trace w ++ evs0 -> Forall early evs0 ->
            emits early m -> m w0 = (Ok a, w1) ->
            exists evs, trace w1 = trace w ++ evs0 ++ evs /\ Forall early evs).
  { intros A m w0 evs0 a w1 Ht0 Hf0 Hm Hrun.
    destruct (Hm _ _ _ Hrun) as (evs1 & Ht1 & Hf1). exists evs1.
    split; [by rewrite Ht1, Ht0, app_assoc|done]. }
  assert (E0 : trace w = trace w ++ []) by by rewrite app_nil_r.
  (* results directory *)
  assert (Em1 : emits early (or_Fatal (os_MkdirAll env (reviewResultsDir env))))
    by (unfold early; emits_auto).
  apply bind_inv in H as [([] & w1 & H1 & H)|[(e & H1 & ->)|[(c & H1 & ->)|[H1 ->]]]];
    try (left; by eapply (Hstop _ _ w [] _ E0 (Forall_nil_2 _) Em1 H1)).
  destruct (Hgo _ _ _ _ _ _ E0 (Forall_nil_2 _) Em1 H1) as (evs1 & Ht1 & Hf1).
  cbn [app] in Ht1.
  (* credentials *)
  assert (Em2 : emits early (or_Fatal (unmarshalConfigFile env))).
  { unfold early, unmarshalConfigFile. emits_auto. }
  apply bind_inv in H as [(c & w2 & H2 & H)|[(e & H2 & ->)|[(c & H2 & ->)|[H2 ->]]]];
    try (left; by eapply (Hstop _ _ w1 evs1 _ Ht1 Hf1 Em2 H2)).
  destruct (Hgo _ _ _ _ _ _ Ht1 Hf1 Em2 H2) as (evs2 & Ht2 & Hf2).
  apply bind_inv in H as [([] & w3 & H3 & H)|[(e & H3 & ->)|[(c' & H3 & ->)|[H3 ->]]]];
    try (unfold prim in H3; discriminate).
  unfold prim in H3. injection H3 as <-.
  (* the fork request *)
  rewrite main_fork_run in H. cbn zeta in H.
  set (ev := EvCreateFork (nth 2 (Args env) EmptyString) (nth 3 (Args env) EmptyString)) in *.
  assert (Ht3 : trace (logged ev (with_conf c w2)) = trace w ++ (evs1 ++ evs2) ++ [ev]).
  { wsimpl. by rewrite Ht2, <- !app_assoc. }
  assert (Hf3 : Forall early ((evs1 ++ evs2) ++ [ev])).
  { repeat apply Forall_app_2; try done. by repeat constructor. }
  assert (Hin3 : In ev ((evs1 ++ evs2) ++ [ev])).
  { apply in_or_app. right. by left. }
  (* the polling phase, once reached *)
  assert (Hpoll : forall err,
            main_poll env fuel (nth 3 (Args env) EmptyString) err (logged ev (with_conf c w2)) = (r, w') ->
            (exists evs, trace w' = trace w ++ evs /\ Forall early evs /\ r <> Ok tt) \/
            (exists rf w1 evs,
               trace w1 = trace w ++ evs /\ Forall early evs /\ In ev evs /\
               main_workspace env (nth 3 (Args env) EmptyString) rf w1 = (r, w'))).
  { intros err Hrun. unfold main_poll in Hrun.
    assert (Em4 : emits early (time_Now env)) by (unfold early; emits_auto).
    apply bind_inv in Hrun
      as [(t0 & w4 & H4 & Hrun)|[(e & H4 & ->)|[(c' & H4 & ->)|[H4 ->]]]];
      try (left; by eapply (Hstop _ _ _ _ _ Ht3 Hf3 Em4 H4)).
    destruct (Hgo _ _ _ _ _ _ Ht3 Hf3 Em4 H4) as (evs4 & Ht4 & Hf4).
    assert (Em5 : emits early (pollFork env fuel (t0 + Minute * 5) (nth 3 (Args env) EmptyString) err))
      by (apply emits_pollFork; by unfold early).
    assert (Hf4' : Forall early (((evs1 ++ evs2) ++ [ev]) ++ evs4)) by by apply Forall_app_2.
    apply bind_inv in Hrun
      as [(rf & w5 & H5 & Hrun)|[(e & H5 & ->)|[(c' & H5 & ->)|[H5 ->]]]];
      try (left; by eapply (Hstop _ _ _ _ _ Ht4 Hf4' Em5 H5)).
    destruct (Hgo _ _ _ _ _ _ Ht4 Hf4' Em5 H5) as (evs5 & Ht5 & Hf5).
    right. exists rf, w5, ((((evs1 ++ evs2) ++ [ev]) ++ evs4) ++ evs5).
    split; [by rewrite Ht5, !app_assoc|]. split; [by apply Forall_app_2|]. split; [|exact Hrun].
    apply in_or_app. left. apply in_or_app. by left. }
  destruct (CreateFork_result env) as [rf|e]; [by eapply Hpoll|].
  destruct (Contains (Error e) scheduledMsg); [by eapply Hpoll|].
  injection H as <- <-. left. exists (((evs1 ++ evs2) ++ [ev]) ++ [EvFatal (Some e)]).
  split; [wsimpl; by rewrite Ht2, <- !app_assoc|].
  split; [|done]. apply Forall_app_2; [done|]. by repeat constructor.
Qed.

Lemma main_dispatch_unknown env dir r repo_name w :
  nth 1 (Args env) EmptyString <> "review" ->
  nth 1 (Args env) EmptyString <> "rewrite" ->
  main_dispatch env dir r repo_name w =
    (Exit 1, logged (EvFatal (Some (New unknownCommandMsg))) w).
Proof.
  intros H1 H2. unfold main_dispatch. cbn zeta.
  apply String.eqb_neq in H1, H2. by rewrite H1, H2.
Qed.

(** The workspace stage of a run with an unknown mode. *)
Lemma main_workspace_unknown env repo_name rf w :
  nth 1 (Args env) EmptyString <> "review" ->
  nth 1 (Args env) EmptyString <> "rewrite" ->
  exists w',
    main_workspace env repo_name rf w = (Exit 1, w') /\
    match TempDir_result env with
    | inr e => trace w' = trace w ++ [EvPrintln "Forked"; EvFatal (Some e)]
    | inl dir =>
        match Clone_result env with
        | inr e =>
            trace w' = trace w ++ workspace_events dir (HTMLURL rf) ++ [EvFatal (Some e)]
        | inl (rp, t) =>
            trace w' = trace w ++ workspace_events dir (HTMLURL rf) ++
                         [EvPrintln ("Cloned to " ++ dir);
                          EvFatal (Some (New unknownCommandMsg))] /\
            disk w' !! dir = Some t
        end
    end.
Proof.
  intros H1 H2. unfold main_workspace, workspace_events.
  rewrite bind_run. unfold Println at 1. rewrite emit_run, bind_run, or_Fatal_run.
  unfold ioutil_TempDir. wsimpl. destruct (TempDir_result env) as [dir|e].
  - unfold defer. rewrite bind_run. unfold Println at 1. rewrite emit_run, bind_run.
    unfold Println at 1. rewrite emit_run, bind_run, or_Fatal_run.
    unfold git_PlainClone. rewrite bind_run, emit_run. unfold prim. wsimpl.
    destruct (Clone_result env) as [[rp t]|e].
    + rewrite bind_run. unfold Println at 1. rewrite emit_run.
      rewrite (main_dispatch_unknown _ _ _ _ _ H1 H2).
      eexists. split; [reflexivity|]. wsimpl. split.
      * by rewrite <- !app_assoc.
      * by rewrite lookup_insert_eq.
    + eexists. split; [reflexivity|]. wsimpl. by rewrite <- !app_assoc.
  - eexists. split; [reflexivity|]. wsimpl. by rewrite <- !app_assoc.
Qed.

(** The spec's C5 fails on the example run with mode [deploy]: the fork was
    asked for and the clone made before the unsupported-command error. *)
Lemma mode_error_without_effects_counterexample :
  ~ mode_error_without_effects ex_unknown_env 200 ex_world.
Proof.
  intros (_ & _ & H). rewrite Forall_forall in H.
  destruct (H (EvCreateFork "acme" "widget")) as [Hf _]; [|discriminate Hf].
  apply list_elem_of_In. vm_compute. repeat (first [left; reflexivity | right]).
Qed.

(** C5, amended: a run with four arguments and a mode that is neither
    review nor rewrite never returns normally and performs no configuration
    injection, tool run, checkout, staging, commit or push; the mode is
    looked at only after the clone: a run that got to a successful clone has
    made the fork request, and ends by logging the unsupported-command
    error, which names the two modes, with exit status 1. *)
Theorem unknown_mode_fails_after_clone env fuel w r w' :
  length (Args env) = 4%nat ->
  nth 1 (Args env) EmptyString <> "review" ->
  nth 1 (Args env) EmptyString <> "rewrite" ->
  main env fuel w = (r, w') ->
  r <> Ok tt /\
  Forall (fun ev => is_pipeline ev = false) (new_events w w') /\
  (forall rp t, Clone_result env = inl (rp, t) ->
   Exists (fun ev => is_clone ev = true) (new_events w w') ->
   r = Exit 1 /\
   last (new_events w w') = Some (EvFatal (Some (New unknownCommandMsg))) /\
   In (EvCreateFork (nth 2 (Args env) EmptyString) (nth 3 (Args env) EmptyString)) (new_events w w') /\
   Contains unknownCommandMsg "review" = true /\
   Contains unknownCommandMsg "rewrite" = true).
Proof.
  intros Ha H1 H2 H.
  assert (Hno : forall evs, Forall early evs ->
            ~ Exists (fun ev => is_clone ev = true) evs).
  { intros evs Hf Hex. apply Exists_exists in Hex as (ev & Hin & Hc).
    rewrite Forall_forall in Hf. destruct (Hf _ Hin) as [_ Hc']. congruence. }
  apply (main_reaches _ _ _ _ _ Ha) in H
    as [(evs & Ht & Hf & Hr)|(rf & w1 & evs & Ht & Hf & Hin & H)].
  - rewrite (new_events_app _ _ _ Ht). split; [exact Hr|]. split.
    + eapply Forall_impl; [exact Hf|]. by intros ev [? _].
    + intros rp t _ Hex. by apply Hno in Hex.
  - destruct (main_workspace_unknown env (nth 3 (Args env) EmptyString) rf w1 H1 H2)
      as (w2 & Hrun & Hshape).
    rewrite Hrun in H. injection H as <- <-. split; [discriminate|].
    assert (Hearly : Forall (fun ev => is_pipeline ev = false) evs).
    { eapply Forall_impl; [exact Hf|]. by intros ev [? _]. }
    destruct (TempDir_result env) as [dir|e].
    + destruct (Clone_result env) as [[rp t]|e].
      * destruct Hshape as [Hshape _].
        erewrite (new_events_app w); [|by rewrite Hshape, Ht, <- !app_assoc].
        split.
        { apply Forall_app_2; [done|]. unfold workspace_events.
          by repeat first [apply Forall_nil_2 | apply Forall_cons_2]. }
        intros _ _ _ _. split; [done|]. split.
        { by rewrite !last_app. }
        split; [apply in_or_app; by left|]. split; vm_compute; reflexivity.
      * erewrite (new_events_app w); [|by rewrite Hshape, Ht, <- !app_assoc].
        split; [|by intros ? ? ?].
        apply Forall_app_2; [done|]. unfold workspace_events.
        by repeat first [apply Forall_nil_2 | apply Forall_cons_2].
    + erewrite (new_events_app w); [|by rewrite Hshape, Ht, <- !app_assoc].
      split.
      * apply Forall_app_2; [done|]. by repeat first [apply Forall_nil_2 | apply Forall_cons_2].
      * intros rp t _ Hex. apply Exists_app in Hex as [Hex|Hex]; [by apply Hno in Hex|].
        apply Exists_exists in Hex as (ev & Hin' & Hc).
        apply list_elem_of_In in Hin'. cbn [In] in Hin'.
        destruct Hin' as [<-|[<-|[]]]; discriminate.
Qed.

Lemma unknown_mode_fails_after_clone_witness :
  (length (Args ex_unknown_env) = 4%nat /\
   nth 1 (Args ex_unknown_env) EmptyString <> "review" /\
   nth 1 (Args ex_unknown_env) EmptyString <> "rewrite" /\
   main ex_unknown_env 200 ex_world = (Exit 1, ex_unknown_end)) /\
  ((Exit 1 : Res unit) <> Ok tt /\
   Forall (fun ev => is_pipeline ev = false) (new_events ex_world ex_unknown_end) /\
   (forall rp t, Clone_result ex_unknown_env = inl (rp, t) ->
    Exists (fun ev => is_clone ev = true) (new_events ex_world ex_unknown_end) ->
    (Exit 1 : Res unit) = Exit 1 /\
    last (new_events ex_world ex_unknown_end)
      = Some (EvFatal (Some (New unknownCommandMsg))) /\
    In (EvCreateFork (nth 2 (Args ex_unknown_env) EmptyString) (nth 3 (Args ex_unknown_env) EmptyString))
       (new_events ex_world ex_unknown_end) /\
    Contains unknownCommandMsg "review" = true /\
    Contains unknownCommandMsg "rewrite" = true)).
Proof.
  assert (H1 : length (Args ex_unknown_env) = 4%nat) by reflexivity.
  assert (H2 : nth 1 (Args ex_unknown_env) EmptyString <> "review") by discriminate.
  assert (H3 : nth 1 (Args ex_unknown_env) EmptyString <> "rewrite") by discriminate.
  assert (H4 : main ex_unknown_env 200 ex_world = (Exit 1, ex_unknown_end))
    by (vm_compute; reflexivity).
  split; [exact (conj H1 (conj H2 (conj H3 H4)))|].
  exact (unknown_mode_fails_after_clone ex_unknown_env 200 ex_world (Exit 1)
           ex_unknown_end H1 H2 H3 H4).
Defined.

(** On the example run the clone was made indeed, and the workspace is still
    on disk when the process is gone. *)
Example unknown_mode_example :
  Exists (fun ev => is_clone ev = true) (new_events ex_world ex_unknown_end) /\
  disk ex_unknown_end !! ex_dir = Some ex_tree.
Proof.
  split; [|vm_compute; reflexivity].
  apply Exists_exists. exists (EvClone ex_dir "https://github.com/bot/widget").
  split; [|reflexivity]. apply list_elem_of_In. vm_compute.
  repeat (first [left; reflexivity | right]).
Qed.

(** ** Exit paths and the workspace *)

(** C2: when the push fails in rewrite mode the run ends in [log.Fatal];
    the deferred removal never runs and the workspace directory, created
    and cloned into, is still on disk when the process is gone. *)
Theorem workspace_survives_fatal_exit :
  fst (main ex_push_fails_env 200 ex_world) = Exit 1 /\
  last (trace (snd (main ex_push_fails_env 200 ex_world)))
    = Some (EvFatal (Some (Trace ex_push_error))) /\
  existsb is_clone (trace (snd (main ex_push_fails_env 200 ex_world))) = true /\
  existsb is_remove_all (trace (snd (main ex_push_fails_env 200 ex_world))) = false /\
  bool_decide (is_Some (disk (snd (main ex_push_fails_env 200 ex_world)) !! ex_dir)) = true.
Proof. repeat split; vm_compute; reflexivity. Qed.

(** The two paths that do clean up: a run that succeeds runs the deferred
    removal, and a failing tool has the workspace removed by [runCmd]
    itself before the fatal exit. *)
Example workspace_removed_example :
  fst (main ex_rewrite_env 200 ex_world) = Ok tt /\
  disk (snd (main ex_rewrite_env 200 ex_world)) !! ex_dir = None /\
  fst (main ex_tool_fails_env 200 ex_world) = Exit 1 /\
  disk (snd (main ex_tool_fails_env 200 ex_world)) !! ex_dir = None.
Proof. repeat split; vm_compute; reflexivity. Qed.

(** ** Errors of the version-control steps *)

(** C3: an error of [Worktree.Commit] is overwritten by the result of
    [Repository.CommitObject].  When the commit fails before its object
    exists, the run reports the lookup error of the zero hash, not the
    commit's error; when it fails while moving the branch, the lookup
    succeeds, the run goes on to push and returns without an error. *)
Theorem commit_error_is_dropped :
  fst (handleRewrite ex_commit_fails_env ex_dir "s3cret" ex_dir ex_cmd (ex_cloned ex_repo))
    = Err (Trace ErrObjectNotFound) /\
  Cause (Trace ErrObjectNotFound) <> ex_commit_error /\
  fst (handleRewrite ex_update_head_fails_env ex_dir "s3cret" ex_dir ex_cmd
         (ex_cloned ex_repo)) = Ok tt /\
  existsb is_push
    (trace (snd (handleRewrite ex_update_head_fails_env ex_dir "s3cret" ex_dir ex_cmd
                   (ex_cloned ex_repo)))) = true.
Proof.
  split; [vm_compute; reflexivity|]. split; [discriminate|].
  split; vm_compute; reflexivity.
Qed.

(** The steps whose error is checked do abort the run with it: a failing
    push, for one. *)
Example push_error_example :
  fst (handleRewrite ex_push_fails_env ex_dir "s3cret" ex_dir ex_cmd (ex_cloned ex_repo))
    = Err (Trace ex_push_error) /\
  Cause (Trace ex_push_error) = ex_push_error.
Proof. split; vm_compute; reflexivity. Qed.
(** ** Branch resolution *)

(** A checkout leaves its event and no other, however it ends. *)
Lemma Checkout_trace env wt c b w r w' :
  Worktree_Checkout env wt c b w = (r, w') -> trace w' = trace w ++ [EvCheckout c b].
Proof.
  unfold Worktree_Checkout. rewrite bind_run, emit_run, bind_run. unfold may_fail.
  destruct (fault env _ _); [intros; by simplify_eq|].
  rewrite bind_run. destruct c.
  - unfold createBranch, prim. intros H. repeat case_match; by simplify_eq.
  - rewrite ret_run. unfold prim. intros H. repeat case_match; by simplify_eq.
Qed.

(** A checkout returns: the process does not end inside the library. *)
Lemma Checkout_returns env wt c b w r w' :
  Worktree_Checkout env wt c b w = (r, w') ->
  (exists a, r = Ok a) \/ (exists e, r = Err e).
Proof.
  unfold Worktree_Checkout. rewrite bind_run, emit_run, bind_run. unfold may_fail.
  destruct (fault env _ _); [intros; simplify_eq; eauto|].
  rewrite bind_run. destruct c.
  - unfold createBranch, prim. intros H. repeat case_match; simplify_eq; eauto.
  - rewrite ret_run. unfold prim. intros H. repeat case_match; simplify_eq; eauto.
Qed.

(** Without a local branch of the name, a checkout without [Create] fails:
    with the library's reference error when nothing else is in the way. *)
Lemma Checkout_absent env wt b w t :
  disk w !! wt = Some t ->
  unstaged (index (repo w)) t = false ->
  refs (repo w) !! b = None ->
  exists e,
    Worktree_Checkout env wt false b w = (Err e, logged (EvCheckout false b) w) /\
    ((forall n, fault env (OpCheckout false) n = None) -> e = ErrReferenceNotFound).
Proof.
  intros Hd Hu Hr. unfold Worktree_Checkout.
  rewrite bind_run, emit_run, bind_run. unfold may_fail.
  destruct (fault env _ _) as [e|] eqn:Hf.
  - exists e. split; [done|]. intros Hno. by rewrite Hno in Hf.
  - rewrite bind_run, ret_run. unfold prim. wsimpl. rewrite Hd, Hu, Hr.
    exists ErrReferenceNotFound. by split.
Qed.

(** C10: a rewrite run against a fork that already has the branch does not
    reuse it.  The repository the handler works on is a fresh clone: its one
    local branch is the fork's default branch, also when the fork has the
    branch [rewrite].  So the checkout without creation returns an error
    (the library's reference error, unless the call is failed from outside),
    a checkout with creation follows at once, and where that one succeeds
    the branch it has made starts at the commit of the fork's default branch
    and not at the commit the fork's branch [rewrite] holds. *)
Theorem fork_branch_is_recreated env dir token cmd w r w' t c0 :
  (forall n, fault env OpChdir n = None) ->
  (forall n, fault env OpWorktree n = None) ->
  disk w !! dir = Some t ->
  fresh_clone (remote_heads w) (repo w) t ->
  HEAD (repo w) <> rewriteBranch ->
  remote_heads w !! rewriteBranch = Some c0 ->
  remote_heads w !! HEAD (repo w) <> Some c0 ->
  handleRewrite env dir token dir cmd w = (r, w') ->
  let w1 := at_branch_resolution dir w in
  let w2 := logged (EvCheckout false rewriteBranch) w1 in
  (exists e,
     Worktree_Checkout env dir false rewriteBranch w1 = (Err e, w2) /\
     ((forall n, fault env (OpCheckout false) n = None) -> e = ErrReferenceNotFound)) /\
  (exists post,
     new_events w w' =
       [EvChdir dir; EvWorktree; EvCheckout false rewriteBranch;
        EvCheckout true rewriteBranch] ++ post) /\
  (forall w3,
     Worktree_Checkout env dir true rewriteBranch w2 = (Ok tt, w3) ->
     HEAD (repo w3) = rewriteBranch /\
     exists h,
       refs (repo w3) !! rewriteBranch = Some h /\
       refs (repo w3) !! HEAD (repo w) = Some h /\
       get_commit (objects (repo w3)) h = remote_heads w !! HEAD (repo w) /\
       get_commit (objects (repo w3)) h <> Some c0).
Proof.
  intros Hc Hw Ht (h & c & Hrefs & Hget & Hhead & _ & Hclean) Hne Hfork Hahead H. cbn zeta.
  set (w1 := at_branch_resolution dir w).
  set (w2 := logged (EvCheckout false rewriteBranch) w1).
  assert (Hw1 : trace w1 = trace w ++ [EvChdir dir; EvWorktree]).
  { unfold w1, at_branch_resolution. wsimpl. by rewrite <- app_assoc. }
  assert (Habs : refs (repo w1) !! rewriteBranch = None).
  { unfold w1, at_branch_resolution. wsimpl. rewrite Hrefs.
    by apply lookup_singleton_ne. }
  destruct (Checkout_absent env dir rewriteBranch w1 t) as (e & Hco & He); [done..|].
  fold w2 in Hco.
  split; [by exists e|]. split.
  - (* the run from branch resolution on *)
    unfold handleRewrite in H. fold rewriteBranch in H.
    rewrite bind_run in H. unfold traced at 1, os_Chdir in H.
    rewrite call_run, Hc in H. unfold prim in H. wsimpl. rewrite Ht in H.
    rewrite bind_run in H. unfold traced at 1, Repository_Worktree in H.
    rewrite bind_run, emit_run, bind_run in H. unfold may_fail in H.
    rewrite Hw, ret_run in H. fold (at_branch_resolution dir w) in H. fold w1 in H.
    rewrite bind_run in H. unfold attempt at 1 in H. rewrite Hco in H.
    rewrite bind_run in H. unfold traced at 1 in H.
    destruct (Worktree_Checkout env dir true rewriteBranch w2) as [res3 w3] eqn:Hcr.
    apply Checkout_trace in Hcr as Ht3.
    assert (Htr : exists post, trace w' = trace w3 ++ post).
    { destruct (Checkout_returns _ _ _ _ _ _ _ Hcr) as [[[] ->]|[e2 ->]].
      - match type of H with ?m ?w0 = _ =>
          assert (Hrest : emits (fun _ => True) m) by (unfold runCmd; emits_auto)
        end.
        destruct (Hrest _ _ _ H) as (post & Htr & _). by exists post.
      - injection H as _ <-. exists []. by rewrite app_nil_r. }
    destruct Htr as (post & Htr). exists post. apply new_events_app.
    rewrite Htr, Ht3. unfold w2. wsimpl. rewrite Hw1. by rewrite <- !app_assoc.
  - (* the branch that is made *)
    intros w3 Hcr. unfold Worktree_Checkout in Hcr.
    rewrite bind_run, emit_run, bind_run in Hcr. unfold may_fail in Hcr.
    destruct (fault env _ _); [discriminate|].
    rewrite bind_run in Hcr. unfold createBranch, prim in Hcr.
    unfold w2, w1, at_branch_resolution in Hcr. wsimpl.
    rewrite Hrefs, (lookup_singleton_ne _ _ _ Hne), lookup_singleton_eq in Hcr.
    wsimpl. rewrite Ht, Hclean, lookup_insert_eq, Hget in Hcr.
    injection Hcr as <-. wsimpl. split; [done|]. exists h.
    split; [by rewrite lookup_insert_eq|].
    split; [by rewrite lookup_insert_ne, lookup_singleton_eq by done|].
    rewrite Hget, Hhead. split; [done|]. by rewrite <- Hhead.
Qed.

Lemma fork_branch_is_recreated_witness :
  ((forall n, fault ex_again_env OpChdir n = None) /\
   (forall n, fault ex_again_env OpWorktree n = None) /\
   disk ex_cloned_again !! ex_dir = Some ex_tree /\
   fresh_clone (remote_heads ex_cloned_again) (repo ex_cloned_again) ex_tree /\
   HEAD (repo ex_cloned_again) <> rewriteBranch /\
   remote_heads ex_cloned_again !! rewriteBranch = Some ex_prev /\
   remote_heads ex_cloned_again !! HEAD (repo ex_cloned_again) <> Some ex_prev /\
   handleRewrite ex_again_env ex_dir "s3cret" ex_dir ex_cmd ex_cloned_again =
     (Err (Trace ex_not_fast_forward),
      snd (handleRewrite ex_again_env ex_dir "s3cret" ex_dir ex_cmd ex_cloned_again))) /\
  let w' := snd (handleRewrite ex_again_env ex_dir "s3cret" ex_dir ex_cmd ex_cloned_again) in
  let w1 := at_branch_resolution ex_dir ex_cloned_again in
  let w2 := logged (EvCheckout false rewriteBranch) w1 in
  (exists e,
     Worktree_Checkout ex_again_env ex_dir false rewriteBranch w1 = (Err e, w2) /\
     ((forall n, fault ex_again_env (OpCheckout false) n = None) ->
      e = ErrReferenceNotFound)) /\
  (exists post,
     new_events ex_cloned_again w' =
       [EvChdir ex_dir; EvWorktree; EvCheckout false rewriteBranch;
        EvCheckout true rewriteBranch] ++ post) /\
  (forall w3,
     Worktree_Checkout ex_again_env ex_dir true rewriteBranch w2 = (Ok tt, w3) ->
     HEAD (repo w3) = rewriteBranch /\
     exists h,
       refs (repo w3) !! rewriteBranch = Some h /\
       refs (repo w3) !! HEAD (repo ex_cloned_again) = Some h /\
       get_commit (objects (repo w3)) h =
         remote_heads ex_cloned_again !! HEAD (repo ex_cloned_again) /\
       get_commit (objects (repo w3)) h <> Some ex_prev).
Proof.
  assert (H1 : forall n, fault ex_again_env OpChdir n = None) by reflexivity.
  assert (H2 : forall n, fault ex_again_env OpWorktree n = None) by reflexivity.
  assert (H3 : disk ex_cloned_again !! ex_dir = Some ex_tree) by (vm_compute; reflexivity).
  assert (H4 : fresh_clone (remote_heads ex_cloned_again) (repo ex_cloned_again) ex_tree).
  { exists 1%nat, ex_init. split; [reflexivity|]. split; [reflexivity|].
    split; [vm_compute; reflexivity|]. split; [|vm_compute; reflexivity].
    apply map_Forall_insert_2; [by exists 1%nat|].
    apply map_Forall_singleton. by exists 2%nat. }
  assert (H5 : HEAD (repo ex_cloned_again) <> rewriteBranch) by (vm_compute; discriminate).
  assert (H6 : remote_heads ex_cloned_again !! rewriteBranch = Some ex_prev)
    by (vm_compute; reflexivity).
  assert (H7 : remote_heads ex_cloned_again !! HEAD (repo ex_cloned_again) <> Some ex_prev)
    by (vm_compute; discriminate).
  assert (H8 : handleRewrite ex_again_env ex_dir "s3cret" ex_dir ex_cmd ex_cloned_again =
                 (Err (Trace ex_not_fast_forward),
                  snd (handleRewrite ex_again_env ex_dir "s3cret" ex_dir ex_cmd
                         ex_cloned_again)))
    by (vm_compute; reflexivity).
  split; [exact (conj H1 (conj H2 (conj H3 (conj H4 (conj H5 (conj H6 (conj H7 H8)))))))|].
  exact (fork_branch_is_recreated ex_again_env ex_dir "s3cret" ex_cmd ex_cloned_again
           (Err (Trace ex_not_fast_forward)) _ ex_tree ex_prev H1 H2 H3 H4 H5 H6 H7 H8).
Defined.

(** The second run as a whole: [main] clones the fork, which has the branch,
    and the handler makes the branch anew from [master] all the same.  In
    this run the forge then refuses the push, and the run ends in
    [log.Fatal] with the branches of the fork as they were. *)
Example second_run_example :
  let w' := snd (main ex_again_env 5 ex_world_again) in
  remote_heads ex_world_again !! rewriteBranch = Some ex_prev /\
  refs ex_repo_fetched !! rewriteBranch = None /\
  existsb is_plain_checkout (new_events ex_world_again w') = true /\
  existsb is_create_checkout (new_events ex_world_again w') = true /\
  fst (main ex_again_env 5 ex_world_again) = Exit 1 /\
  last (trace w') = Some (EvFatal (Some (Trace ex_not_fast_forward))) /\
  remote_heads w' = remote_heads ex_world_again.
Proof. repeat split; vm_compute; reflexivity. Qed.

(** * Further properties of the program *)

(** ** Frames *)

Lemma keeps_ret {A X} (f : World -> X) (a : A) : keeps f (mret a : M A).
Proof. intros w r w' H. rewrite ret_run in H. by simplify_eq. Qed.

Lemma keeps_leaf {A X} (f : World -> X) (m : M A) :
  (forall w, f (snd (m w)) = f w) -> keeps f m.
Proof. intros Hm w r w' H. specialize (Hm w). by rewrite H in Hm. Qed.

Lemma keeps_bind {A B X} (f : World -> X) (m : M A) (k : A -> M B) :
  keeps f m -> (forall a, keeps f (k a)) -> keeps f (m ≫= k).
Proof.
  intros Hm Hk w r w' H.
  apply bind_inv in H as [(a & w1 & H1 & H2)|[(e & H1 & _)|[(c & H1 & _)|[H1 _]]]];
    try (by eapply Hm).
  rewrite (Hk _ _ _ _ H2). by eapply Hm.
Qed.

Lemma keeps_traced {A X} (f : World -> X) (m : M A) : keeps f m -> keeps f (traced m).
Proof.
  intros Hm w r w' H. apply traced_inv in H as [[H _]|(e & H & _)]; by eapply Hm.
Qed.

Lemma keeps_attempt {A X} (f : World -> X) (m : M A) : keeps f m -> keeps f (attempt m).
Proof.
  intros Hm w r w'. unfold attempt.
  destruct (m w) as [[?|?|?|] w1] eqn:E; intros H; simplify_eq; by eapply Hm.
Qed.

Lemma keeps_vendorLoop {X} (f : World -> X) files b :
  (forall t w, f (with_trace t w) = f w) -> keeps f (vendorLoop files b).
Proof.
  intros Hf w r w' H. rewrite vendorLoop_run in H. simplify_eq. apply Hf.
Qed.

(** A call of the outside world is a leaf: its effect is read off its
    definition. *)
Ltac keeps_leaf_tac :=
  apply keeps_leaf; intros ?;
  unfold Println, log_Fatal, os_Exit, time_Now, time_Sleep, os_MkdirAll,
    ioutil_ReadFile, ioutil_TempDir, os_Chdir, ioutil_ReadDir, ioutil_WriteFile,
    os_RemoveAll, cmd_Run, Repositories_CreateFork, Repositories_Get, git_PlainClone,
    Repository_Worktree, Worktree_Checkout, createBranch, Worktree_AddGlob,
    Worktree_Remove, Worktree_Commit, Repository_CommitObject, Repository_Push,
    get_world, mbind, M_bind, bind, mret, M_ret, ret, emit, may_fail, prim;
  cbn [fst snd]; repeat case_match; simplify_eq; reflexivity.

Ltac keeps_step :=
  lazymatch goal with
  | |- keeps _ (mret _) => apply keeps_ret
  | |- keeps _ (ret _) => apply keeps_ret
  | |- keeps _ (vendorLoop _ _) => apply keeps_vendorLoop; reflexivity
  | |- keeps _ (traced _) => apply keeps_traced
  | |- keeps _ (attempt _) => apply keeps_attempt
  | |- keeps _ (runCmd _ _ _) => unfold runCmd
  | |- keeps _ (if ?b then _ else _) => destruct b
  | |- keeps _ (match ?x with _ => _ end) => destruct x
  | |- keeps _ (Println _) => keeps_leaf_tac
  | |- keeps _ (time_Now _) => keeps_leaf_tac
  | |- keeps _ (time_Sleep _) => keeps_leaf_tac
  | |- keeps _ get_world => keeps_leaf_tac
  | |- keeps _ (os_Chdir _ _) => keeps_leaf_tac
  | |- keeps _ (ioutil_ReadDir _ _) => keeps_leaf_tac
  | |- keeps _ (ioutil_WriteFile _ _ _) => keeps_leaf_tac
  | |- keeps _ (os_RemoveAll _ _) => keeps_leaf_tac
  | |- keeps _ (cmd_Run _ _) => keeps_leaf_tac
  | |- keeps _ (Repository_Worktree _ _) => keeps_leaf_tac
  | |- keeps _ (Worktree_Checkout _ _ _ _) => keeps_leaf_tac
  | |- keeps _ (Worktree_AddGlob _ _ _) => keeps_leaf_tac
  | |- keeps _ (Worktree_Remove _ _ _) => keeps_leaf_tac
  | |- keeps _ (Worktree_Commit _ _ _ _) => keeps_leaf_tac
  | |- keeps _ (Repository_CommitObject _ _ _) => keeps_leaf_tac
  | |- keeps _ (Repository_Push _ _ _ _ _) => keeps_leaf_tac
  | |- keeps _ (prim _) => keeps_leaf_tac
  | |- keeps _ (mbind _ _) => apply keeps_bind; [|intros ?]
  end.

Ltac keeps_auto := repeat keeps_step.


(** ** Start-up *)

(** X1: with any number of arguments other than the program name and three
    more, [main] prints the usage line and exits with status 1; it touches
    nothing else: no directory is made, no file read, no request sent. *)
Theorem usage_error env fuel w :
  length (Args env) <> 4%nat ->
  main env fuel w = (Exit 1, logged (EvPrintln usageMsg) w).
Proof.
  intros Ha. rewrite main_stages. apply Nat.eqb_neq in Ha. rewrite Ha. reflexivity.
Qed.

Lemma usage_error_witness :
  length (Args ex_short_env) <> 4%nat /\
  main ex_short_env 10 ex_world = (Exit 1, logged (EvPrintln usageMsg) ex_world).
Proof.
  assert (H : length (Args ex_short_env) <> 4%nat) by (cbn; lia).
  split; [exact H|]. exact (usage_error ex_short_env 10 ex_world H).
Defined.



(** ** Running the tool *)

Lemma Chdir_inv env d w r w' :
  os_Chdir env d w = (r, w') ->
  (r = Ok tt /\ is_Some (disk w !! d) /\ w' = with_cwd d (logged (EvChdir d) w)) \/
  (exists e, r = Err e /\ w' = logged (EvChdir d) w).
Proof.
  unfold os_Chdir. rewrite call_run. unfold prim. cbn [disk logged with_trace].
  destruct (fault env OpChdir _) as [e|]; [intros H; right; exists e; by simplify_eq|].
  destruct (disk w !! d) eqn:Hd; intros H; simplify_eq; [left; eauto|right; eauto].
Qed.

Lemma cmd_Run_inv env cmd w t r w' :
  disk w !! cwd w = Some t ->
  cmd_Run env cmd w = (r, w') ->
  trace w' = trace w ++ [EvRun cmd t] /\ cwd w' = cwd w /\
  ((r = Ok tt /\ disk w' = <[cwd w := fst (tool env cmd t)]> (disk w)) \/
   (exists e, r = Err e /\
      (disk w' = disk w \/ disk w' = <[cwd w := fst (tool env cmd t)]> (disk w)))).
Proof.
  intros Hd. unfold cmd_Run. rewrite Hd.
  destruct (fault env OpRun _) as [e|]; [intros H; simplify_eq; wsimpl; eauto 10|].
  destruct (tool env cmd t) as [t' [e|]]; intros H; simplify_eq; wsimpl; eauto 10.
Qed.

Lemma RemoveAll_attempt env d w :
  exists x w', attempt (os_RemoveAll env d) w = (Ok x, w') /\
    trace w' = trace w ++ [EvRemoveAll d] /\
    ((forall n, fault env OpRemoveAll n = None) -> disk w' !! d = None).
Proof.
  unfold attempt, os_RemoveAll. rewrite call_run. unfold prim.
  destruct (fault env OpRemoveAll _) eqn:Hf.
  - do 2 eexists. split; [reflexivity|]. split; [done|]. intros Hno. by rewrite Hno in Hf.
  - do 2 eexists. split; [reflexivity|]. split; [done|]. intros _. wsimpl.
    by rewrite lookup_delete_eq.
Qed.

(** X3: the three ways [runCmd] can end.  It returns without an error with
    the tool run once on the directory; or the change of directory failed
    and nothing else happened: the tool was not started and nothing was
    removed; or the tool failed, the directory was asked to be removed
    (and is gone unless the removal itself was failed) and the error is
    the tool's, annotated. *)
Theorem runCmd_outcomes env dir cmd w r w' :
  runCmd env dir cmd w = (r, w') ->
  (r = Ok tt /\
   exists t, new_events w w' =
     [EvChdir dir; EvPrintln "Running lingo command..."; EvRun cmd t] /\
     disk w !! dir = Some t /\ disk w' !! dir = Some (fst (tool env cmd t))) \/
  (exists e, r = Err (Trace e) /\ w' = logged (EvChdir dir) w) \/
  (exists e t, r = Err (Annotate e runFailedMsg) /\
     Cause (Annotate e runFailedMsg) = Cause e /\
     new_events w w' =
       [EvChdir dir; EvPrintln "Running lingo command..."; EvRun cmd t; EvRemoveAll dir] /\
     ((forall n, fault env OpRemoveAll n = None) -> disk w' !! dir = None)).
Proof.
  unfold runCmd. intros H.
  apply bind_inv in H as [([] & w1 & H1 & H)|[(e & H1 & ->)|[(c & H1 & ->)|[H1 ->]]]].
  - (* in the directory *)
    apply traced_Ok, Chdir_inv in H1 as [(_ & [t Hd] & ->)|(e & ? & _)]; [|done].
    rewrite bind_run in H. unfold Println at 1 in H. rewrite emit_run in H.
    set (w2 := logged (EvPrintln "Running lingo command...") _) in H.
    assert (Hd2 : disk w2 !! cwd w2 = Some t) by (unfold w2; wsimpl; exact Hd).
    apply bind_inv in H as [(x & w3 & H3 & H)|[(e & H3 & _)|[(c & H3 & ->)|[H3 ->]]]].
    + apply attempt_Ok in H3 as [([] & -> & H3)|(e & -> & H3)];
        apply (cmd_Run_inv _ _ _ _ _ _ Hd2) in H3
          as (Ht3 & Hc3 & [[? Hd3]|(e' & ? & Hd3)]); try done.
      * rewrite ret_run in H. injection H as <- <-. left. split; [done|].
        exists t. split; [|split; [done|]].
        -- apply new_events_app. rewrite Ht3. unfold w2. wsimpl. by rewrite <- !app_assoc.
        -- rewrite Hd3. unfold w2. wsimpl. by rewrite lookup_insert_eq.
      * right; right.
        destruct (RemoveAll_attempt env dir w3) as (x & w4 & Hrm & Ht4 & Hgone).
        rewrite bind_run, Hrm in H. unfold prim in H. injection H as <- <-.
        exists e, t. split; [done|]. split; [done|]. split; [|exact Hgone].
        apply new_events_app. rewrite Ht4, Ht3. unfold w2. wsimpl.
        by rewrite <- !app_assoc.
    + by apply attempt_not_Err in H3.
    + exfalso. unfold attempt, cmd_Run in H3. rewrite Hd2 in H3.
      repeat case_match; discriminate.
    + exfalso. unfold attempt, cmd_Run in H3. rewrite Hd2 in H3.
      repeat case_match; discriminate.
  - apply traced_inv in H1 as [[_ Hn]|(e' & H1 & He)]; [by destruct (Hn e)|].
    apply Chdir_inv in H1 as [(? & _)|(e'' & ? & ->)]; [done|].
    right; left. exists e'. by simplify_eq.
  - apply traced_inv in H1 as [[H1 _]|(e' & _ & ?)]; [|done].
    apply Chdir_inv in H1 as [(? & _)|(? & ? & _)]; done.
  - apply traced_inv in H1 as [[H1 _]|(e' & _ & ?)]; [|done].
    apply Chdir_inv in H1 as [(? & _)|(? & ? & _)]; done.
Qed.

Lemma runCmd_outcomes_witness :
  runCmd ex_tool_fails_env ex_dir ex_cmd (ex_cloned ex_repo)
    = (Err (Annotate ex_tool_error runFailedMsg), ex_tool_fails_end) /\
  ((Err (Annotate ex_tool_error runFailedMsg) = (Ok tt : Res unit) /\
    exists t, new_events (ex_cloned ex_repo) ex_tool_fails_end =
      [EvChdir ex_dir; EvPrintln "Running lingo command..."; EvRun ex_cmd t] /\
      disk (ex_cloned ex_repo) !! ex_dir = Some t /\
      disk ex_tool_fails_end !! ex_dir = Some (fst (tool ex_tool_fails_env ex_cmd t))) \/
   (exists e, (Err (Annotate ex_tool_error runFailedMsg) : Res unit) = Err (Trace e) /\
      ex_tool_fails_end = logged (EvChdir ex_dir) (ex_cloned ex_repo)) \/
   (exists e t, (Err (Annotate ex_tool_error runFailedMsg) : Res unit)
                  = Err (Annotate e runFailedMsg) /\
      Cause (Annotate e runFailedMsg) = Cause e /\
      new_events (ex_cloned ex_repo) ex_tool_fails_end =
        [EvChdir ex_dir; EvPrintln "Running lingo command..."; EvRun ex_cmd t;
         EvRemoveAll ex_dir] /\
      ((forall n, fault ex_tool_fails_env OpRemoveAll n = None) ->
       disk ex_tool_fails_end !! ex_dir = None))).
Proof.
  assert (H : runCmd ex_tool_fails_env ex_dir ex_cmd (ex_cloned ex_repo)
              = (Err (Annotate ex_tool_error runFailedMsg), ex_tool_fails_end))
    by (vm_compute; reflexivity).
  split; [exact H|].
  exact (runCmd_outcomes ex_tool_fails_env ex_dir ex_cmd (ex_cloned ex_repo)
           (Err (Annotate ex_tool_error runFailedMsg)) ex_tool_fails_end H).
Defined.

(** ** Review mode *)

Lemma rur_keeps {A} dir (m : M A) : keeps repo m -> repo_unless_removed dir m.
Proof. intros Hm w r w' H. left. by eapply Hm. Qed.

Lemma rur_bind {A B} dir (m : M A) (k : A -> M B) :
  keeps repo m -> (forall a, repo_unless_removed dir (k a)) ->
  repo_unless_removed dir (m ≫= k).
Proof.
  intros Hm Hk w r w' H.
  apply bind_inv in H as [(a & w1 & H1 & H2)|[(e & H1 & _)|[(c & H1 & _)|[H1 _]]]];
    try (left; by eapply Hm).
  destruct (Hk _ _ _ _ H2) as [Hr|Hr]; [left|by right].
  rewrite Hr. by eapply Hm.
Qed.

Lemma rur_traced {A} dir (m : M A) :
  repo_unless_removed dir m -> repo_unless_removed dir (traced m).
Proof.
  intros Hm w r w' H. apply traced_inv in H as [[H _]|(e & H & ->)].
  - by eapply Hm.
  - destruct (Hm _ _ _ H) as [Hr|[_ Hr]]; [by left|right]. by split.
Qed.

Lemma rur_then_ret {A B} dir (m : M A) (b : B) :
  repo_unless_removed dir m -> repo_unless_removed dir (m ;; (mret b : M B)).
Proof.
  intros Hm w r w' H.
  apply bind_inv in H as [(a & w1 & H1 & H2)|[(e & H1 & ->)|[(c & H1 & ->)|[H1 ->]]]].
  - rewrite ret_run in H2. injection H2 as <- <-.
    destruct (Hm _ _ _ H1) as [Hr|[Hr _]]; [by left|by destruct (Hr a)].
  - destruct (Hm _ _ _ H1) as [Hr|[_ Hr]]; [by left|right]. by split.
  - destruct (Hm _ _ _ H1) as [Hr|[_ Hr]]; [by left|right]. by split.
  - destruct (Hm _ _ _ H1) as [Hr|[_ Hr]]; [by left|right]. by split.
Qed.

(** When the tool fails, [runCmd] removes the directory it ran in. *)
Lemma rur_runCmd env dir cmd : repo_unless_removed dir (runCmd env dir cmd).
Proof.
  unfold runCmd.
  apply rur_bind; [keeps_auto|intros _].
  apply rur_bind; [keeps_auto|intros _].
  apply rur_bind; [keeps_auto|intros [?|e]]; [apply rur_keeps, keeps_ret|].
  intros w r w' H. right. rewrite bind_run in H. unfold attempt, os_RemoveAll in H.
  rewrite call_run in H. unfold prim in H.
  destruct (fault env OpRemoveAll _); injection H as <- <-;
    (split; [done|wsimpl; apply last_snoc]).
Qed.

(** X4: review mode makes no call on the repository or its remote, whatever
    happens, and leaves the branches of the fork and the credentials as they
    were.  The repository is left as it was too, except in a run that fails
    with the removal of the workspace as its last call (the tool failed and
    [runCmd] removed the directory, the clone with it). *)
Theorem review_leaves_repository env dir token r cmd w :
  remote_heads (snd (handleReview env dir token r cmd w)) = remote_heads w /\
  conf (snd (handleReview env dir token r cmd w)) = conf w /\
  Forall (fun ev => is_vcs ev = false)
    (new_events w (snd (handleReview env dir token r cmd w))) /\
  (repo (snd (handleReview env dir token r cmd w)) = repo w \/
   fst (handleReview env dir token r cmd w) <> Ok tt /\
   last (trace (snd (handleReview env dir token r cmd w))) = Some (EvRemoveAll dir)).
Proof.
  destruct (handleReview env dir token r cmd w) as [res w'] eqn:H. cbn [fst snd].
  assert (Hk : keeps (fun w => (remote_heads w, conf w))
                 (handleReview env dir token r cmd))
    by (unfold handleReview; keeps_auto).
  assert (He : emits (fun ev => is_vcs ev = false) (handleReview env dir token r cmd))
    by (unfold handleReview, runCmd; emits_auto).
  assert (Hr : repo_unless_removed dir (handleReview env dir token r cmd)).
  { unfold handleReview.
    apply rur_bind; [keeps_auto|intros files].
    apply rur_bind; [keeps_auto|intros needs].
    apply rur_bind; [keeps_auto|intros _].
    apply rur_bind; [keeps_auto|intros _].
    apply rur_bind; [keeps_auto|intros _].
    apply rur_then_ret, rur_traced, rur_runCmd. }
  apply Hk in H as Hk'. injection Hk' as -> ->.
  split; [done|]. split; [done|]. split.
  - destruct (He _ _ _ H) as (evs & Ht & Hf). by rewrite (new_events_app _ _ _ Ht).
  - destruct (Hr _ _ _ H) as [Hrepo|[Hres Hlast]]; [by left|right].
    split; [apply Hres|done].
Qed.

(** The review run whose tool fails: the clone is gone with the workspace. *)
Example review_tool_failure_example :
  let end_ := handleReview ex_review_tool_fails_env ex_dir "s3cret" ex_dir ex_cmd
                (ex_cloned ex_repo) in
  fst end_ = Err (Trace (Annotate ex_tool_error runFailedMsg)) /\
  disk (snd end_) !! ex_dir = None /\
  repo (snd end_) = no_repository /\
  last (trace (snd end_)) = Some (EvRemoveAll ex_dir).
Proof. vm_compute. repeat split; reflexivity. Qed.

Lemma handleReview_Ok env dir token r cmd w w' :
  handleReview env dir token r cmd w = (Ok tt, w') ->
  exists t0,
    disk w !! dir = Some t0 /\
    new_events w w' = review_events dir cmd t0 /\
    snd (tool env cmd (scaffold (existsb is_vendor (dir_entries t0)) t0)) = None /\
    disk w' !! dir
      = Some (fst (tool env cmd (scaffold (existsb is_vendor (dir_entries t0)) t0))).
Proof.
  unfold handleReview. intros H.
  apply bind_Ok in H as (files & w1 & H1 & H).
  apply traced_Ok, ReadDir_Ok in H1 as (t0 & Hd0 & -> & ->).
  apply bind_Ok in H as (needs & w2 & H2 & H).
  rewrite vendorLoop_run in H2. cbn [orb] in H2. injection H2 as <- <-.
  exists t0. set (needs := existsb is_vendor (dir_entries t0)) in *.
  apply bind_Ok in H as ([] & w3 & H3 & H).
  apply traced_Ok, WriteFile_Ok in H3 as (t & Ht & ->); [|done].
  wsimpl. rewrite Hd0 in Ht. injection Ht as <-.
  apply bind_Ok in H as ([] & w4 & H4 & H).
  apply bind_Ok in H as ([] & w5 & H5 & H). unfold Println in H5.
  rewrite emit_run in H5. injection H5 as <-.
  apply bind_Ok in H as ([] & w6 & H6 & H). rewrite ret_run in H. injection H as <-.
  apply traced_Ok, runCmd_Ok in H6 as (t1 & t2 & Ht1 & Htool & ->).
  split; [exact Hd0|]. unfold review_events, scaffold. fold needs.
  destruct needs.
  - apply bind_Ok in H4 as ([] & w4' & H4 & H4').
    apply traced_Ok, WriteFile_Ok in H4 as (t & Ht & ->); [|done].
    unfold Println in H4'. rewrite emit_run in H4'. injection H4' as <-.
    wsimpl. rewrite lookup_insert_eq in Ht. injection Ht as <-.
    rewrite lookup_insert_eq in Ht1. injection Ht1 as <-. rewrite Htool. cbn [fst snd].
    split; [|split; [done|by rewrite lookup_insert_eq]].
    apply new_events_app. wsimpl. by rewrite <- !app_assoc.
  - rewrite ret_run in H4. injection H4 as <-. wsimpl.
    rewrite lookup_insert_eq in Ht1. injection Ht1 as <-. cbn [id]. rewrite Htool.
    cbn [fst snd].
    split; [|split; [done|by rewrite lookup_insert_eq]].
    apply new_events_app. wsimpl. by rewrite <- !app_assoc.
Qed.

(** X5: in a review run that returns without an error, the ignore file is
    written exactly when the workspace has, at its top level, a directory
    named vendor (a regular file of that name, or a vendor directory further
    down, does not count); the tool then finds it with the vendor pattern,
    and otherwise finds whatever the clone had under that name. *)
Theorem review_vendor_detection env dir token r cmd w w' :
  handleReview env dir token r cmd w = (Ok tt, w') ->
  exists t0 seen,
    disk w !! dir = Some t0 /\
    In (EvRun cmd seen) (new_events w w') /\
    (In (EvWriteFile (filepath_Join dir ignoreFileName) ignoreData) (new_events w w')
     <-> t0 !! "vendor" = Some NDir) /\
    (t0 !! "vendor" = Some NDir -> seen !! ignoreFileName = Some (NFile ignoreData)) /\
    (t0 !! "vendor" <> Some NDir -> seen !! ignoreFileName = t0 !! ignoreFileName) /\
    (forall p, p <> yamlName -> p <> ignoreFileName -> seen !! p = t0 !! p).
Proof.
  intros H. apply handleReview_Ok in H as (t0 & Hd & Hnew & _ & _).
  set (needs := existsb is_vendor (dir_entries t0)) in *.
  exists t0, (scaffold needs t0). rewrite Hnew. unfold review_events. fold needs.
  split; [exact Hd|]. split.
  { rewrite !in_app_iff. do 4 right. cbn [In]. tauto. }
  assert (Hv : needs = true <-> t0 !! "vendor" = Some NDir) by apply vendor_found.
  split.
  { rewrite <- Hv. rewrite !in_app_iff. unfold vendor_prints. rewrite in_map_iff.
    destruct needs; cbn [In].
    - split; [done|]. intros _. do 3 right. left. by left.
    - split; [|done]. intros Hin.
      repeat match type of Hin with _ \/ _ => destruct Hin as [Hin|Hin] end;
        try done; try discriminate.
      by destruct Hin as (? & ? & _). }
  split.
  { intros Hvend. apply Hv in Hvend. rewrite Hvend. unfold scaffold.
    by rewrite lookup_insert_eq. }
  split.
  { intros Hno. destruct needs eqn:En; [by destruct Hno; apply Hv|].
    unfold scaffold. cbn [id]. by rewrite lookup_insert_ne. }
  intros p Hy Hi. unfold scaffold.
  destruct needs; cbn [id]; by rewrite ?(lookup_insert_ne _ ignoreFileName), lookup_insert_ne.
Qed.

Lemma review_vendor_detection_witness :
  handleReview ex_review_env ex_dir "s3cret" ex_dir ex_cmd (ex_cloned ex_repo)
    = (Ok tt, ex_review_end) /\
  exists t0 seen,
    disk (ex_cloned ex_repo) !! ex_dir = Some t0 /\
    In (EvRun ex_cmd seen) (new_events (ex_cloned ex_repo) ex_review_end) /\
    (In (EvWriteFile (filepath_Join ex_dir ignoreFileName) ignoreData)
        (new_events (ex_cloned ex_repo) ex_review_end)
     <-> t0 !! "vendor" = Some NDir) /\
    (t0 !! "vendor" = Some NDir -> seen !! ignoreFileName = Some (NFile ignoreData)) /\
    (t0 !! "vendor" <> Some NDir -> seen !! ignoreFileName = t0 !! ignoreFileName) /\
    (forall p, p <> yamlName -> p <> ignoreFileName -> seen !! p = t0 !! p).
Proof.
  assert (H : handleReview ex_review_env ex_dir "s3cret" ex_dir ex_cmd (ex_cloned ex_repo)
              = (Ok tt, ex_review_end)) by (vm_compute; reflexivity).
  split; [exact H|].
  exact (review_vendor_detection ex_review_env ex_dir "s3cret" ex_dir ex_cmd
           (ex_cloned ex_repo) ex_review_end H).
Defined.

(** ** The commit of a rewrite run *)

(** X6: the commit a rewrite run creates carries the fixed message, is
    signed with the user name and e-mail address of the loaded credentials,
    and is dated with a clock reading taken in this run, after the tool has
    finished. *)
Theorem rewrite_commit_signature env dir token cmd w w' :
  handleRewrite env dir token dir cmd w = (Ok tt, w') ->
  exists c,
    objects (repo w') = objects (repo w) ++ [c] /\
    c_message c = commitMessageRewrite /\
    Name (c_author c) = Username (conf w) /\
    SigEmail (c_author c) = Email (conf w) /\
    exists seen pre post,
      new_events w w' = pre ++ EvRun cmd seen :: post /\
      In (EvNow (When (c_author c))) post.
Proof.
  intros H.
  apply handleRewrite_Ok in H
    as (wb & evs0 & t0 & t2 & when & Ht0 & _ & _ & _ & _ & _ & Ht & _ & Hobjs & _).
  eexists. split; [exact Hobjs|]. cbn [c_message c_author Name SigEmail When].
  do 3 (split; [reflexivity|]).
  assert (Hnew : new_events w w' =
            evs0 ++ rewrite_events dir token cmd t0 when (S (length (objects (repo w))))).
  { apply new_events_app. by rewrite Ht, Ht0, app_assoc. }
  rewrite Hnew. unfold rewrite_events.
  set (needs := existsb is_vendor (dir_entries t0)).
  exists (scaffold needs t0).
  exists (evs0 ++ [EvPrintln "Created new branch"; EvReadDir dir] ++
          vendor_prints (dir_entries t0) ++
          [EvWriteFile (filepath_Join dir yamlName) yamlDataRewrite] ++
          (if needs
           then [EvWriteFile (filepath_Join dir ignoreFileName) ignoreData;
                 EvPrintln ("Wrote " ++ ignoreFileName ++ " file")%string]
           else []) ++
          [EvPrintln ("Wrote " ++ yamlName ++ " file")%string; EvChdir dir;
           EvPrintln "Running lingo command..."]).
  exists ([EvAddGlob "."; EvRemove yamlName] ++
          (if needs then [EvRemove ignoreFileName] else []) ++
          [EvNow when; EvCommit commitMessageRewrite;
           EvCommitObject (S (length (objects (repo w))));
           EvPrintln "Committed"; EvPush "origin" "emptystring" token;
           EvPrintln "Pushed"]).
  split.
  - rewrite <- !app_assoc. cbn [app]. reflexivity.
  - rewrite !in_app_iff. cbn [In]. tauto.
Qed.

Lemma rewrite_commit_signature_witness :
  handleRewrite ex_rewrite_env ex_dir "s3cret" ex_dir ex_cmd (ex_cloned ex_repo)
    = (Ok tt, ex_rewrite_end) /\
  exists c,
    objects (repo ex_rewrite_end) = objects (repo (ex_cloned ex_repo)) ++ [c] /\
    c_message c = commitMessageRewrite /\
    Name (c_author c) = Username (conf (ex_cloned ex_repo)) /\
    SigEmail (c_author c) = Email (conf (ex_cloned ex_repo)) /\
    exists seen pre post,
      new_events (ex_cloned ex_repo) ex_rewrite_end = pre ++ EvRun ex_cmd seen :: post /\
      In (EvNow (When (c_author c))) post.
Proof.
  assert (H : handleRewrite ex_rewrite_env ex_dir "s3cret" ex_dir ex_cmd (ex_cloned ex_repo)
              = (Ok tt, ex_rewrite_end)) by (vm_compute; reflexivity).
  split; [exact H|].
  exact (rewrite_commit_signature ex_rewrite_env ex_dir "s3cret" ex_cmd
           (ex_cloned ex_repo) ex_rewrite_end H).
Defined.

(** ** What a failing rewrite run leaves behind *)

Lemma roo_of_keeps {A} (m : M A) : keeps remote_heads m -> remote_on_ok m.
Proof. intros Hk w r w' H _. by eapply Hk. Qed.

Lemma roo_bind {A B} (m : M A) (k : A -> M B) :
  keeps remote_heads m -> (forall a, remote_on_ok (k a)) -> remote_on_ok (m ≫= k).
Proof.
  intros Hm Hk w r w' H Hr.
  apply bind_inv in H as [(a & w1 & H1 & H2)|[(e & H1 & _)|[(c & H1 & _)|[H1 _]]]];
    try (by eapply Hm).
  rewrite (Hk _ _ _ _ H2 Hr). by eapply Hm.
Qed.

(** The push is the last thing that can fail. *)
Lemma roo_push_tail env r n u p s :
  remote_on_ok (traced (Repository_Push env r n u p) ;; Println s ;; (mret tt : M unit)).
Proof.
  intros w res w' H Hr.
  apply bind_inv in H as [([] & w1 & H1 & H)|[(e & H1 & _)|[(c & H1 & _)|[H1 _]]]].
  - rewrite bind_run in H. unfold Println in H. rewrite emit_run, ret_run in H.
    injection H as <- _. by destruct (Hr tt).
  - apply traced_inv in H1 as [[H1 _]|(e' & H1 & _)];
      unfold Repository_Push in H1; rewrite call_run in H1; unfold prim in H1;
      repeat case_match; by simplify_eq.
  - apply traced_inv in H1 as [[H1 _]|(e' & H1 & _)];
      unfold Repository_Push in H1; rewrite call_run in H1; unfold prim in H1;
      repeat case_match; by simplify_eq.
  - apply traced_inv in H1 as [[H1 _]|(e' & H1 & _)];
      unfold Repository_Push in H1; rewrite call_run in H1; unfold prim in H1;
      repeat case_match; by simplify_eq.
Qed.

Ltac roo_step :=
  lazymatch goal with
  | |- remote_on_ok (mbind _ (traced (Repository_Push _ _ _ _ _))) => apply roo_push_tail
  | |- remote_on_ok (mbind _ _) => apply roo_bind; [solve [keeps_auto]|intros ?]
  end.

Lemma handleRewrite_remote_on_ok env dir token r cmd :
  remote_on_ok (handleRewrite env dir token r cmd).
Proof. unfold handleRewrite. repeat roo_step. Qed.

(** X7: a rewrite run that returns an error has left the branches of the
    fork as they were: the push is the last step that can fail, and nothing
    before it reaches the remote. *)
Theorem failed_rewrite_leaves_fork env dir token r cmd w :
  fst (handleRewrite env dir token r cmd w) <> Ok tt ->
  remote_heads (snd (handleRewrite env dir token r cmd w)) = remote_heads w.
Proof.
  destruct (handleRewrite env dir token r cmd w) as [res w'] eqn:H. cbn [fst snd].
  intros Hr. eapply handleRewrite_remote_on_ok; [exact H|]. by intros [].
Qed.

Lemma failed_rewrite_leaves_fork_witness :
  fst (handleRewrite ex_push_fails_env ex_dir "s3cret" ex_dir ex_cmd (ex_cloned ex_repo))
    <> Ok tt /\
  remote_heads (snd (handleRewrite ex_push_fails_env ex_dir "s3cret" ex_dir ex_cmd
                       (ex_cloned ex_repo)))
    = remote_heads (ex_cloned ex_repo).
Proof.
  assert (H : fst (handleRewrite ex_push_fails_env ex_dir "s3cret" ex_dir ex_cmd
                     (ex_cloned ex_repo)) <> Ok tt)
    by (vm_compute; discriminate).
  split; [exact H|].
  exact (failed_rewrite_leaves_fork ex_push_fails_env ex_dir "s3cret" ex_dir ex_cmd
           (ex_cloned ex_repo) H).
Defined.

(** ** Stopping at a failed step *)

Lemma emits_bind_stop {A B} Q (m : M A) (k : A -> M B) :
  emits Q m -> never_ok m -> emits Q (m ≫= k).
Proof.
  intros Hm Hn w r w' H.
  apply bind_inv in H as [(a & w1 & H1 & _)|[(e & H1 & _)|[(c & H1 & _)|[H1 _]]]];
    try (by eapply Hm).
  by destruct (Hn _ _ _ H1 a).
Qed.

Lemma never_ok_bind_l {A B} (m : M A) (k : A -> M B) : never_ok m -> never_ok (m ≫= k).
Proof.
  intros Hn w r w' H b.
  apply bind_inv in H as [(a & w1 & H1 & _)|[(e & _ & ->)|[(c & _ & ->)|[_ ->]]]];
    try discriminate.
  by destruct (Hn _ _ _ H1 a).
Qed.

Lemma never_ok_bind_r {A B} (m : M A) (k : A -> M B) :
  (forall a, never_ok (k a)) -> never_ok (m ≫= k).
Proof.
  intros Hn w r w' H b.
  apply bind_inv in H as [(a & w1 & _ & H2)|[(e & _ & ->)|[(c & _ & ->)|[_ ->]]]];
    try discriminate.
  by eapply Hn.
Qed.

Lemma never_ok_traced {A} (m : M A) : never_ok m -> never_ok (traced m).
Proof.
  intros Hn w r w' H a. apply traced_inv in H as [[H _]|(e & _ & ->)]; [|discriminate].
  by eapply Hn.
Qed.

(** A tool that never exits with 0 makes [runCmd] fail. *)
Lemma runCmd_never_ok env dir cmd :
  (forall t, snd (tool env cmd t) <> None) -> never_ok (runCmd env dir cmd).
Proof.
  intros Htool w r w' H [] ->. apply runCmd_Ok in H as (t & t' & _ & Ht & _).
  apply (Htool t). by rewrite Ht.
Qed.

Lemma WriteFile_never_ok env p data :
  (forall n, fault env (OpWriteFile p) n <> None) -> never_ok (ioutil_WriteFile env p data).
Proof.
  intros Hf w r w' H [] ->. unfold ioutil_WriteFile in H. rewrite call_run in H.
  destruct (fault env (OpWriteFile p) _) eqn:E; [discriminate|]. by apply Hf in E.
Qed.

Lemma emits_runCmd_quiet env Q dir cmd :
  Q (EvChdir dir) -> Q (EvPrintln "Running lingo command...") ->
  (forall t, Q (EvRun cmd t)) -> Q (EvRemoveAll dir) ->
  emits Q (runCmd env dir cmd).
Proof. intros. unfold runCmd. emits_auto. Qed.

(** X8: with a tool that never exits with status 0, a rewrite run never
    returns without an error, and it stops at the tool: nothing is staged,
    nothing is removed from the index, and there is no commit and no push. *)
Theorem tool_failure_stops_rewrite env dir token r cmd w :
  (forall t, snd (tool env cmd t) <> None) ->
  fst (handleRewrite env dir token r cmd w) <> Ok tt /\
  Forall (fun ev => is_publish ev = false)
    (new_events w (snd (handleRewrite env dir token r cmd w))).
Proof.
  intros Htool.
  assert (Hstop : never_ok (traced (runCmd env dir cmd)))
    by by apply never_ok_traced, runCmd_never_ok.
  assert (Hrun : emits (fun ev => is_publish ev = false) (traced (runCmd env dir cmd)))
    by by apply emits_traced, emits_runCmd_quiet.
  destruct (handleRewrite env dir token r cmd w) as [res w'] eqn:H. cbn [fst snd].
  split.
  - assert (Hn : never_ok (handleRewrite env dir token r cmd)).
    { unfold handleRewrite.
      repeat lazymatch goal with
        | |- never_ok (mbind _ (traced (runCmd _ _ _))) => by apply never_ok_bind_l
        | |- never_ok (mbind _ _) => apply never_ok_bind_r; intros ?
        end. }
    by apply (Hn _ _ _ H).
  - assert (He : emits (fun ev => is_publish ev = false) (handleRewrite env dir token r cmd)).
    { unfold handleRewrite.
      repeat lazymatch goal with
        | |- emits _ (mbind _ (traced (runCmd _ _ _))) => by apply emits_bind_stop
        | |- _ => emits_step
        end. }
    destruct (He _ _ _ H) as (evs & Ht & Hf). by rewrite (new_events_app _ _ _ Ht).
Qed.

Lemma tool_failure_stops_rewrite_witness :
  (forall t, snd (tool ex_tool_exits1_env ex_cmd t) <> None) /\
  fst (handleRewrite ex_tool_exits1_env ex_dir "s3cret" ex_dir ex_cmd (ex_cloned ex_repo))
    <> Ok tt /\
  Forall (fun ev => is_publish ev = false)
    (new_events (ex_cloned ex_repo)
       (snd (handleRewrite ex_tool_exits1_env ex_dir "s3cret" ex_dir ex_cmd
               (ex_cloned ex_repo)))).
Proof.
  assert (H : forall t, snd (tool ex_tool_exits1_env ex_cmd t) <> None)
    by (intros t; discriminate).
  split; [exact H|].
  exact (tool_failure_stops_rewrite ex_tool_exits1_env ex_dir "s3cret" ex_dir ex_cmd
           (ex_cloned ex_repo) H).
Defined.

(** X9: when the configuration file cannot be written into the workspace,
    neither mode starts the tool: both handlers return an error, and no run
    of the tool is among their calls. *)
Theorem config_write_failure_skips_tool env dir token r cmd w :
  (forall n, fault env (OpWriteFile (filepath_Join dir yamlName)) n <> None) ->
  (fst (handleReview env dir token r cmd w) <> Ok tt /\
   Forall (fun ev => is_run ev = false)
     (new_events w (snd (handleReview env dir token r cmd w)))) /\
  (fst (handleRewrite env dir token r cmd w) <> Ok tt /\
   Forall (fun ev => is_run ev = false)
     (new_events w (snd (handleRewrite env dir token r cmd w)))).
Proof.
  intros Hf.
  assert (Hstop : forall data,
    never_ok (traced (ioutil_WriteFile env (filepath_Join dir yamlName) data)))
    by (intros data; by apply never_ok_traced, WriteFile_never_ok).
  assert (Hw : forall data, emits (fun ev => is_run ev = false)
                 (traced (ioutil_WriteFile env (filepath_Join dir yamlName) data)))
    by (intros data; by apply emits_traced, emits_WriteFile).
  split.
  - destruct (handleReview env dir token r cmd w) as [res w'] eqn:H. cbn [fst snd]. split.
    + assert (Hn : never_ok (handleReview env dir token r cmd)).
      { unfold handleReview.
        repeat lazymatch goal with
          | |- never_ok (mbind _ (traced (ioutil_WriteFile _ (filepath_Join _ yamlName) _))) =>
              by apply never_ok_bind_l
          | |- never_ok (mbind _ _) => apply never_ok_bind_r; intros ?
          end. }
      by apply (Hn _ _ _ H).
    + assert (He : emits (fun ev => is_run ev = false) (handleReview env dir token r cmd)).
      { unfold handleReview.
        repeat lazymatch goal with
          | |- emits _ (mbind _ (traced (ioutil_WriteFile _ (filepath_Join _ yamlName) _))) =>
              by apply emits_bind_stop
          | |- _ => emits_step
          end. }
      destruct (He _ _ _ H) as (evs & Ht & HF). by rewrite (new_events_app _ _ _ Ht).
  - destruct (handleRewrite env dir token r cmd w) as [res w'] eqn:H. cbn [fst snd]. split.
    + assert (Hn : never_ok (handleRewrite env dir token r cmd)).
      { unfold handleRewrite.
        repeat lazymatch goal with
          | |- never_ok (mbind _ (traced (ioutil_WriteFile _ (filepath_Join _ yamlName) _))) =>
              by apply never_ok_bind_l
          | |- never_ok (mbind _ _) => apply never_ok_bind_r; intros ?
          end. }
      by apply (Hn _ _ _ H).
    + assert (He : emits (fun ev => is_run ev = false) (handleRewrite env dir token r cmd)).
      { unfold handleRewrite.
        repeat lazymatch goal with
          | |- emits _ (mbind _ (traced (ioutil_WriteFile _ (filepath_Join _ yamlName) _))) =>
              by apply emits_bind_stop
          | |- _ => emits_step
          end. }
      destruct (He _ _ _ H) as (evs & Ht & HF). by rewrite (new_events_app _ _ _ Ht).
Qed.

Lemma config_write_failure_skips_tool_witness :
  (forall n, fault ex_write_fails_env (OpWriteFile (filepath_Join ex_dir yamlName)) n <> None) /\
  (fst (handleReview ex_write_fails_env ex_dir "s3cret" ex_dir ex_cmd (ex_cloned ex_repo))
     <> Ok tt /\
   Forall (fun ev => is_run ev = false)
     (new_events (ex_cloned ex_repo)
        (snd (handleReview ex_write_fails_env ex_dir "s3cret" ex_dir ex_cmd
                (ex_cloned ex_repo))))) /\
  (fst (handleRewrite ex_write_fails_env ex_dir "s3cret" ex_dir ex_cmd (ex_cloned ex_repo))
     <> Ok tt /\
   Forall (fun ev => is_run ev = false)
     (new_events (ex_cloned ex_repo)
        (snd (handleRewrite ex_write_fails_env ex_dir "s3cret" ex_dir ex_cmd
                (ex_cloned ex_repo))))).
Proof.
  assert (H : forall n,
    fault ex_write_fails_env (OpWriteFile (filepath_Join ex_dir yamlName)) n <> None)
    by (intros n; vm_compute; discriminate).
  split; [exact H|].
  exact (config_write_failure_skips_tool ex_write_fails_env ex_dir "s3cret" ex_dir ex_cmd
           (ex_cloned ex_repo) H).
Defined.

(** ** Waiting for the fork *)

(** X10: when the polling loop goes on to the rest of the run, it does so
    with the answer of the first query that succeeded: every query before it
    failed and was followed by one pause of two seconds, and no query is
    made after it. *)
Theorem poll_returns_first_answer env fuel timeout repo_name err w rf w' :
  pollFork env fuel timeout repo_name err w = (Ok rf, w') ->
  exists k : nat,
    Get_result env (get_calls w + k) = inl rf /\
    (forall j, (j < k)%nat -> exists e, Get_result env (get_calls w + j) = inr e) /\
    get_calls w' = S (get_calls w + k) /\
    length (List.filter is_wait (new_events w w')) = k /\
    length (List.filter is_get (new_events w w')) = S k.
Proof.
  revert err w. induction fuel as [|fuel IH]; intros err w; cbn [pollFork]; [discriminate|].
  rewrite bind_run. unfold time_Now at 1.
  destruct (timeout <? _); [discriminate|].
  rewrite bind_run. unfold get_world. rewrite bind_run. unfold attempt, Repositories_Get.
  rewrite bind_run, emit_run. unfold prim. wsimpl.
  destruct (Get_result env (get_calls w)) as [rf0|e] eqn:Hg.
  - rewrite ret_run. intros H. injection H as <- <-. exists 0%nat.
    rewrite Nat.add_0_r. split; [done|]. split; [intros j Hj; lia|]. split; [done|].
    rewrite (new_events_app w _ [EvNow (now w + elapsed env (clock_reads w));
                                 EvGet (Username (conf w)) repo_name])
      by (wsimpl; by rewrite <- app_assoc).
    done.
  - rewrite bind_run. unfold Println. rewrite emit_run, bind_run. unfold time_Sleep.
    match goal with
    | |- pollFork _ _ _ _ _ ?w0 = _ -> _ =>
        assert (Hw1 : trace w0 = trace w ++
                  [EvNow (now w + elapsed env (clock_reads w));
                   EvGet (Username (conf w)) repo_name;
                   EvPrintln (Error e); EvSleep (Second * 2)])
          by (wsimpl; by rewrite <- !app_assoc);
        assert (Hc : get_calls w0 = S (get_calls w)) by reflexivity;
        generalize dependent w0; intros w1 Hw1 Hc H
    end.
    destruct (emits_pollFork env (fun _ => True) fuel timeout repo_name (Some e)
                (fun _ _ _ => I) _ _ _ H) as (evs & Htr & _).
    apply IH in H as (k & Hk & Hbefore & Hcalls & Hwaits & Hgets).
    rewrite Hc in Hk, Hbefore, Hcalls.
    exists (S k). rewrite <- Nat.add_succ_comm.
    split; [done|]. split.
    { intros [|j] Hj; [rewrite Nat.add_0_r; by exists e|].
      rewrite <- Nat.add_succ_comm. apply Hbefore. lia. }
    split; [done|].
    assert (Hnew : new_events w w' =
              [EvNow (now w + elapsed env (clock_reads w));
               EvGet (Username (conf w)) repo_name;
               EvPrintln (Error e); EvSleep (Second * 2)] ++ new_events w1 w').
    { rewrite (new_events_app _ _ _ Htr). apply new_events_app.
      by rewrite Htr, Hw1, <- !app_assoc. }
    rewrite Hnew, !List.filter_app, !length_app, Hwaits, Hgets. done.
Qed.

Lemma poll_returns_first_answer_witness :
  pollFork ex_review_env 5 (Minute * 5) "widget" None ex_world =
    (Ok {| HTMLURL := "https://github.com/bot/widget" |},
     snd (pollFork ex_review_env 5 (Minute * 5) "widget" None ex_world)) /\
  exists k : nat,
    Get_result ex_review_env (get_calls ex_world + k) =
      inl {| HTMLURL := "https://github.com/bot/widget" |} /\
    (forall j, (j < k)%nat ->
       exists e, Get_result ex_review_env (get_calls ex_world + j) = inr e) /\
    get_calls (snd (pollFork ex_review_env 5 (Minute * 5) "widget" None ex_world)) =
      S (get_calls ex_world + k) /\
    length (List.filter is_wait
              (new_events ex_world
                 (snd (pollFork ex_review_env 5 (Minute * 5) "widget" None ex_world)))) = k /\
    length (List.filter is_get
              (new_events ex_world
                 (snd (pollFork ex_review_env 5 (Minute * 5) "widget" None ex_world)))) = S k.
Proof.
  assert (H : pollFork ex_review_env 5 (Minute * 5) "widget" None ex_world =
                (Ok {| HTMLURL := "https://github.com/bot/widget" |},
                 snd (pollFork ex_review_env 5 (Minute * 5) "widget" None ex_world)))
    by (vm_compute; reflexivity).
  split; [exact H|].
  exact (poll_returns_first_answer ex_review_env 5 (Minute * 5) "widget" None ex_world _ _ H).
Defined.

(** ** The whole run *)

(** X11: a run that comes to its end without [log.Fatal] has removed its
    workspace: the temporary directory is gone from the disk, and removing
    it is the last call of the run. *)
Theorem successful_run_removes_workspace env fuel w w' :
  (forall n, fault env OpRemoveAll n = None) ->
  main env fuel w = (Ok tt, w') ->
  exists dir,
    TempDir_result env = inl dir /\
    disk w' !! dir = None /\
    last (trace w') = Some (EvRemoveAll dir).
Proof.
  intros Hf H. rewrite main_stages in H.
  destruct (negb _).
  { rewrite bind_run in H. unfold Println in H. rewrite emit_run in H. discriminate. }
  apply bind_Ok in H as ([] & w1 & _ & H).
  apply bind_Ok in H as (c & w2 & _ & H).
  apply bind_Ok in H as ([] & w3 & _ & H).
  unfold main_fork in H. cbn zeta in H.
  apply bind_Ok in H as (r & w4 & _ & H).
  apply bind_Ok in H as ([] & w5 & _ & H).
  unfold main_poll in H.
  apply bind_Ok in H as (t0 & w6 & _ & H).
  apply bind_Ok in H as (rf & w7 & _ & H).
  unfold main_workspace in H.
  apply bind_Ok in H as ([] & w8 & _ & H).
  apply bind_Ok in H as (dir & w9 & Hd & H).
  rewrite or_Fatal_run in Hd. unfold ioutil_TempDir in Hd.
  destruct (TempDir_result env) as [d|e]; [|discriminate].
  injection Hd as -> _. exists dir. split; [done|].
  unfold defer in H.
  match type of H with
  | match ?body with _ => _ end = _ => destruct body as [[[]|e|c'|] w10]; try discriminate
  end.
  injection H as <-. unfold os_RemoveAll. rewrite call_run, Hf. unfold prim. wsimpl.
  split; [apply lookup_delete_eq|apply last_snoc].
Qed.

Lemma successful_run_removes_workspace_witness :
  ((forall n, fault ex_review_env OpRemoveAll n = None) /\
   main ex_review_env 5 ex_world = (Ok tt, snd (main ex_review_env 5 ex_world))) /\
  exists dir,
    TempDir_result ex_review_env = inl dir /\
    disk (snd (main ex_review_env 5 ex_world)) !! dir = None /\
    last (trace (snd (main ex_review_env 5 ex_world))) = Some (EvRemoveAll dir).
Proof.
  assert (H1 : forall n, fault ex_review_env OpRemoveAll n = None) by reflexivity.
  assert (H2 : main ex_review_env 5 ex_world = (Ok tt, snd (main ex_review_env 5 ex_world)))
    by (vm_compute; reflexivity).
  split; [exact (conj H1 H2)|].
  exact (successful_run_removes_workspace ex_review_env 5 ex_world _ H1 H2).
Defined.

(** ** The modes and the fork *)

Lemma keeps_or_Fatal {A} (m : M A) :
  keeps remote_heads m -> keeps remote_heads (or_Fatal m).
Proof.
  intros Hm. unfold or_Fatal. apply keeps_bind; [by apply keeps_attempt|].
  intros [a|e]; [apply keeps_ret|keeps_leaf_tac].
Qed.

Lemma keeps_defer {A B X} (f : World -> X) (d : M B) (m : M A) :
  keeps f d -> keeps f m -> keeps f (defer d m).
Proof.
  intros Hd Hm w r w'. unfold defer.
  destruct (m w) as [[a|e|c|] w1] eqn:E; intros H; simplify_eq;
    try (by eapply Hm);
    (rewrite (Hd w1 (fst (d w1)) (snd (d w1))) by (by destruct (d w1))); by eapply Hm.
Qed.

Lemma keeps_pollFork env fuel timeout repo_name err :
  keeps remote_heads (pollFork env fuel timeout repo_name err).
Proof.
  revert err. induction fuel as [|fuel IH]; intros err; cbn [pollFork]; [keeps_leaf_tac|].
  apply keeps_bind; [keeps_leaf_tac|intros t].
  destruct (timeout <? t); [keeps_leaf_tac|].
  apply keeps_bind; [keeps_leaf_tac|intros w0].
  apply keeps_bind; [apply keeps_attempt; keeps_leaf_tac|intros [rf|e]]; [apply keeps_ret|].
  apply keeps_bind; [keeps_leaf_tac|intros _].
  apply keeps_bind; [keeps_leaf_tac|intros _]. apply IH.
Qed.

Ltac keeps_main :=
  repeat first
    [ keeps_step
    | lazymatch goal with
      | |- keeps _ (or_Fatal _) => apply keeps_or_Fatal
      | |- keeps _ (defer _ _) => apply keeps_defer
      | |- keeps _ (pollFork _ _ _ _ _) => apply keeps_pollFork
      | |- keeps _ (log_Fatal _) => keeps_leaf_tac
      | |- keeps _ (os_Exit _) => keeps_leaf_tac
      | |- keeps _ (os_MkdirAll _ _) => keeps_leaf_tac
      | |- keeps _ (ioutil_ReadFile _ _) => keeps_leaf_tac
      | |- keeps _ (ioutil_TempDir _) => keeps_leaf_tac
      | |- keeps _ (Repositories_CreateFork _ _ _) => keeps_leaf_tac
      | |- keeps _ (git_PlainClone _ _ _) => keeps_leaf_tac
      | |- keeps _ (unmarshalConfigFile _) => unfold unmarshalConfigFile
      | |- keeps _ (handleReview _ _ _ _ _) => unfold handleReview
      | |- keeps _ (main_fork _ _) => unfold main_fork; cbn zeta
      | |- keeps _ (main_poll _ _ _ _) => unfold main_poll
      | |- keeps _ (main_workspace _ _ _) => unfold main_workspace
      end ].

Lemma emits_pollFork_calls env Q fuel timeout repo_name err :
  (forall t, Q (EvNow t)) -> (forall e, Q (EvFatal e)) -> (forall o n, Q (EvGet o n)) ->
  (forall s, Q (EvPrintln s)) -> (forall d, Q (EvSleep d)) ->
  emits Q (pollFork env fuel timeout repo_name err).
Proof.
  intros. revert err. induction fuel as [|fuel IH]; intros err; cbn [pollFork].
  - by apply emits_silent.
  - apply emits_bind; [by apply emits_time_Now|intros t].
    destruct (timeout <? t); [by apply emits_log_Fatal|].
    apply emits_bind; [apply emits_get_world|intros w0].
    apply emits_bind; [by apply emits_attempt, emits_Get|intros [rf|e]]; [apply emits_ret|].
    apply emits_bind; [by apply emits_Println|intros _].
    apply emits_bind; [by apply emits_time_Sleep|intros _]. apply IH.
Qed.

Ltac emits_main :=
  repeat first
    [ emits_step
    | lazymatch goal with
      | |- emits _ (os_Exit _) => apply emits_silent; intros ?; reflexivity
      | |- emits _ (pollFork _ _ _ _ _) => apply emits_pollFork_calls; emits_side
      | |- emits _ (unmarshalConfigFile _) => unfold unmarshalConfigFile
      | |- emits _ (handleReview _ _ _ _ _) => unfold handleReview
      | |- emits _ (runCmd _ _ _) => unfold runCmd
      | |- emits _ (main_fork _ _) => unfold main_fork; cbn zeta
      | |- emits _ (main_poll _ _ _ _) => unfold main_poll
      | |- emits _ (main_workspace _ _ _) => unfold main_workspace
      end ].

Lemma main_dispatch_other env dir r repo_name :
  nth 1 (Args env) EmptyString <> "rewrite" ->
  keeps remote_heads (main_dispatch env dir r repo_name) /\
  emits (fun ev => on_clone ev = false) (main_dispatch env dir r repo_name).
Proof.
  intros Hm. apply String.eqb_neq in Hm. unfold main_dispatch. cbn zeta. rewrite Hm.
  split; destruct (_ =? "review")%string; [keeps_main| keeps_main|emits_main|emits_main].
Qed.

(** X12: only the mode [rewrite] works on the clone or reaches the fork: in
    a run with any other mode word the branches of the fork stay as they
    were, and cloning is the only call made on a repository. *)
Theorem only_rewrite_mode_publishes env fuel w :
  nth 1 (Args env) EmptyString <> "rewrite" ->
  remote_heads (snd (main env fuel w)) = remote_heads w /\
  Forall (fun ev => on_clone ev = false) (new_events w (snd (main env fuel w))).
Proof.
  intros Hm.
  assert (Hk : keeps remote_heads (main env fuel)).
  { rewrite main_stages. destruct (negb _); keeps_main.
    all: by apply main_dispatch_other. }
  assert (He : emits (fun ev => on_clone ev = false) (main env fuel)).
  { rewrite main_stages. destruct (negb _); emits_main.
    all: by apply main_dispatch_other. }
  destruct (main env fuel w) as [r w'] eqn:H. cbn [snd]. split; [by eapply Hk|].
  destruct (He _ _ _ H) as (evs & Ht & Hf). by rewrite (new_events_app _ _ _ Ht).
Qed.

Lemma only_rewrite_mode_publishes_witness :
  nth 1 (Args ex_review_env) EmptyString <> "rewrite" /\
  remote_heads (snd (main ex_review_env 5 ex_world)) = remote_heads ex_world /\
  Forall (fun ev => on_clone ev = false)
    (new_events ex_world (snd (main ex_review_env 5 ex_world))).
Proof.
  assert (H : nth 1 (Args ex_review_env) EmptyString <> "rewrite") by (cbn; discriminate).
  split; [exact H|]. exact (only_rewrite_mode_publishes ex_review_env 5 ex_world H).
Defined.

(** ** How a run ends *)

Lemma returns_leaf {A} (m : M A) :
  (forall w, match fst (m w) with Ok _ | Err _ => True | _ => False end) -> returns m.
Proof.
  intros Hm w r w' H. specialize (Hm w). rewrite H in Hm. cbn [fst] in Hm.
  destruct r; [left|right|done|done]; eauto.
Qed.

Lemma returns_ret {A} (a : A) : returns (mret a : M A).
Proof. intros w r w' H. rewrite ret_run in H. simplify_eq. left. eauto. Qed.

Lemma returns_bind {A B} (m : M A) (k : A -> M B) :
  returns m -> (forall a, returns (k a)) -> returns (m ≫= k).
Proof.
  intros Hm Hk w r w' H.
  apply bind_inv in H as [(a & w1 & H1 & H2)|[(e & H1 & ->)|[(c & H1 & _)|[H1 _]]]].
  - by eapply Hk.
  - right. eauto.
  - destruct (Hm _ _ _ H1) as [[? ?]|[? ?]]; discriminate.
  - destruct (Hm _ _ _ H1) as [[? ?]|[? ?]]; discriminate.
Qed.

Lemma returns_traced {A} (m : M A) : returns m -> returns (traced m).
Proof.
  intros Hm w r w' H. apply traced_inv in H as [[H _]|(e & H & ->)]; [by eapply Hm|].
  right. eauto.
Qed.

Lemma returns_attempt {A} (m : M A) : returns m -> returns (attempt m).
Proof.
  intros Hm w r w'. unfold attempt. destruct (m w) as [[a|e|c|] w1] eqn:E; intros H;
    simplify_eq; try (left; eauto; fail);
    destruct (Hm _ _ _ E) as [[? ?]|[? ?]]; discriminate.
Qed.

Lemma returns_vendorLoop files b : returns (vendorLoop files b).
Proof. intros w r w' H. rewrite vendorLoop_run in H. simplify_eq. left. eauto. Qed.

Ltac returns_leaf_tac :=
  apply returns_leaf; intros ?;
  unfold Println, time_Now, time_Sleep, os_MkdirAll,
    ioutil_ReadFile, ioutil_TempDir, os_Chdir, ioutil_ReadDir, ioutil_WriteFile,
    os_RemoveAll, cmd_Run, Repositories_CreateFork, Repositories_Get, git_PlainClone,
    Repository_Worktree, Worktree_Checkout, createBranch, Worktree_AddGlob,
    Worktree_Remove, Worktree_Commit, Repository_CommitObject, Repository_Push,
    get_world, mbind, M_bind, bind, mret, M_ret, ret, emit, may_fail, prim;
  cbn [fst snd]; repeat case_match; simplify_eq; exact I.

Ltac returns_step :=
  lazymatch goal with
  | |- returns (mret _) => apply returns_ret
  | |- returns (ret _) => apply returns_ret
  | |- returns (vendorLoop _ _) => apply returns_vendorLoop
  | |- returns (traced _) => apply returns_traced
  | |- returns (attempt _) => apply returns_attempt
  | |- returns (runCmd _ _ _) => unfold runCmd
  | |- returns (handleReview _ _ _ _ _) => unfold handleReview
  | |- returns (handleRewrite _ _ _ _ _) => unfold handleRewrite
  | |- returns (unmarshalConfigFile _) => unfold unmarshalConfigFile
  | |- returns (if ?b then _ else _) => destruct b
  | |- returns (match ?x with _ => _ end) => destruct x
  | |- returns (mbind _ _) => apply returns_bind; [|intros ?]
  | |- returns _ => returns_leaf_tac
  end.

Lemma fatal1_total {A} (m : M A) : (forall w, exists a, fst (m w) = Ok a) -> fatal1 m.
Proof.
  intros Hm w r w' H. destruct (Hm w) as [a Ha]. rewrite H in Ha. left. by exists a.
Qed.

Lemma fatal1_log_Fatal {A} e : fatal1 (log_Fatal e : M A).
Proof. intros w r w' H. rewrite log_Fatal_run in H. simplify_eq. right. by left. Qed.

Lemma fatal1_bind {A B} (m : M A) (k : A -> M B) :
  fatal1 m -> (forall a, fatal1 (k a)) -> fatal1 (m ≫= k).
Proof.
  intros Hm Hk w r w' H.
  apply bind_inv in H as [(a & w1 & H1 & H2)|[(e & H1 & ->)|[(c & H1 & ->)|[H1 ->]]]].
  - by eapply Hk.
  - destruct (Hm _ _ _ H1) as [[? ?]|[?|?]]; discriminate.
  - destruct (Hm _ _ _ H1) as [[? ?]|[?|?]]; simplify_eq. right. by left.
  - right. by right.
Qed.

Lemma fatal1_or_Fatal {A} (m : M A) : returns m -> fatal1 (or_Fatal m).
Proof.
  intros Hm w r w' H. rewrite or_Fatal_run in H.
  destruct (m w) as [[a|e|c|] w1] eqn:E; simplify_eq.
  - left. eauto.
  - right. by left.
  - destruct (Hm _ _ _ E) as [[? ?]|[? ?]]; discriminate.
  - destruct (Hm _ _ _ E) as [[? ?]|[? ?]]; discriminate.
Qed.

Lemma fatal1_attempt {A} (m : M A) : returns m -> fatal1 (attempt m).
Proof.
  intros Hm w r w' H. destruct (returns_attempt m Hm _ _ _ H) as [[a ->]|[e ->]].
  - left. eauto.
  - by destruct (attempt_not_Err m w e w').
Qed.

Lemma fatal1_defer {A B} (d : M B) (m : M A) : fatal1 m -> fatal1 (defer d m).
Proof.
  intros Hm w r w'. unfold defer.
  destruct (m w) as [[a|e|c|] w1] eqn:E; intros H; simplify_eq.
  - left. eauto.
  - destruct (Hm _ _ _ E) as [[? ?]|[?|?]]; discriminate.
  - by eapply Hm.
  - by eapply Hm.
Qed.

Lemma fatal1_pollFork env fuel timeout repo_name err :
  fatal1 (pollFork env fuel timeout repo_name err).
Proof.
  revert err. induction fuel as [|fuel IH]; intros err; cbn [pollFork].
  - intros w r w' H. unfold prim in H. simplify_eq. right. by right.
  - apply fatal1_bind; [apply fatal1_total; intros w; by eexists|intros t].
    destruct (timeout <? t); [apply fatal1_log_Fatal|].
    apply fatal1_bind; [apply fatal1_total; intros w; by eexists|intros w0].
    apply fatal1_bind; [apply fatal1_attempt; returns_leaf_tac|].
    intros [rf|e]; [apply fatal1_total; intros w; by eexists|].
    apply fatal1_bind; [apply fatal1_total; intros w; by eexists|intros _].
    apply fatal1_bind; [apply fatal1_total; intros w; by eexists|intros _]. apply IH.
Qed.

Ltac fatal1_step :=
  lazymatch goal with
  | |- fatal1 (mbind _ _) => apply fatal1_bind; [|intros ?]
  | |- fatal1 (or_Fatal _) => apply fatal1_or_Fatal; repeat returns_step
  | |- fatal1 (attempt _) => apply fatal1_attempt; repeat returns_step
  | |- fatal1 (log_Fatal _) => apply fatal1_log_Fatal
  | |- fatal1 (defer _ _) => apply fatal1_defer
  | |- fatal1 (pollFork _ _ _ _ _) => apply fatal1_pollFork
  | |- fatal1 (main_fork _ _) => unfold main_fork; cbn zeta
  | |- fatal1 (main_poll _ _ _ _) => unfold main_poll
  | |- fatal1 (main_workspace _ _ _) => unfold main_workspace
  | |- fatal1 (main_dispatch _ _ _ _) => unfold main_dispatch; cbn zeta
  | |- fatal1 (if ?b then _ else _) => destruct b
  | |- fatal1 (match ?x with _ => _ end) => destruct x
  | |- fatal1 _ => apply fatal1_total; intros ?; by eexists
  end.

(** X13: however a run goes, [main] either comes to its end or ends the
    process with status 1: no error of a call is passed on or dropped into
    another status, since every failing step ends in [log.Fatal] or
    [os.Exit(1)]. *)
Theorem main_exit_status env fuel w :
  fst (main env fuel w) = Ok tt \/
  fst (main env fuel w) = Exit 1 \/
  fst (main env fuel w) = OutOfFuel.
Proof.
  assert (H : fatal1 (main env fuel)).
  { rewrite main_stages. destruct (negb _).
    - intros w0 r w' H. rewrite bind_run in H. unfold Println in H. rewrite emit_run in H.
      unfold os_Exit in H. simplify_eq. right. by left.
    - repeat fatal1_step. }
  destruct (main env fuel w) as [r w'] eqn:E. cbn [fst].
  destruct (H _ _ _ E) as [[[] ->]|[->| ->]]; auto.
Qed.

(** ** Creating the branch as a fallback *)

(** X14: in a rewrite run that gets to branch resolution, a checkout with
    creation is made only after the checkout without creation has returned
    an error (which changed nothing but the trace); and when the checkout
    with creation returns an error too, the run returns that error, traced,
    and does nothing more. *)
Theorem branch_creation_is_fallback env dir token cmd w r w' t :
  (forall n, fault env OpChdir n = None) ->
  (forall n, fault env OpWorktree n = None) ->
  disk w !! dir = Some t ->
  handleRewrite env dir token dir cmd w = (r, w') ->
  let w1 := at_branch_resolution dir w in
  (existsb is_create_checkout (new_events w w') = true ->
   exists e, Worktree_Checkout env dir false rewriteBranch w1
             = (Err e, logged (EvCheckout false rewriteBranch) w1)) /\
  (forall e1 w2 e2 w3,
     Worktree_Checkout env dir false rewriteBranch w1 = (Err e1, w2) ->
     Worktree_Checkout env dir true rewriteBranch w2 = (Err e2, w3) ->
     r = Err (Trace e2) /\ w' = w3).
Proof.
  intros Hc Hw Ht H. cbn zeta.
  set (w1 := at_branch_resolution dir w).
  assert (Hw1 : trace w1 = trace w ++ [EvChdir dir; EvWorktree]).
  { unfold w1, at_branch_resolution. wsimpl. by rewrite <- app_assoc. }
  unfold handleRewrite in H. fold rewriteBranch in H.
  rewrite bind_run in H. unfold traced at 1, os_Chdir in H.
  rewrite call_run, Hc in H. unfold prim in H. wsimpl. rewrite Ht in H.
  rewrite bind_run in H. unfold traced at 1, Repository_Worktree in H.
  rewrite bind_run, emit_run, bind_run in H. unfold may_fail in H.
  rewrite Hw, ret_run in H. fold (at_branch_resolution dir w) in H. fold w1 in H.
  rewrite bind_run in H. unfold attempt at 1 in H.
  destruct (Worktree_Checkout env dir false rewriteBranch w1) as [res2 w2] eqn:Hco.
  destruct (Checkout_returns _ _ _ _ _ _ _ Hco) as [[[] ->]|[e1 ->]].
  - (* the branch was checked out *)
    rewrite bind_run, ret_run in H.
    match type of H with ?m ?w0 = _ =>
      assert (Hrest : emits (fun ev => is_create_checkout ev = false) m)
        by (unfold runCmd; emits_auto)
    end.
    destruct (Hrest _ _ _ H) as (evs & Htr & Hf).
    apply Checkout_trace in Hco as Ht2.
    assert (Hnew : new_events w w' = [EvChdir dir; EvWorktree;
                     EvCheckout false rewriteBranch] ++ evs).
    { apply new_events_app. by rewrite Htr, Ht2, Hw1, <- !app_assoc. }
    assert (Hnone : existsb is_create_checkout (new_events w w') = false).
    { rewrite Hnew, existsb_app. cbn [existsb is_create_checkout orb].
      apply not_true_is_false. intros Hex. apply existsb_exists in Hex as (ev & Hin & Hev).
      rewrite Forall_forall in Hf. apply list_elem_of_In, Hf in Hin. congruence. }
    split; [rewrite Hnone; discriminate|discriminate].
  - (* it failed: creation is tried *)
    apply Checkout_false_Err in Hco as Hw2. subst w2.
    split; [intros _; by exists e1|].
    intros e1' w2' e2 w3 He1 He2. injection He1 as <- <-.
    rewrite bind_run in H. unfold traced at 1 in H. rewrite He2 in H.
    by injection H as <- <-.
Qed.

Lemma branch_creation_is_fallback_witness :
  ((forall n, fault ex_rewrite_env OpChdir n = None) /\
   (forall n, fault ex_rewrite_env OpWorktree n = None) /\
   disk (ex_cloned ex_repo) !! ex_dir = Some ex_tree /\
   handleRewrite ex_rewrite_env ex_dir "s3cret" ex_dir ex_cmd (ex_cloned ex_repo)
     = (Ok tt, ex_rewrite_end)) /\
  ((existsb is_create_checkout (new_events (ex_cloned ex_repo) ex_rewrite_end) = true ->
    exists e,
      Worktree_Checkout ex_rewrite_env ex_dir false rewriteBranch
        (at_branch_resolution ex_dir (ex_cloned ex_repo))
      = (Err e, logged (EvCheckout false rewriteBranch)
                  (at_branch_resolution ex_dir (ex_cloned ex_repo)))) /\
   (forall e1 w2 e2 w3,
      Worktree_Checkout ex_rewrite_env ex_dir false rewriteBranch
        (at_branch_resolution ex_dir (ex_cloned ex_repo)) = (Err e1, w2) ->
      Worktree_Checkout ex_rewrite_env ex_dir true rewriteBranch w2 = (Err e2, w3) ->
      (Ok tt : Res unit) = Err (Trace e2) /\ ex_rewrite_end = w3)).
Proof.
  assert (H1 : forall n, fault ex_rewrite_env OpChdir n = None) by reflexivity.
  assert (H2 : forall n, fault ex_rewrite_env OpWorktree n = None) by reflexivity.
  assert (H3 : disk (ex_cloned ex_repo) !! ex_dir = Some ex_tree)
    by (vm_compute; reflexivity).
  assert (H4 : handleRewrite ex_rewrite_env ex_dir "s3cret" ex_dir ex_cmd
                 (ex_cloned ex_repo) = (Ok tt, ex_rewrite_end))
    by (vm_compute; reflexivity).
  split; [exact (conj H1 (conj H2 (conj H3 H4)))|].
  exact (branch_creation_is_fallback ex_rewrite_env ex_dir "s3cret" ex_cmd
           (ex_cloned ex_repo) (Ok tt) ex_rewrite_end ex_tree H1 H2 H3 H4).
Defined.
